(** * cemba_data.tools.clustering: consensus clustering over repeated Leiden runs

    A shallow embedding of [src/cemba_data/tools/clustering.py].

    Conventions of the embedding.
    - A float value that the code stores or compares (a cutoff, a stored
      metric) is the rational number it denotes ([Q]), compared with
      [Qeq]/[Qle]; comparisons of floats are exact.
    - The metric arithmetic of [_kmode_on_multi_leiden] is given twice: as the
      rational expressions the code evaluates ([kmode_bundle], no rounding)
      and as their float64 evaluation with numpy's rounding and summation
      order (module [F64]).
    - Python exceptions are values of [Py.exn]; a function that may raise
      returns [Py.result].
    - A [dict] is an association list in insertion order.
    - [print] appends a line to a log that is threaded through the drivers.
    - Rows of a table are identified by their position; the index labels
      ([adata.obs_names]) are a list of names given separately where they
      matter ([cell_ambiguity_records]). Category labels are the integers
      returned by the partitioner, whose natural sort order is the numeric
      order. *)

From Stdlib Require Import String DecimalString.
From Stdlib Require Import List ZArith QArith Qminmax Bool Lia Lqa.
From Stdlib Require Import Permutation Sorted.
From Stdlib Require Uint63 PrimFloat.
Import ListNotations.
Open Scope string_scope.
Open Scope list_scope.
Open Scope Z_scope.

(** ** Python exceptions and fallible results *)

Module Py.

(** Keys of dictionaries and column names. *)
Inductive key : Type :=
| KStr (s : string)
| KInt (i : Z)
| KFloat (x : Q).

Inductive exn : Type :=
| KeyError (k : key)
| AttributeError (msg : string)
| IndexError (msg : string)
| TypeError (msg : string)
| ValueError (msg : string)
| ZeroDivisionError.

Inductive result (A : Type) : Type :=
| Ok (a : A)
| Raise (e : exn).

Arguments Ok {A} a.
Arguments Raise {A} e.

Definition bind {A B : Type} (c : result A) (f : A -> result B) : result B :=
  match c with
  | Ok a => f a
  | Raise e => Raise e
  end.

Definition raises {A : Type} (c : result A) : Prop := exists e, c = Raise e.

(** [for x in xs: acc = body(acc, x)] where the body may raise. *)
Fixpoint for_each {A S : Type} (body : S -> A -> result S) (xs : list A) (s : S)
  : result S :=
  match xs with
  | [] => Ok s
  | x :: rest => bind (body s x) (for_each body rest)
  end.

(** [[f(x) for x in xs]] where [f] may raise. *)
Fixpoint map_m {A B : Type} (f : A -> result B) (xs : list A) : result (list B) :=
  match xs with
  | [] => Ok []
  | x :: rest =>
      bind (f x) (fun y => bind (map_m f rest) (fun ys => Ok (y :: ys)))
  end.

(** [range(start, stop, step)] for a positive [step]. *)
Definition range (start stop step : Z) : list Z :=
  map (fun i => start + step * Z.of_nat i)
      (seq 0 (Z.to_nat ((stop - start + step - 1) / step))).

(** [str(i)] for an integer. *)
Definition str (i : Z) : string := NilZero.string_of_int (Z.to_int i).

End Py.

Notation "x <- c ;; k" := (Py.bind c (fun x => k))
  (at level 61, c at next level, right associativity).

Import Py.

(** ** Dictionaries and series *)

Section Dict.
Context {K V : Type} (eqb : K -> K -> bool).

Definition dict : Type := list (K * V).

Fixpoint dict_get (d : dict) (key : K) : option V :=
  match d with
  | [] => None
  | (k', v) :: rest => if eqb key k' then Some v else dict_get rest key
  end.

(** [d[key] = v]: overwrite in place, or append a new key. *)
Fixpoint dict_set (d : dict) (key : K) (v : V) : dict :=
  match d with
  | [] => [(key, v)]
  | (k', v') :: rest =>
      if eqb key k' then (k', v) :: rest else (k', v') :: dict_set rest key v
  end.
End Dict.

Arguments dict : clear implicits.

(** Category labels of a run are integers ([Z]). *)

(** Number of [a]s in [l]: [(l == a).sum()]. *)
Definition count (a : Z) (l : list Z) : nat := count_occ Z.eq_dec l a.

(** The distinct values of a column in increasing order. *)
Fixpoint insert_uniq (x : Z) (l : list Z) : list Z :=
  match l with
  | [] => [x]
  | y :: t =>
      if x <? y then x :: l
      else if x =? y then l
      else y :: insert_uniq x t
  end.

Definition sorted_unique (l : list Z) : list Z := fold_right insert_uniq [] l.

(** [series.unique().size] *)
Definition unique_size (l : list Z) : nat := length (sorted_unique l).

Definition max_count (l : list Z) : nat :=
  fold_right Nat.max 0%nat (map (fun x => count x l) l).

(** [series.mode()]: every most frequent value, in increasing order. *)
Definition modes (l : list Z) : list Z :=
  filter (fun x => Nat.eqb (count x l) (max_count l)) (sorted_unique l).

(** [int(series)]: only a series of exactly one element converts. *)
Definition int_of_series (s : list Z) : result Z :=
  match s with
  | [x] => Ok x
  | _ => Raise (TypeError "cannot convert the series to <class 'int'>")
  end.

Definition Qnat (n : nat) : Q := inject_Z (Z.of_nat n).

Definition Qsum (l : list Q) : Q := fold_right Qplus 0%Q l.

(** [np.array(l).mean()] *)
Definition Qmean (l : list Q) : Q := (Qsum l / Qnat (length l))%Q.

Definition Qgt_bool (x y : Q) : bool := negb (Qle_bool x y).

(** ** Result bundle of one (resolution, k) *)

Record ResultBundle : Type := {
  cluster : list Z;
  n_cluster : nat;
  cluster_pureness : dict Z Q;
  weighted_cluster_pureness : dict Z Q;
  cluster_completeness : dict Z Q;
  weighted_cluster_completeness : dict Z Q;
  cell_ambiguity : dict nat Q;
  overall_pureness : Q;
  overall_completeness : Q;
  bundle_k : Z
}.

(** ** [_select_optimal_k] *)

Record overall_row : Type := {
  row_k : Z;
  row_pureness : Q;
  row_completeness : Q;
  row_n_cluster : nat
}.

(** The table [overall_df]: one row per key of [kmode_results]. The rows are
    taken in the order of the dictionary's keys (pandas releases that sort the
    index of a frame built from nested dicts give the ascending list). *)
Definition overall_df (kmode_results : dict Z ResultBundle) : list overall_row :=
  map (fun kv =>
         {| row_k := fst kv;
            row_pureness := overall_pureness (snd kv);
            row_completeness := overall_completeness (snd kv);
            row_n_cluster := unique_size (cluster (snd kv)) |})
      kmode_results.

Definition n_cluster_max (df : list overall_row) : nat :=
  fold_right Nat.max 0%nat (map row_n_cluster df).

Definition passes (pureness_cutoff completeness_cutoff : Q) (row : overall_row) : bool :=
  Qgt_bool (row_pureness row) pureness_cutoff
  && Qgt_bool (row_completeness row) completeness_cutoff.

(** The loop over [pass_cutoff.iterrows()] with its [break]. *)
Fixpoint scan_rows (n_max : nat) (rows : list overall_row) : list overall_row :=
  match rows with
  | [] => []
  | row :: rest =>
      if Nat.eqb (row_n_cluster row) n_max then [row]
      else row :: scan_rows n_max rest
  end.

(** [series.max()] of a non-empty integer column. *)
Definition Zmax_list (x : Z) (l : list Z) : Z := fold_left Z.max l x.

(** [kmode_results] is [None] for a resolution whose sweep was skipped. *)
Definition _select_optimal_k (kmode_results : option (dict Z ResultBundle))
           (pureness_cutoff completeness_cutoff : Q) : result Z :=
  match kmode_results with
  | None => Raise (AttributeError "'NoneType' object has no attribute 'items'")
  | Some kr =>
      let df := overall_df kr in
      let n_max := n_cluster_max df in
      let pass_cutoff := filter (passes pureness_cutoff completeness_cutoff) df in
      match scan_rows n_max pass_cutoff with
      | [] => Raise (KeyError (KStr "k"))
      | row :: rows => Ok (Zmax_list (row_k row) (map row_k rows))
      end
  end.

(** ** Per-cell tables *)

(** A column of a [DataFrame]; [None] stands for the missing value [NaN]. *)
Inductive column : Type :=
| FloatCol (v : list (option Q))
| IntCol (v : list Z)
| BoolCol (v : list bool)
| ObjectCol (v : list (option string)).

Definition DataFrame : Type := dict string column.

(** [df[name]] *)
Definition df_getitem (df : DataFrame) (name : string) : result column :=
  match dict_get String.eqb df name with
  | Some c => Ok c
  | None => Raise (KeyError (KStr name))
  end.

(** [df[name] = c] *)
Definition df_setitem (df : DataFrame) (name : string) (c : column) : DataFrame :=
  dict_set String.eqb df name c.

Definition as_int (c : column) : result (list Z) :=
  match c with
  | IntCol v => Ok v
  | _ => Raise (TypeError "integer column expected")
  end.

Definition as_float (c : column) : result (list (option Q)) :=
  match c with
  | FloatCol v => Ok v
  | _ => Raise (TypeError "float column expected")
  end.

Definition as_bool (c : column) : result (list bool) :=
  match c with
  | BoolCol v => Ok v
  | _ => Raise (TypeError "boolean column expected")
  end.

Definition as_object (c : column) : result (list (option string)) :=
  match c with
  | ObjectCol v => Ok v
  | _ => Raise (TypeError "object column expected")
  end.

(** [series.map(other)]: look every label up in [other]; absent gives [NaN]. *)
Definition series_map (labels : list Z) (other : dict Z Q) : list (option Q) :=
  map (dict_get Z.eqb other) labels.

(** [df[mask]] on one column. *)
Definition select_mask {A : Type} (mask : list bool) (col : list A) : list A :=
  map snd (filter fst (combine mask col)).

(** [series <= cutoff]; a comparison with [NaN] is [False]. *)
Definition le_cutoff (cutoff : Q) (a : option Q) : bool :=
  match a with
  | Some x => Qle_bool x cutoff
  | None => false
  end.

Definition count_true (l : list bool) : nat := List.length (filter (fun b => b) l).

Definition distinct_strings (l : list string) : list string := nodup string_dec l.

Fixpoint dropna {A : Type} (l : list (option A)) : list A :=
  match l with
  | [] => []
  | Some x :: t => x :: dropna t
  | None :: t => dropna t
  end.

(** ** [_filter_cell_and_cluster] *)

Definition _filter_cell_and_cluster (result_dict : ResultBundle)
           (cell_ambiguity_cutoff cluster_portion_cutoff : Q) : result DataFrame :=
  let n := List.length (cluster result_dict) in
  let cell_data : DataFrame :=
    [ ("LK_cell_ambiguity",
       FloatCol (map (dict_get Nat.eqb (cell_ambiguity result_dict)) (seq 0 n)));
      ("LK_cluster", IntCol (cluster result_dict)) ] in
  let cluster_pureness := cluster_pureness result_dict in
  let cluster_completeness := cluster_completeness result_dict in
  c <- df_getitem cell_data "cluster" ;;
  labels <- as_int c ;;
  let cell_data :=
    df_setitem cell_data "LK_cluster_pureness"
               (FloatCol (series_map labels cluster_pureness)) in
  c <- df_getitem cell_data "cluster" ;;
  labels <- as_int c ;;
  let cell_data :=
    df_setitem cell_data "LK_cluster_completeness"
               (FloatCol (series_map labels cluster_completeness)) in
  (* ambiguity judge *)
  c <- df_getitem cell_data "LK_cell_ambiguity" ;;
  ambiguity <- as_float c ;;
  let ambiguity_judge := map (le_cutoff cell_ambiguity_cutoff) ambiguity in
  (* cluster size judge, after ambiguity *)
  c <- df_getitem cell_data "LK_cluster" ;;
  lk_cluster <- as_int c ;;
  let _pass_cluster := select_mask ambiguity_judge lk_cluster in
  let pass_rows := List.length _pass_cluster in
  let pass_clusters :=
    filter (fun l => Qgt_bool (Qnat (count l _pass_cluster))
                              (Qnat pass_rows * cluster_portion_cutoff)%Q)
           (sorted_unique _pass_cluster) in
  let cluster_judge :=
    map (fun i => existsb (Z.eqb i) pass_clusters) lk_cluster in
  (* combine judges *)
  let cell_data :=
    df_setitem cell_data "LK_final_judge"
               (BoolCol (map (fun p => andb (fst p) (snd p))
                             (combine cluster_judge ambiguity_judge))) in
  (* mask cell's cluster, row by row *)
  masked <- map_m (fun i : nat =>
                     c <- df_getitem cell_data "final_judge" ;;
                     judge <- as_bool c ;;
                     if nth i judge false then
                       c <- df_getitem cell_data "cluster" ;;
                       labels <- as_int c ;;
                       Ok (Some (Py.str (nth i labels 0)))
                     else Ok None)
                  (seq 0 n) ;;
  Ok (df_setitem cell_data "LK_masked_cluster" (ObjectCol masked)).

(** ** Label ensemble matrix *)

(** The N x R table of labels: [columns] maps a run's seed to that run's
    label vector; [nrows] is the size of the row index. *)
Record frame : Type := {
  nrows : nat;
  columns : list (Z * list Z)
}.

Definition ncols (results : frame) : nat := List.length (columns results).

(** Every column has one label per row. *)
Definition frame_wf (results : frame) : Prop :=
  Forall (fun col => List.length (snd col) = nrows results) (columns results).

(** [column.cat.categories.size] *)
Definition categories_size (col : list Z) : Z := Z.of_nat (unique_size col).

(** [l[start:stop]] *)
Definition slice {A : Type} (start stop : nat) (l : list A) : list A :=
  firstn (stop - start) (skipn start l).

(** ** External collaborators *)

Definition graph : Type := list (nat * nat * Q).

(** [leidenalg.find_partition(g, ..., seed=seed, resolution_parameter=...)]:
    the membership vector of one run. *)
Class Leiden : Type := {
  find_partition : graph -> Z -> Q -> result (list Z)
}.

(** numpy's global generator: [np.random.seed] and
    [np.random.choice(range(population), size, replace=False)]. *)
Class NumpyRandom : Type := {
  rng_state : Type;
  np_random_seed : Z -> rng_state;
  np_random_choice : rng_state -> Z -> nat -> result (list Z * rng_state)
}.

(** [KModes(n_clusters=k).fit_predict(results)]: one cluster per row. *)
Class KModes : Type := {
  fit_predict : frame -> Z -> result (list Z)
}.

(** [concurrent.futures.as_completed]: the submitted tasks in the order in
    which they finish. *)
Class Executor : Type := {
  as_completed : forall A : Type, list A -> list A;
  as_completed_perm : forall (A : Type) (l : list A), Permutation (as_completed A l) l
}.

(** ** [_single_leiden] and [_multi_leiden_clustering] *)

Definition _single_leiden {L : Leiden} (g : graph) (random_states : list Z)
           (resolution : Q) : result (list (Z * list Z)) :=
  results <- map_m (fun seed => find_partition g seed resolution) random_states ;;
  Ok (combine random_states results).

Record AnnData : Type := {
  n_obs : nat;
  neighbors : option graph;
  obs : DataFrame;
  leiden_kmode_results : option (dict Q (option (dict Z ResultBundle)));
  leiden_kmode_resolutions : option (list Q)
}.

Definition chunk_step (n : nat) (cpu : Z) : Z := Z.max (Z.quot (Z.of_nat n) cpu) 5.

Definition random_state_chunks (random_states : list Z) (n : nat) (step : Z)
  : list (list Z) :=
  map (fun i => slice (Z.to_nat i) (Z.to_nat (Z.min (i + step) (Z.of_nat n)))
                      random_states)
      (range 0 (Z.of_nat n) step).

(** The generator state before the call is [rng]; the call reseeds it. The
    partition type and the keyword arguments are handed to every worker
    unchanged and are part of [find_partition]. Each chunk of seeds is one
    future; the futures are collected in completion order and their frames
    are joined column-wise in that order. *)
Definition _multi_leiden_clustering {L : Leiden} {R : NumpyRandom} {E : Executor}
           (rng : rng_state) (adata : AnnData) (n : nat) (seed_of_seeds : Z)
           (resolution : Q) (cpu : Z) : result (frame * rng_state) :=
  match neighbors adata with
  | None =>
      Raise (ValueError "You need to run `pp.neighbors` first to compute a neighborhood graph.")
  | Some g =>
      (* generate n different seeds for each single leiden partition *)
      let rng := np_random_seed seed_of_seeds in
      drawn <- np_random_choice rng 99999 n ;;
      let random_states := fst drawn in
      if cpu =? 0 then Raise ZeroDivisionError
      else
        let step := chunk_step n cpu in
        let chunks := random_state_chunks random_states n step in
        if cpu <? 0 then Raise (ValueError "max_workers must be greater than 0")
        else
          let futures := map (fun chunk => _single_leiden g chunk resolution) chunks in
          results <- map_m (fun future => future) (as_completed _ futures) ;;
          match results with
          | [] => Raise (ValueError "No objects to concatenate")
          | _ =>
              let total_result := concat results in
              if forallb (fun col => Nat.eqb (List.length (snd col)) (n_obs adata))
                         total_result
              then Ok ({| nrows := n_obs adata; columns := total_result |}, snd drawn)
              else Raise (ValueError "Length mismatch")
          end
  end.

(** ** [_kmode_on_multi_leiden] *)

(** The rows of [col] that belong to cluster [c]: a column of [sub_df]. *)
Definition sub_column {A : Type} (clusters : list Z) (c : Z) (col : list A) : list A :=
  select_mask (map (Z.eqb c) clusters) col.

(** First entry of [series.mode()], missing for an empty series. *)
Definition mode (col : list Z) : option Z := hd_error (modes col).

(** [(col == m).sum()]; nothing equals a missing value. *)
Definition count_eq (m : option Z) (col : list Z) : nat :=
  match m with
  | Some x => count x col
  | None => 0%nat
  end.

(** [sub_df.mode().T.iloc[:, 0]] *)
Definition all_modes (results : frame) (clusters : list Z) (c : Z) : list (option Z) :=
  map (fun col => mode (sub_column clusters c (snd col))) (columns results).

Definition col_pureness (clusters : list Z) (c : Z) (col : list Z) : Q :=
  let sub := sub_column clusters c col in
  let mode_count := count_eq (mode sub) sub in
  (Qnat mode_count / Qnat (count c clusters))%Q.

Definition col_completeness (clusters : list Z) (c : Z) (col : list Z) : Q :=
  let sub := sub_column clusters c col in
  let mode_count := count_eq (mode sub) sub in
  let total_mode_count := count_eq (mode sub) col in
  (Qnat mode_count / Qnat total_mode_count)%Q.

Definition pureness_of (results : frame) (clusters : list Z) (c : Z) : Q :=
  Qmean (map (fun col => col_pureness clusters c (snd col)) (columns results)).

Definition completeness_of (results : frame) (clusters : list Z) (c : Z) : Q :=
  Qmean (map (fun col => col_completeness clusters c (snd col)) (columns results)).

(** One row of the table, read across the run columns. *)
Definition row_at (results : frame) (cell : nat) : list (option Z) :=
  map (fun col => nth_error (snd col) cell) (columns results).

Definition same_label (a b : option Z) : bool :=
  match a, b with
  | Some x, Some y => x =? y
  | _, _ => false
  end.

(** [(row == all_modes).sum()] *)
Definition agreement (row modes_ : list (option Z)) : nat :=
  count_true (map (fun p => same_label (fst p) (snd p)) (combine row modes_)).

Definition ambiguity_of (results : frame) (clusters : list Z) (c : Z) (cell : nat) : Q :=
  let portion :=
    (Qnat (agreement (row_at results cell) (all_modes results clusters c))
     / Qnat (ncols results))%Q in
  (1 - portion)%Q.

(** The cells of one group of [results.groupby(final_cluster)]. *)
Definition cells_of (clusters : list Z) (c : Z) : list nat :=
  sub_column clusters c (seq 0 (List.length clusters)).

(** [final_cluster.value_counts() / final_cluster.size] *)
Definition final_portion (clusters : list Z) (c : Z) : Q :=
  (Qnat (count c clusters) / Qnat (List.length clusters))%Q.

(** The bundle for the clusters that KModes returned. The metrics are the
    rational expressions of lines 105-127; their float64 evaluation is in
    module [F64]. The records of [cell_ambiguity] are listed per row, group
    after group, as the loop of line 116 visits them; line 118 files them
    under the row's index label ([cell_ambiguity_records]). *)
Definition kmode_bundle (results : frame) (clusters : list Z) (_k : Z) : ResultBundle :=
  let groups := sorted_unique clusters in
  let pureness := map (fun c => (c, pureness_of results clusters c)) groups in
  let completeness := map (fun c => (c, completeness_of results clusters c)) groups in
  let cell_ambiguity :=
    flat_map (fun c => map (fun cell => (cell, ambiguity_of results clusters c cell))
                           (cells_of clusters c))
             groups in
  let weighted_cluster_pureness :=
    map (fun cp => (fst cp, (snd cp * final_portion clusters (fst cp))%Q)) pureness in
  let weighted_cluster_completeness :=
    map (fun cp => (fst cp, (snd cp * final_portion clusters (fst cp))%Q)) completeness in
  {| cluster := clusters;
     n_cluster := unique_size clusters;
     cluster_pureness := pureness;
     weighted_cluster_pureness := weighted_cluster_pureness;
     cluster_completeness := completeness;
     weighted_cluster_completeness := weighted_cluster_completeness;
     cell_ambiguity := cell_ambiguity;
     overall_pureness := Qsum (map snd weighted_cluster_pureness);
     overall_completeness := Qsum (map snd weighted_cluster_completeness);
     bundle_k := _k |}.

Definition _kmode_on_multi_leiden {KM : KModes} (multi_leiden_result : frame) (k : Z)
  : result ResultBundle :=
  let results := multi_leiden_result in
  clusters <- fit_predict results k ;;
  if Nat.eqb (List.length clusters) (nrows results)
  then
    (* the first group takes column 0 of the transposed modes, which a table
       without run columns does not have *)
    if Nat.eqb (ncols results) 0 && negb (Nat.eqb (nrows results) 0)
    then Raise (IndexError "single positional indexer is out-of-bounds")
    else Ok (kmode_bundle results clusters k)
  else Raise (ValueError "Length of values does not match length of index").

(** ** [_multi_kmode_clustering] *)

(** The [k] argument: the sentinel ['auto'] or an explicit list. *)
Inductive k_policy : Type :=
| Auto
| Ks (ks : list Z).

(** [int(results.apply(lambda i: i.cat.categories.size, axis=0).mode())] *)
Definition mode_k_of (results : frame) : result Z :=
  int_of_series (modes (map (fun col => categories_size (snd col)) (columns results))).

Definition auto_k_low_level (mode_k : Z) : list Z :=
  range (Z.max 2 (mode_k - 5)) (mode_k + 15) 1.

Definition _multi_kmode_clustering {KM : KModes} {E : Executor}
           (multi_leiden_result : frame) (k : k_policy) (cpu : Z)
  : result (dict Z ResultBundle) :=
  let results := multi_leiden_result in
  _k <- match k with
        | Auto =>
            (* mode of n_cluster of all random runs *)
            mode_k <- mode_k_of results ;;
            Ok (auto_k_low_level mode_k)
        | Ks ks => Ok ks
        end ;;
  if cpu <=? 0 then Raise (ValueError "max_workers must be greater than 0")
  else
    let futures := map (fun k => (k, _kmode_on_multi_leiden results k)) _k in
    for_each (fun result_dict future =>
                data <- snd future ;;
                Ok (dict_set Z.eqb result_dict (fst future) data))
             (as_completed _ futures) [].

(** ** [leiden_kmode_clustering] *)

(** Lines written by [print]. *)
Inductive message : Type :=
| MsgRunning (leiden_repeats : nat) (resolution : Q)
| MsgTooExtreme (resolution : Q) (mode_k : Z)
| MsgRunningKMode (leiden_repeats : nat) (n_ks : nat) (kmin kmax : Z)
| MsgSaveResults
| MsgSaveParameters
| MsgOptK (resolution : Q) (opt_k : Z)
| MsgGot (final_cell_count final_cluster_count : nat)
| MsgNoneFulfill.

Definition hard_k_min : Z := 5.

(** at maximum, ave cluster cell number should >= 50 *)
Definition hard_k_max (n_cells : nat) : Z := Z.of_nat n_cells / 50.

Definition auto_k_top_level (mode_k : Z) (n_cells : nat) : list Z :=
  range (Z.max (mode_k - 10) hard_k_min) (Z.min (mode_k * 2) (hard_k_max n_cells)) 2.

(** [np.array(ks).min()] and [.max()]; an empty array has neither. *)
Definition array_min (ks : list Z) : result Z :=
  match ks with
  | [] => Raise (ValueError "zero-size array to reduction operation minimum which has no identity")
  | x :: rest => Ok (fold_left Z.min rest x)
  end.

Definition array_max (ks : list Z) : result Z :=
  match ks with
  | [] => Raise (ValueError "zero-size array to reduction operation maximum which has no identity")
  | x :: rest => Ok (fold_left Z.max rest x)
  end.

(** The ensemble of one resolution. The repeat count handed to
    [_multi_leiden_clustering] is the literal 300; [leiden_repeats] only
    appears in the messages and in the stored parameters. *)
Definition resolution_ensemble {L : Leiden} {R : NumpyRandom} {E : Executor}
           (rng : rng_state) (adata : AnnData) (cpu : Z) (leiden_repeats : nat)
           (_resolution : Q) : result (frame * rng_state) :=
  _multi_leiden_clustering rng adata 300 0 _resolution cpu.

(** State of the loop over resolutions. *)
Record sweep_state {R : NumpyRandom} : Type := {
  sweep_rng : rng_state;
  total_results : dict Q (option (dict Z ResultBundle));
  sweep_log : list message
}.

(** Body of [for _resolution in resolutions]. *)
Definition sweep_resolution {L : Leiden} {R : NumpyRandom} {KM : KModes} {E : Executor}
           (adata : AnnData) (kmode_ks : k_policy) (cpu : Z) (leiden_repeats : nat)
           (st : sweep_state) (_resolution : Q) : result sweep_state :=
  let log := sweep_log st ++ [MsgRunning leiden_repeats _resolution] in
  run <- resolution_ensemble (sweep_rng st) adata cpu leiden_repeats _resolution ;;
  let results := fst run in
  mode_k <- mode_k_of results ;;
  let skip_or_ks :=
    match kmode_ks with
    | Auto =>
        (* generate a list based on mode k *)
        let _kmode_ks := auto_k_top_level mode_k (n_obs adata) in
        match _kmode_ks with
        | [] => None
        | _ => Some _kmode_ks
        end
    | Ks ks => Some ks
    end in
  match skip_or_ks with
  | None =>
      (* mode_k is too extreme *)
      Ok {| sweep_rng := snd run;
            total_results := dict_set Qeq_bool (total_results st) _resolution None;
            sweep_log := log ++ [MsgTooExtreme _resolution mode_k] |}
  | Some _kmode_ks =>
      kmin <- array_min _kmode_ks ;;
      kmax <- array_max _kmode_ks ;;
      let log := log ++ [MsgRunningKMode leiden_repeats (List.length _kmode_ks) kmin kmax] in
      kmode_results <- _multi_kmode_clustering results (Ks _kmode_ks) cpu ;;
      Ok {| sweep_rng := snd run;
            total_results :=
              dict_set Qeq_bool (total_results st) _resolution (Some kmode_results);
            sweep_log := log |}
  end.

Definition leiden_kmode_clustering {L : Leiden} {R : NumpyRandom} {KM : KModes} {E : Executor}
           (rng : rng_state) (adata : AnnData) (resolutions : list Q)
           (kmode_ks : k_policy) (cpu : Z) (leiden_repeats : nat)
  : result (AnnData * list message * rng_state) :=
  st <- for_each (sweep_resolution adata kmode_ks cpu leiden_repeats) resolutions
                 {| sweep_rng := rng; total_results := []; sweep_log := [] |} ;;
  Ok ({| n_obs := n_obs adata;
         neighbors := neighbors adata;
         obs := obs adata;
         leiden_kmode_results := Some (total_results st);
         leiden_kmode_resolutions := Some resolutions |},
      sweep_log st ++ [MsgSaveResults; MsgSaveParameters],
      sweep_rng st).

(** ** [judge_leiden_kmode_results] *)

(** State of the loop over the stored resolutions. *)
Record judge_state : Type := {
  best_resolution : option Q;
  max_opt_k : Z;
  judge_log : list message
}.

(** [d[key]] for the stored sweep results. *)
Definition results_getitem {V : Type} (d : dict Q V) (resolution : Q) : result V :=
  match dict_get Qeq_bool d resolution with
  | Some v => Ok v
  | None => Raise (KeyError (KFloat resolution))
  end.

(** Body of [for resolution in resolutions]. The selector returns an integer
    whenever it returns, so the test [opt_k is not None] always holds. *)
Definition judge_resolution (total : dict Q (option (dict Z ResultBundle)))
           (pureness_cutoff completeness_cutoff : Q)
           (st : judge_state) (resolution : Q) : result judge_state :=
  kmode_results <- results_getitem total resolution ;;
  opt_k <- _select_optimal_k kmode_results pureness_cutoff completeness_cutoff ;;
  let log := judge_log st ++ [MsgOptK resolution opt_k] in
  if max_opt_k st <? opt_k
  then Ok {| best_resolution := Some resolution; max_opt_k := opt_k; judge_log := log |}
  else Ok {| best_resolution := best_resolution st; max_opt_k := max_opt_k st;
             judge_log := log |}.

Definition judge_scan (total : dict Q (option (dict Z ResultBundle)))
           (resolutions : list Q) (pureness_cutoff completeness_cutoff : Q)
  : result judge_state :=
  for_each (judge_resolution total pureness_cutoff completeness_cutoff) resolutions
           {| best_resolution := None; max_opt_k := -1; judge_log := [] |}.

(** [total_results[best_resolution][max_opt_k]] *)
Definition best_k_result (total : dict Q (option (dict Z ResultBundle)))
           (resolution : Q) (opt_k : Z) : result ResultBundle :=
  per_k <- results_getitem total resolution ;;
  match per_k with
  | None => Raise (TypeError "'NoneType' object is not subscriptable")
  | Some d =>
      match dict_get Z.eqb d opt_k with
      | Some rd => Ok rd
      | None => Raise (KeyError (KInt opt_k))
      end
  end.

(** [for col_name, col in cell_data.iteritems(): adata.obs[col_name] = col] *)
Definition attach_columns (obs_ : DataFrame) (cell_data : DataFrame) : DataFrame :=
  fold_left (fun o nc => df_setitem o (fst nc) (snd nc)) cell_data obs_.

(** The tail of the annotation branch: count, report, attach the columns. *)
Definition annotate (adata : AnnData) (st : judge_state) (cell_data : DataFrame)
  : result (AnnData * list message) :=
  c <- df_getitem cell_data "LK_final_judge" ;;
  final_judge <- as_bool c ;;
  c <- df_getitem cell_data "LK_masked_cluster" ;;
  masked <- as_object c ;;
  let final_cell_count := count_true final_judge in
  let final_cluster_count := List.length (distinct_strings (dropna masked)) in
  Ok ({| n_obs := n_obs adata;
         neighbors := neighbors adata;
         obs := attach_columns (obs adata) cell_data;
         leiden_kmode_results := leiden_kmode_results adata;
         leiden_kmode_resolutions := leiden_kmode_resolutions adata |},
      judge_log st ++ [MsgGot final_cell_count final_cluster_count]).

Definition judge_leiden_kmode_results (adata : AnnData)
           (pureness_cutoff completeness_cutoff
            cell_ambiguity_cutoff cluster_portion_cutoff : Q)
  : result (AnnData * list message) :=
  match leiden_kmode_results adata with
  | None =>
      Raise (KeyError (KStr "leiden_kmode_results not found in adata.uns, make sure you run leiden_kmode_clustering first."))
  | Some total =>
      match leiden_kmode_resolutions adata with
      | None => Raise (KeyError (KStr "leiden_kmode_parameter"))
      | Some resolutions =>
          st <- judge_scan total resolutions pureness_cutoff completeness_cutoff ;;
          match best_resolution st with
          | Some best =>
              rd <- best_k_result total best (max_opt_k st) ;;
              cell_data <- _filter_cell_and_cluster rd cell_ambiguity_cutoff
                                                    cluster_portion_cutoff ;;
              annotate adata st cell_data
          | None => Ok (adata, judge_log st ++ [MsgNoneFulfill])
          end
      end
  end.

(** ** Reference definitions used to state the properties *)

(** The per-resolution choice in the words of the specification: among the
    rows passing both cutoffs, the [k] of the first row whose cluster count is
    the largest one among the passing rows. *)
Definition spec_first_max_k (pureness_cutoff completeness_cutoff : Q)
           (kmode_results : dict Z ResultBundle) : option Z :=
  let pass_cutoff :=
    filter (passes pureness_cutoff completeness_cutoff) (overall_df kmode_results) in
  option_map row_k
    (find (fun row => Nat.eqb (row_n_cluster row) (n_cluster_max pass_cutoff))
          pass_cutoff).

(** The [k] selected for one stored resolution. *)
Definition opt_k_of (total : dict Q (option (dict Z ResultBundle)))
           (pureness_cutoff completeness_cutoff : Q) (resolution : Q) : result Z :=
  kmode_results <- results_getitem total resolution ;;
  _select_optimal_k kmode_results pureness_cutoff completeness_cutoff.

(** Number of distinct consensus clusters of the bundle selected for one
    stored resolution. *)
Definition selected_cluster_count (total : dict Q (option (dict Z ResultBundle)))
           (pureness_cutoff completeness_cutoff : Q) (resolution : Q) : result nat :=
  opt_k <- opt_k_of total pureness_cutoff completeness_cutoff resolution ;;
  rd <- best_k_result total resolution opt_k ;;
  Ok (unique_size (cluster rd)).

(** ** Small concrete tables *)

Module Examples.

(** Four cells, one run that splits them two and two. *)
Definition two_pairs : frame :=
  {| nrows := 4; columns := [(7, [0; 0; 1; 1])] |}.

(** Four cells, one run that puts them all together. *)
Definition one_block : frame :=
  {| nrows := 4; columns := [(7, [0; 0; 0; 0])] |}.

(** Sweep of [two_pairs]: k = 2 recovers the pairs, k = 3 splits one pair,
    k = 4 again returns the two pairs (two clusters stay empty). *)
Definition sweep_pairs : dict Z ResultBundle :=
  [ (2, kmode_bundle two_pairs [0; 0; 1; 1] 2);
    (3, kmode_bundle two_pairs [0; 0; 1; 2] 3);
    (4, kmode_bundle two_pairs [0; 0; 1; 1] 4) ].

(** Only k = 3, which is below the completeness cutoff. *)
Definition sweep_split : dict Z ResultBundle :=
  [ (3, kmode_bundle two_pairs [0; 0; 1; 2] 3) ].

(** An ascending sweep whose last passing row reaches the overall maximum. *)
Definition sweep_ascending : dict Z ResultBundle :=
  [ (2, kmode_bundle one_block [0; 0; 0; 0] 2);
    (3, kmode_bundle two_pairs [0; 0; 1; 1] 3) ].

Definition pureness_cutoff : Q := 99 # 100.
Definition completeness_cutoff : Q := 95 # 100.
Definition cell_ambiguity_cutoff : Q := 1 # 100.
Definition cluster_portion_cutoff : Q := 5 # 1000.

(** Two stored resolutions: the first selects k = 2 with two clusters, the
    second selects k = 3 with a single cluster. *)
Definition total_two : dict Q (option (dict Z ResultBundle)) :=
  [ (1 # 1, Some [ (2, kmode_bundle two_pairs [0; 0; 1; 1] 2) ]);
    (2 # 1, Some [ (3, kmode_bundle one_block [0; 0; 0; 0] 3) ]) ].

Definition adata_of (total : dict Q (option (dict Z ResultBundle)))
           (resolutions : list Q) : AnnData :=
  {| n_obs := 4;
     neighbors := None;
     obs := [];
     leiden_kmode_results := Some total;
     leiden_kmode_resolutions := Some resolutions |}.

(** Stored results in which no k passes the cutoffs. *)
Definition adata_none_pass : AnnData :=
  adata_of [ (1 # 1, Some sweep_split) ] [ 1 # 1 ].

(** Stored results whose second resolution was skipped by the sweep. *)
Definition adata_null : AnnData :=
  adata_of [ (1 # 1, Some sweep_ascending); (2 # 1, None) ] [ 1 # 1; 2 # 1 ].

(** Six cells and three runs; the third run disagrees with the others on
    the last cell. *)
Definition three_runs : frame :=
  {| nrows := 6;
     columns := [ (11, [0; 0; 0; 1; 1; 1]);
                  (12, [1; 1; 1; 0; 0; 0]);
                  (13, [0; 0; 0; 1; 1; 0]) ] |}.

(** The bundle of [three_runs] when the clusters follow the first run. *)
Definition bundle_three : ResultBundle :=
  kmode_bundle three_runs [0; 0; 0; 1; 1; 1] 2.

End Examples.

Module SelectorExamples.
Import Examples.

(** The passing rows of [sweep_ascending], split at the row that ends the scan. *)
Definition ascending_pre : list overall_row := firstn 1 (overall_df sweep_ascending).

Definition ascending_row : overall_row :=
  nth 1 (overall_df sweep_ascending)
      {| row_k := 0; row_pureness := 0; row_completeness := 0; row_n_cluster := 0 |}.

End SelectorExamples.

(** ** Small concrete collaborators *)

Module Toy.

(** A partitioner on four cells whose last label depends on the seed. *)
Definition leiden : Leiden :=
  {| find_partition := fun _ seed _ => Ok [0; 0; 1; seed mod 2] |}.

(** A generator whose state is a counter: [choice] hands out the next
    [size] residues, which are distinct when [size <= population]. *)
Definition numpy : NumpyRandom :=
  {| rng_state := Z;
     np_random_seed := fun seed => seed;
     np_random_choice := fun g population size =>
       if Z.of_nat size <=? population
       then Ok (map (fun i => (g + Z.of_nat i) mod population) (seq 0 size),
                g + Z.of_nat size)
       else Raise (ValueError "Cannot take a larger sample than population when 'replace=False'") |}.

(** Tasks finish in the order of submission. *)
Definition in_order : Executor :=
  {| as_completed := fun _ l => l;
     as_completed_perm := fun A l => Permutation_refl l |}.

(** Tasks finish in the reverse order of submission. *)
Definition reversed : Executor :=
  {| as_completed := fun A l => rev l;
     as_completed_perm := fun A l => Permutation_sym (Permutation_rev l) |}.

(** KModes stand-in: the clusters are the labels of the first run. *)
Definition kmodes : KModes :=
  {| fit_predict := fun results _ =>
       match columns results with
       | (_, col) :: _ => Ok col
       | [] => Ok (repeat 0 (nrows results))
       end |}.

Definition adata : AnnData :=
  {| n_obs := 4;
     neighbors := Some [(0%nat, 1%nat, 1%Q); (2%nat, 3%nat, 1%Q)];
     obs := [];
     leiden_kmode_results := None;
     leiden_kmode_resolutions := None |}.

(** The ensemble of ten runs collected in submission order. *)
Definition frame_in_order : frame :=
  {| nrows := 4;
     columns := map (fun seed => (seed, [0; 0; 1; seed mod 2])) (range 0 10 1) |}.


Definition sweep_start : @sweep_state numpy :=
  @Build_sweep_state numpy 0 [] [].

End Toy.

(** Sum of a list of naturals. *)
Definition nat_sum (l : list nat) : nat := fold_right Nat.add 0%nat l.

(** ** The agreement of a row, column by column *)

(** [all_modes[col_name]] for the group of [cell]: the first mode, in one run
    column, of the labels of the cell's cluster. *)
Definition own_cluster_mode (clusters : list Z) (cell : nat) (col : list Z) : option Z :=
  match nth_error clusters cell with
  | Some c => mode (sub_column clusters c col)
  | None => None
  end.

(** One entry of [row == all_modes]. *)
Definition agrees_with_mode (clusters : list Z) (cell : nat) (col : list Z) : bool :=
  same_label (nth_error col cell) (own_cluster_mode clusters cell col).

(** [(row == all_modes).sum()] counted over the run columns. *)
Definition agreeing_runs (results : frame) (clusters : list Z) (cell : nat) : nat :=
  List.length (filter (fun col => agrees_with_mode clusters cell (snd col))
                      (columns results)).

(** ** Further concrete collaborators *)

Module ToyMore.

(** A partitioner that fails on seed 3. *)
Definition leiden_fails_on_3 : Leiden :=
  {| find_partition := fun _ seed _ =>
       if seed =? 3 then Raise (ValueError "partition failed")
       else Ok [0; 0; 1; seed mod 2] |}.

(** A partitioner that finds one community for even seeds and two for odd
    seeds. *)
Definition leiden_alternating : Leiden :=
  {| find_partition := fun _ seed _ => Ok [0; 0; 0; seed mod 2] |}.

End ToyMore.

Module ToyFrames.

(** The ensemble of 300 runs of [ToyMore.leiden_alternating]: half of the
    runs find one community, half find two. *)
Definition ensemble_alternating : frame :=
  {| nrows := 4;
     columns := map (fun seed => (seed, [0; 0; 0; seed mod 2])) (range 0 300 1) |}.

End ToyFrames.

Module ToyKModes.

(** A KModes stand-in that fails for more than three clusters. *)
Definition kmodes_small : KModes :=
  {| fit_predict := fun results k =>
       if 3 <? k then Raise (ValueError "Clustering algorithm could not initialize")
       else match columns results with
            | (_, col) :: _ => Ok col
            | [] => Ok (repeat 0 (nrows results))
            end |}.

End ToyKModes.

Module ToySweep.

(** [Toy.adata] after an ["auto"] sweep over the resolutions 1 and 2. *)
Definition adata_swept : AnnData :=
  {| n_obs := 4;
     neighbors := Some [(0%nat, 1%nat, 1%Q); (2%nat, 3%nat, 1%Q)];
     obs := [];
     leiden_kmode_results := Some [(1%Q, None); (2%Q, None)];
     leiden_kmode_resolutions := Some [1%Q; 2%Q] |}.

Definition log_swept : list message :=
  [MsgRunning 50 1; MsgTooExtreme 1 2; MsgRunning 50 2; MsgTooExtreme 2 2;
   MsgSaveResults; MsgSaveParameters].

End ToySweep.

(** * cemba_data.plot.color: palettes

    A shallow embedding of [continuous_color_palette] of
    [src/cemba_data/plot/color.py]. *)

(** [l[start:stop]] with Python's treatment of negative and out-of-range
    indices; [stop = None] stands for an omitted bound. *)
Definition slice_index (len : Z) (i : Z) : Z :=
  if i <? 0 then Z.max 0 (len + i) else Z.min i len.

Definition py_slice {A : Type} (l : list A) (start : Z) (stop : option Z) : list A :=
  let len := Z.of_nat (List.length l) in
  let a := slice_index len start in
  let b := match stop with
           | Some i => slice_index len i
           | None => len
           end in
  firstn (Z.to_nat (b - a)) (skipn (Z.to_nat a) l).

(** [sns.light_palette(color, n_colors)] and
    [sns.dark_palette(color, n_colors, reverse=True)]. *)
Class Seaborn : Type := {
  rgb : Type;
  light_palette : rgb -> Z -> list rgb;
  dark_palette_reversed : rgb -> Z -> list rgb
}.

Definition continuous_color_palette {S : Seaborn} (color : rgb) (n : Z)
           (skip_border : Z) : result (list rgb) :=
  if n =? 1 then Ok [color]
  else if n <? 1 then Raise (ValueError "parameter n colors must >= 1.")
  else
    (* this is just trying to make sure len(color) == n *)
    let light_n := (n + 2 * skip_border) / 2 in
    let light_colors := py_slice (light_palette color light_n) skip_border None in
    let dark_n := n + 2 * skip_border - light_n + 1 in
    let dark_colors :=
      py_slice (dark_palette_reversed color dark_n) 1 (Some (- skip_border)) in
    let colors := light_colors ++ dark_colors in
    Ok colors.

Module ToyPalette.

(** Palettes of grey levels: a colour is a number, a palette counts up or
    down from it. *)
Definition greys : Seaborn :=
  {| rgb := Z;
     light_palette := fun color n_colors =>
       map (fun i => color + Z.of_nat i) (seq 0 (Z.to_nat n_colors));
     dark_palette_reversed := fun color n_colors =>
       map (fun i => color - Z.of_nat i) (seq 0 (Z.to_nat n_colors)) |}.

End ToyPalette.

(** ** Index labels of the ambiguity records *)

(** Filing per-row records under the index labels of the rows,
    [d[name(row)] = value] row after row: a later row with the same name
    overwrites the record of an earlier one. *)
Definition filed {V : Type} (name : nat -> string) (records : dict nat V)
           (d0 : dict string V) : dict string V :=
  fold_left (fun d record => dict_set String.eqb d (name (fst record)) (snd record))
            records d0.

(** [pd.Series(cell_ambiguity_records)]: line 118 files the ambiguity of a row
    under the row's index label, the cell's name in [adata.obs_names]. *)
Definition cell_ambiguity_records (obs_names : list string) (b : ResultBundle)
  : dict string Q :=
  filed (fun cell => nth cell obs_names EmptyString) (cell_ambiguity b) [].

(** ** The ambiguity of a cell in the words of the specification *)





(** ** The counts behind the metrics *)

(** [mode_count] of line 104 and [total_mode_count] of line 109, for the
    group of cluster [c] and one run column. *)
Definition mode_count (clusters : list Z) (c : Z) (col : list Z) : nat :=
  let sub := sub_column clusters c col in
  count_eq (mode sub) sub.

Definition total_mode_count (clusters : list Z) (c : Z) (col : list Z) : nat :=
  let sub := sub_column clusters c col in
  count_eq (mode sub) col.

(** ** The metrics in float64 *)

(** Lines 105-127 as numpy and pandas evaluate them: every count is converted
    to a float64, every division, product and sum is rounded to the nearest
    float64, and a series or array is summed by [np.add.reduce]. *)
Module F64.
Import PrimFloat.
Local Open Scope float_scope.

(** An integer count as a float64 (exact below 2^53). *)
Definition of_count (n : nat) : float := of_uint63 (Uint63.of_Z (Z.of_nat n)).

(** [res += a[i]] from left to right. *)
Definition sum_from (acc : float) (l : list float) : float := fold_left add l acc.

(** The unrolled loop of numpy's pairwise summation: eight accumulators [r]
    take the following blocks of eight terms; what is left over has fewer than
    eight terms. *)
Fixpoint add_blocks (fuel : nat) (r : list float) (l : list float)
  : list float * list float :=
  match fuel with
  | O => (r, l)
  | S fuel' =>
      if (8 <=? List.length l)%nat
      then add_blocks fuel' (map (fun p => fst p + snd p) (combine r (firstn 8 l)))
                      (skipn 8 l)
      else (r, l)
  end.

Definition block_sum (l : list float) : float :=
  let '(r, rest) := add_blocks (List.length l) (firstn 8 l) (skipn 8 l) in
  match r with
  | [r0; r1; r2; r3; r4; r5; r6; r7] =>
      sum_from (((r0 + r1) + (r2 + r3)) + ((r4 + r5) + (r6 + r7))) rest
  | _ => sum_from 0 l
  end.

(** numpy's [pairwise_sum]: fewer than 8 terms are added from left to right,
    up to 128 terms in eight accumulators, and a longer array is split in two
    parts, the first a multiple of eight long. [fuel] bounds the depth of the
    splitting. The terms summed here are never negative, so the sign of the
    initial zero plays no role. *)
Fixpoint pairwise_sum (fuel : nat) (l : list float) : float :=
  let n := List.length l in
  if (n <? 8)%nat then sum_from 0 l
  else if (n <=? 128)%nat then block_sum l
  else match fuel with
       | O => block_sum l
       | S fuel' =>
           let n2 := (n / 2 - (n / 2) mod 8)%nat in
           pairwise_sum fuel' (firstn n2 l) + pairwise_sum fuel' (skipn n2 l)
       end.

(** [np.add.reduce(l)], which is what [Series.sum()] and [ndarray.mean()]
    call: the identity 0 plus the pairwise sum. *)
Definition np_sum (l : list float) : float := 0 + pairwise_sum (List.length l) l.

(** [np.array(l).mean()] *)
Definition np_mean (l : list float) : float := np_sum l / of_count (List.length l).

(** [mode_count / sub_rows] *)
Definition col_pureness (clusters : list Z) (c : Z) (col : list Z) : float :=
  let sub_col := sub_column clusters c col in
  let mode_count := count_eq (mode sub_col) sub_col in
  of_count mode_count / of_count (count c clusters).

(** [mode_count / total_mode_count] *)
Definition col_completeness (clusters : list Z) (c : Z) (col : list Z) : float :=
  let sub_col := sub_column clusters c col in
  let mode_count := count_eq (mode sub_col) sub_col in
  let total_mode_count := count_eq (mode sub_col) col in
  of_count mode_count / of_count total_mode_count.

Definition pureness_of (results : frame) (clusters : list Z) (c : Z) : float :=
  np_mean (map (fun col => col_pureness clusters c (snd col)) (columns results)).

Definition completeness_of (results : frame) (clusters : list Z) (c : Z) : float :=
  np_mean (map (fun col => col_completeness clusters c (snd col)) (columns results)).

(** [1 - (row == all_modes).sum() / ncols] *)
Definition ambiguity_of (results : frame) (clusters : list Z) (c : Z) (cell : nat)
  : float :=
  let portion :=
    of_count (agreement (row_at results cell) (all_modes results clusters c))
    / of_count (ncols results) in
  1 - portion.

(** [final_cluster.value_counts() / final_cluster.size] *)
Definition final_portion (clusters : list Z) (c : Z) : float :=
  of_count (count c clusters) / of_count (List.length clusters).

(** The sum of the weighting fractions of all clusters. *)
Definition final_portion_sum (clusters : list Z) : float :=
  np_sum (map (final_portion clusters) (sorted_unique clusters)).

(** [(pureness * final_portion).sum()] *)
Definition overall_pureness (results : frame) (clusters : list Z) : float :=
  np_sum (map (fun c => pureness_of results clusters c * final_portion clusters c)
              (sorted_unique clusters)).

(** [(completeness * final_portion).sum()] *)
Definition overall_completeness (results : frame) (clusters : list Z) : float :=
  np_sum (map (fun c => completeness_of results clusters c * final_portion clusters c)
              (sorted_unique clusters)).

End F64.

(** ** Further concrete tables *)

Module MoreExamples.



(** Six cells and two runs. In the second run the first cell of either
    cluster disagrees with the two other cells of its cluster. *)
Definition skewed_runs : frame :=
  {| nrows := 6;
     columns := [ (21, [0; 0; 0; 1; 1; 1]);
                  (22, [5; 3; 3; 0; 4; 4]) ] |}.

Definition bundle_skewed : ResultBundle :=
  kmode_bundle skewed_runs [0; 0; 0; 1; 1; 1] 2.


(** Six rows of which the last two carry the same name. *)
Definition names_repeated : list string := ["c0"; "c1"; "c2"; "c3"; "c4"; "c4"].

End MoreExamples.

(** Four hundred cells in four communities of one hundred, whatever the
    seed. *)
Module ToyLarge.



Definition adata : AnnData :=
  {| n_obs := 400;
     neighbors := Some [(0%nat, 1%nat, 1%Q)];
     obs := [];
     leiden_kmode_results := None;
     leiden_kmode_resolutions := None |}.


End ToyLarge.

(** * Properties *)

(** ** Basic facts about results, maxima and dictionaries *)

Lemma bind_Ok_inv {A B : Type} (c : result A) (f : A -> result B) (b : B) :
  Py.bind c f = Ok b -> exists a, c = Ok a /\ f a = Ok b.
Proof.
  destruct c as [a | e]; simpl; intros Hb.
  - exists a. split; [reflexivity | exact Hb].
  - discriminate Hb.
Qed.

Lemma for_each_app {A S : Type} (body : S -> A -> result S) (xs ys : list A) (s : S) :
  for_each body (xs ++ ys) s = Py.bind (for_each body xs s) (for_each body ys).
Proof.
  revert s. induction xs as [| x xs IH]; intros s; simpl.
  - reflexivity.
  - destruct (body s x) as [s' | e]; simpl; [apply IH | reflexivity].
Qed.

Lemma Zmax_list_ge (l : list Z) (x : Z) : x <= Zmax_list x l.
Proof.
  unfold Zmax_list. revert x. induction l as [| y l IH]; intros x; simpl.
  - lia.
  - specialize (IH (Z.max x y)). lia.
Qed.

Lemma Zmax_list_upper (l : list Z) (x : Z) :
  Forall (fun y => y <= Zmax_list x l) l.
Proof.
  unfold Zmax_list. revert x. induction l as [| y l IH]; intros x; simpl.
  - constructor.
  - constructor.
    + pose proof (Zmax_list_ge l (Z.max x y)) as Hge. unfold Zmax_list in Hge. lia.
    + apply IH.
Qed.

Lemma Zmax_list_In (l : list Z) (x : Z) : In (Zmax_list x l) (x :: l).
Proof.
  unfold Zmax_list. revert x. induction l as [| y l IH]; intros x; simpl.
  - left. reflexivity.
  - destruct (IH (Z.max x y)) as [Heq | Hin].
    + destruct (Z.max_spec x y) as [[_ Hm] | [_ Hm]].
      * right. left. rewrite <- Hm at 1. exact Heq.
      * left. rewrite <- Hm at 1. exact Heq.
    + right. right. exact Hin.
Qed.

Lemma n_cluster_max_ge (df : list overall_row) (row : overall_row) :
  In row df -> (row_n_cluster row <= n_cluster_max df)%nat.
Proof.
  unfold n_cluster_max. induction df as [| r df IH]; simpl; intros Hin.
  - contradiction.
  - destruct Hin as [-> | Hin]; [lia | specialize (IH Hin); lia].
Qed.

Lemma n_cluster_max_le (df : list overall_row) (b : nat) :
  (forall row, In row df -> (row_n_cluster row <= b)%nat) ->
  (n_cluster_max df <= b)%nat.
Proof.
  unfold n_cluster_max. induction df as [| r df IH]; simpl; intros Hb.
  - lia.
  - apply Nat.max_lub.
    + apply Hb. left. reflexivity.
    + apply IH. intros row Hin. apply Hb. right. exact Hin.
Qed.

(** ** The scan of [_select_optimal_k] *)

Lemma scan_rows_stop (n_max : nat) (pre post : list overall_row) (row : overall_row) :
  Forall (fun r => row_n_cluster r <> n_max) pre ->
  row_n_cluster row = n_max \/ post = [] ->
  scan_rows n_max (pre ++ row :: post) = pre ++ [row].
Proof.
  intros Hpre Hrow. induction Hpre as [| r pre Hr _ IH]; simpl.
  - destruct (Nat.eqb_spec (row_n_cluster row) n_max) as [_ | Hne].
    + reflexivity.
    + destruct Hrow as [Heq | ->]; [contradiction | reflexivity].
  - destruct (Nat.eqb_spec (row_n_cluster r) n_max) as [Heq | _].
    + contradiction.
    + rewrite IH. reflexivity.
Qed.

Lemma scan_rows_nil_iff (n_max : nat) (rows : list overall_row) :
  scan_rows n_max rows = [] <-> rows = [].
Proof.
  split.
  - destruct rows as [| r rows]; simpl; [reflexivity |].
    destruct (Nat.eqb (row_n_cluster r) n_max); discriminate.
  - intros ->. reflexivity.
Qed.

Lemma scan_rows_incl (n_max : nat) (rows : list overall_row) :
  incl (scan_rows n_max rows) rows.
Proof.
  induction rows as [| r rows IH]; simpl.
  - apply incl_refl.
  - destruct (Nat.eqb (row_n_cluster r) n_max).
    + intros x [-> | []]. left. reflexivity.
    + intros x [-> | Hin]; [left; reflexivity | right; apply IH; exact Hin].
Qed.

Lemma overall_df_keys (kr : dict Z ResultBundle) :
  map row_k (overall_df kr) = map fst kr.
Proof.
  unfold overall_df. rewrite map_map. apply map_ext. intros kv. reflexivity.
Qed.

Lemma sorted_filter_keys (f : overall_row -> bool) (df : list overall_row) :
  StronglySorted Z.lt (map row_k df) ->
  StronglySorted Z.lt (map row_k (filter f df)).
Proof.
  induction df as [| r df IH]; simpl; intros Hs.
  - constructor.
  - inversion Hs as [| x l Hl Hx]; subst.
    destruct (f r); simpl.
    + constructor; [apply IH; exact Hl |].
      rewrite Forall_forall in Hx |- *. intros k Hk. apply Hx.
      rewrite in_map_iff in Hk |- *. destruct Hk as [row [Hrow Hin]].
      exists row. split; [exact Hrow |]. apply filter_In in Hin. tauto.
    + apply IH. exact Hl.
Qed.

Lemma sorted_last_is_upper (pre : list Z) (x : Z) (post : list Z) :
  StronglySorted Z.lt (pre ++ x :: post) -> Forall (fun y => y <= x) (pre ++ [x]).
Proof.
  induction pre as [| y pre IH]; simpl; intros Hs.
  - constructor; [lia | constructor].
  - inversion Hs as [| a l Hl Ha]; subst. constructor.
    + rewrite Forall_forall in Ha. specialize (Ha x).
      assert (In x (pre ++ x :: post)) as Hin by (apply in_or_app; right; left; reflexivity).
      specialize (Ha Hin). lia.
    + apply IH. exact Hl.
Qed.

(** When no row passes both cutoffs the selector raises [KeyError: 'k']. *)
Lemma select_optimal_k_none_pass (kr : dict Z ResultBundle) (pc cc : Q) :
  filter (passes pc cc) (overall_df kr) = [] ->
  _select_optimal_k (Some kr) pc cc = Raise (KeyError (KStr "k")).
Proof.
  intros Hnone. unfold _select_optimal_k. rewrite Hnone. reflexivity.
Qed.

(** A selected k is a key of the sweep. *)
Lemma select_optimal_k_is_key (kmr : option (dict Z ResultBundle)) (pc cc : Q) (k : Z) :
  _select_optimal_k kmr pc cc = Ok k ->
  exists kr, kmr = Some kr /\ In k (map fst kr).
Proof.
  destruct kmr as [kr |]; simpl; [| discriminate].
  intros Hsel. exists kr. split; [reflexivity |].
  remember (scan_rows (n_cluster_max (overall_df kr))
                      (filter (passes pc cc) (overall_df kr))) as scanned eqn:Hscan.
  destruct scanned as [| row rows]; [discriminate |].
  injection Hsel as <-.
  assert (In (Zmax_list (row_k row) (map row_k rows)) (map row_k (row :: rows))) as Hin
      by apply Zmax_list_In.
  rewrite Hscan in Hin. rewrite <- overall_df_keys.
  rewrite in_map_iff in Hin |- *. destruct Hin as [r [Hr Hin]].
  exists r. split; [exact Hr |].
  apply scan_rows_incl in Hin. apply filter_In in Hin. tauto.
Qed.

Lemma dict_get_Z_In {V : Type} (d : dict Z V) (k : Z) :
  In k (map fst d) -> exists v, dict_get Z.eqb d k = Some v.
Proof.
  induction d as [| [k' v] d IH]; simpl; intros Hin.
  - contradiction.
  - destruct (Z.eqb_spec k k') as [_ | Hne].
    + exists v. reflexivity.
    + destruct Hin as [Heq | Hin]; [congruence | apply IH; exact Hin].
Qed.

(** C1, refuted as stated: in the sweep [Examples.sweep_pairs] the rows k = 2
    and k = 4 pass the cutoffs with two clusters each while k = 3 (three
    clusters) fails; the first passing row with the largest cluster count is
    k = 2, yet [_select_optimal_k] returns 4. *)
Lemma select_optimal_k_not_first_maximum :
  spec_first_max_k Examples.pureness_cutoff Examples.completeness_cutoff
                   Examples.sweep_pairs = Some 2
  /\ _select_optimal_k (Some Examples.sweep_pairs)
                       Examples.pureness_cutoff Examples.completeness_cutoff = Ok 4.
Proof.
  split; vm_compute; reflexivity.
Qed.

(** C1, amended: when some k passes both cutoffs, [_select_optimal_k] scans
    the passing rows in table order up to and including the first one whose
    cluster count equals the maximum over all candidates (all passing rows
    when none reaches it) and returns the largest k among the scanned rows.
    When the table is in ascending k order this is the k of the row that ends
    the scan, and if that row reaches the maximum it is the passing k with the
    first-seen maximum cluster count. *)
Theorem select_optimal_k_largest_scanned
        (kr : dict Z ResultBundle) (pc cc : Q)
        (pre post : list overall_row) (row : overall_row) :
  filter (passes pc cc) (overall_df kr) = pre ++ row :: post ->
  Forall (fun r => row_n_cluster r <> n_cluster_max (overall_df kr)) pre ->
  row_n_cluster row = n_cluster_max (overall_df kr) \/ post = [] ->
  exists k,
    _select_optimal_k (Some kr) pc cc = Ok k
    /\ In k (map row_k (pre ++ [row]))
    /\ Forall (fun r => row_k r <= k) (pre ++ [row])
    /\ (StronglySorted Z.lt (map fst kr) -> k = row_k row)
    /\ (StronglySorted Z.lt (map fst kr) ->
        row_n_cluster row = n_cluster_max (overall_df kr) ->
        spec_first_max_k pc cc kr = Some k).
Proof.
  intros Hpass Hpre Hrow.
  pose proof (scan_rows_stop _ pre post row Hpre Hrow) as Hscan.
  rewrite <- Hpass in Hscan.
  assert (exists r0 rest, pre ++ [row] = r0 :: rest) as [r0 [rest Hcons]].
  { destruct pre as [| r0 pre']; simpl; eauto. }
  set (k := Zmax_list (row_k r0) (map row_k rest)).
  assert (_select_optimal_k (Some kr) pc cc = Ok k) as Hsel.
  { unfold _select_optimal_k. rewrite Hscan, Hcons. reflexivity. }
  assert (In k (map row_k (pre ++ [row]))) as Hin.
  { rewrite Hcons. apply Zmax_list_In. }
  assert (Forall (fun r => row_k r <= k) (pre ++ [row])) as Hup.
  { rewrite Hcons. constructor.
    - apply Zmax_list_ge.
    - pose proof (Zmax_list_upper (map row_k rest) (row_k r0)) as Hu.
      rewrite Forall_map in Hu. exact Hu. }
  assert (StronglySorted Z.lt (map fst kr) -> k = row_k row) as Hsorted.
  { intros Hs. rewrite <- overall_df_keys in Hs.
    apply (sorted_filter_keys (passes pc cc)) in Hs.
    rewrite Hpass, map_app in Hs. simpl in Hs.
    apply sorted_last_is_upper in Hs.
    rewrite Forall_forall in Hs. rewrite map_app in Hin. simpl in Hin.
    specialize (Hs k Hin).
    rewrite Forall_forall in Hup.
    assert (In row (pre ++ [row])) as Hlast by (apply in_or_app; right; left; reflexivity).
    specialize (Hup row Hlast). simpl in Hup. lia. }
  exists k. repeat split; try assumption.
  intros Hs Hreach. rewrite (Hsorted Hs).
  unfold spec_first_max_k. rewrite Hpass.
  assert (n_cluster_max (pre ++ row :: post) = n_cluster_max (overall_df kr)) as Hmax.
  { apply Nat.le_antisymm.
    - apply n_cluster_max_le. intros r Hr. apply n_cluster_max_ge.
      rewrite <- Hpass in Hr. apply filter_In in Hr. tauto.
    - rewrite <- Hreach. apply n_cluster_max_ge.
      apply in_or_app. right. left. reflexivity. }
  rewrite Hmax. clear - Hpre Hreach.
  induction Hpre as [| r pre Hr _ IH]; simpl.
  - rewrite Hreach, Nat.eqb_refl. reflexivity.
  - destruct (Nat.eqb_spec (row_n_cluster r) (n_cluster_max (overall_df kr)));
      [contradiction | exact IH].
Qed.

(** The ascending sweep [Examples.sweep_ascending]: the scan ends at k = 3. *)
Lemma select_optimal_k_largest_scanned_witness :
  exists k,
    _select_optimal_k (Some Examples.sweep_ascending)
                      Examples.pureness_cutoff Examples.completeness_cutoff = Ok k
    /\ In k (map row_k (SelectorExamples.ascending_pre ++ [SelectorExamples.ascending_row]))
    /\ Forall (fun r => row_k r <= k)
              (SelectorExamples.ascending_pre ++ [SelectorExamples.ascending_row])
    /\ (StronglySorted Z.lt (map fst Examples.sweep_ascending) ->
        k = row_k SelectorExamples.ascending_row)
    /\ (StronglySorted Z.lt (map fst Examples.sweep_ascending) ->
        row_n_cluster SelectorExamples.ascending_row
        = n_cluster_max (overall_df Examples.sweep_ascending) ->
        spec_first_max_k Examples.pureness_cutoff Examples.completeness_cutoff
                         Examples.sweep_ascending = Some k).
Proof.
  apply (select_optimal_k_largest_scanned
           Examples.sweep_ascending Examples.pureness_cutoff Examples.completeness_cutoff
           SelectorExamples.ascending_pre [] SelectorExamples.ascending_row).
  - vm_compute. reflexivity.
  - constructor; [vm_compute; discriminate | constructor].
  - left. vm_compute. reflexivity.
Defined.

(** C2, evaluated at stored results in which no k passes the cutoffs: the
    selector raises [KeyError: 'k'], and so does
    [judge_leiden_kmode_results]; no failure message is reported. *)
Theorem judge_none_pass_raises :
  _select_optimal_k (Some Examples.sweep_split)
                    Examples.pureness_cutoff Examples.completeness_cutoff
  = Raise (KeyError (KStr "k"))
  /\ judge_leiden_kmode_results Examples.adata_none_pass
       Examples.pureness_cutoff Examples.completeness_cutoff
       Examples.cell_ambiguity_cutoff Examples.cluster_portion_cutoff
     = Raise (KeyError (KStr "k")).
Proof.
  split; vm_compute; reflexivity.
Qed.

(** C4: [_filter_cell_and_cluster] reads the column ['cluster'] of a table
    whose columns are ['LK_cell_ambiguity'] and ['LK_cluster'], so it raises
    [KeyError: 'cluster'] for every bundle and no annotation is produced. *)
Theorem filter_cell_and_cluster_raises
        (result_dict : ResultBundle) (cell_ambiguity_cutoff cluster_portion_cutoff : Q) :
  _filter_cell_and_cluster result_dict cell_ambiguity_cutoff cluster_portion_cutoff
  = Raise (KeyError (KStr "cluster")).
Proof.
  reflexivity.
Qed.

(** ** Selection across resolutions *)

Lemma judge_resolution_opt (total : dict Q (option (dict Z ResultBundle)))
      (pc cc : Q) (st : judge_state) (r : Q) (k : Z) :
  opt_k_of total pc cc r = Ok k ->
  judge_resolution total pc cc st r
  = Ok (if max_opt_k st <? k
        then {| best_resolution := Some r; max_opt_k := k;
                judge_log := judge_log st ++ [MsgOptK r k] |}
        else {| best_resolution := best_resolution st; max_opt_k := max_opt_k st;
                judge_log := judge_log st ++ [MsgOptK r k] |}).
Proof.
  unfold opt_k_of, judge_resolution. intros Hopt.
  destruct (results_getitem total r) as [kmr | e]; simpl in *; [| discriminate].
  rewrite Hopt. simpl. destruct (max_opt_k st <? k); reflexivity.
Qed.

Lemma judge_scan_below (total : dict Q (option (dict Z ResultBundle)))
      (pc cc : Q) (m : Z) (rs : list Q) :
  Forall (fun r => exists kr, opt_k_of total pc cc r = Ok kr /\ kr < m) rs ->
  forall st, max_opt_k st < m ->
  exists st', for_each (judge_resolution total pc cc) rs st = Ok st'
              /\ max_opt_k st' < m.
Proof.
  induction 1 as [| r rs [kr [Hopt Hlt]] _ IH]; intros st Hst; simpl.
  - exists st. split; [reflexivity | exact Hst].
  - rewrite (judge_resolution_opt _ _ _ _ _ _ Hopt). simpl.
    apply IH. destruct (max_opt_k st <? kr); simpl; lia.
Qed.

Lemma judge_scan_kept (total : dict Q (option (dict Z ResultBundle)))
      (pc cc : Q) (m : Z) (rs : list Q) :
  Forall (fun r => exists kr, opt_k_of total pc cc r = Ok kr /\ kr <= m) rs ->
  forall st, max_opt_k st = m ->
  exists st', for_each (judge_resolution total pc cc) rs st = Ok st'
              /\ max_opt_k st' = m
              /\ best_resolution st' = best_resolution st.
Proof.
  induction 1 as [| r rs [kr [Hopt Hle]] _ IH]; intros st Hst; simpl.
  - exists st. repeat split; [exact Hst].
  - rewrite (judge_resolution_opt _ _ _ _ _ _ Hopt). simpl.
    destruct (Z.ltb_spec (max_opt_k st) kr) as [Hlt | _]; [lia |].
    apply (IH {| best_resolution := best_resolution st; max_opt_k := max_opt_k st;
                 judge_log := judge_log st ++ [MsgOptK r kr] |}).
    exact Hst.
Qed.

Lemma opt_k_best_k_result (total : dict Q (option (dict Z ResultBundle)))
      (pc cc : Q) (r : Q) (k : Z) :
  opt_k_of total pc cc r = Ok k -> exists rd, best_k_result total r k = Ok rd.
Proof.
  unfold opt_k_of, best_k_result. intros Hopt.
  destruct (results_getitem total r) as [kmr | e]; simpl in *; [| discriminate].
  apply select_optimal_k_is_key in Hopt. destruct Hopt as [kr [-> Hin]].
  apply dict_get_Z_In in Hin. destruct Hin as [rd Hrd].
  exists rd. rewrite Hrd. reflexivity.
Qed.

(** C3, refuted as stated: with the stored results [Examples.total_two] the
    first resolution selects k = 2 with two consensus clusters and the second
    selects k = 3 with a single cluster; the scan keeps the second. *)
Lemma judge_prefers_larger_k :
  selected_cluster_count Examples.total_two Examples.pureness_cutoff
                         Examples.completeness_cutoff (1 # 1) = Ok 2%nat
  /\ selected_cluster_count Examples.total_two Examples.pureness_cutoff
                            Examples.completeness_cutoff (2 # 1) = Ok 1%nat
  /\ exists st,
      judge_scan Examples.total_two [1 # 1; 2 # 1]
                 Examples.pureness_cutoff Examples.completeness_cutoff = Ok st
      /\ best_resolution st = Some (2 # 1).
Proof.
  split; [vm_compute; reflexivity |].
  split; [vm_compute; reflexivity |].
  eexists. split; vm_compute; reflexivity.
Qed.

(** C3, amended: when every stored resolution has a selected k,
    [judge_leiden_kmode_results] keeps the first resolution (in stored order)
    whose selected k is the largest, provided that k exceeds -1, and applies
    [_filter_cell_and_cluster] to the bundle stored for that resolution under
    that k. *)
Theorem judge_selects_first_largest_k
        (adata : AnnData) (total : dict Q (option (dict Z ResultBundle)))
        (resolutions : list Q) (pc cc cac cpc : Q)
        (pre post : list Q) (best : Q) (m : Z) :
  leiden_kmode_results adata = Some total ->
  leiden_kmode_resolutions adata = Some resolutions ->
  resolutions = pre ++ best :: post ->
  opt_k_of total pc cc best = Ok m ->
  -1 < m ->
  Forall (fun r => exists kr, opt_k_of total pc cc r = Ok kr /\ kr < m) pre ->
  Forall (fun r => exists kr, opt_k_of total pc cc r = Ok kr /\ kr <= m) post ->
  exists st rd,
    judge_scan total resolutions pc cc = Ok st
    /\ best_resolution st = Some best
    /\ max_opt_k st = m
    /\ best_k_result total best m = Ok rd
    /\ judge_leiden_kmode_results adata pc cc cac cpc
       = (cell_data <- _filter_cell_and_cluster rd cac cpc ;;
          annotate adata st cell_data).
Proof.
  intros Hres Hpar -> Hbest Hm Hpre Hpost.
  destruct (judge_scan_below total pc cc m pre Hpre
              {| best_resolution := None; max_opt_k := -1; judge_log := [] |} Hm)
    as [st1 [Hrun1 Hlt]].
  set (st2 := {| best_resolution := Some best; max_opt_k := m;
                 judge_log := judge_log st1 ++ [MsgOptK best m] |}).
  destruct (judge_scan_kept total pc cc m post Hpost st2 eq_refl)
    as [st3 [Hrun3 [Hmax Hkeep]]].
  destruct (opt_k_best_k_result _ _ _ _ _ Hbest) as [rd Hrd].
  assert (judge_scan total (pre ++ best :: post) pc cc = Ok st3) as Hscan.
  { unfold judge_scan. rewrite for_each_app, Hrun1. simpl.
    rewrite (judge_resolution_opt _ _ _ _ _ _ Hbest). simpl.
    destruct (Z.ltb_spec (max_opt_k st1) m) as [_ | Hge]; [| lia].
    exact Hrun3. }
  exists st3, rd. repeat split; try assumption.
  unfold judge_leiden_kmode_results. rewrite Hres, Hpar, Hscan. simpl.
  rewrite Hkeep. simpl. rewrite Hmax, Hrd. reflexivity.
Qed.

(** The stored results [Examples.total_two]: the second resolution is kept. *)
Lemma judge_selects_first_largest_k_witness :
  exists st rd,
    judge_scan Examples.total_two [1 # 1; 2 # 1]
               Examples.pureness_cutoff Examples.completeness_cutoff = Ok st
    /\ best_resolution st = Some (2 # 1)
    /\ max_opt_k st = 3
    /\ best_k_result Examples.total_two (2 # 1) 3 = Ok rd
    /\ judge_leiden_kmode_results
         (Examples.adata_of Examples.total_two [1 # 1; 2 # 1])
         Examples.pureness_cutoff Examples.completeness_cutoff
         Examples.cell_ambiguity_cutoff Examples.cluster_portion_cutoff
       = (cell_data <- _filter_cell_and_cluster rd Examples.cell_ambiguity_cutoff
                                                Examples.cluster_portion_cutoff ;;
          annotate (Examples.adata_of Examples.total_two [1 # 1; 2 # 1]) st cell_data).
Proof.
  apply (judge_selects_first_largest_k
           (Examples.adata_of Examples.total_two [1 # 1; 2 # 1]) Examples.total_two
           [1 # 1; 2 # 1] Examples.pureness_cutoff Examples.completeness_cutoff
           Examples.cell_ambiguity_cutoff Examples.cluster_portion_cutoff
           [1 # 1] [] (2 # 1) 3).
  - reflexivity.
  - reflexivity.
  - reflexivity.
  - vm_compute. reflexivity.
  - lia.
  - constructor; [| constructor]. exists 2. split; [vm_compute; reflexivity | lia].
  - constructor.
Defined.

(** ** A resolution stored as null *)

Lemma judge_resolution_null (total : dict Q (option (dict Z ResultBundle)))
      (pc cc : Q) (st : judge_state) (r : Q) :
  dict_get Qeq_bool total r = Some None ->
  judge_resolution total pc cc st r
  = Raise (AttributeError "'NoneType' object has no attribute 'items'").
Proof.
  intros Hnull. unfold judge_resolution, results_getitem. rewrite Hnull. reflexivity.
Qed.

Lemma judge_loop_null_raises (total : dict Q (option (dict Z ResultBundle)))
      (pc cc : Q) (r : Q) (rs : list Q) :
  In r rs ->
  dict_get Qeq_bool total r = Some None ->
  forall st, raises (for_each (judge_resolution total pc cc) rs st).
Proof.
  intros Hin Hnull. induction rs as [| x rs IH]; intros st; simpl.
  - contradiction.
  - destruct Hin as [-> | Hin].
    + rewrite (judge_resolution_null _ _ _ _ _ Hnull). simpl. eexists. reflexivity.
    + destruct (judge_resolution total pc cc st x) as [st' | e]; simpl.
      * apply IH. exact Hin.
      * eexists. reflexivity.
Qed.

(** C10: if the stored sweep results map a resolution of the stored parameter
    list to the null marker, [judge_leiden_kmode_results] raises; and when the
    resolutions before it have been scanned without error, the exception is
    the [AttributeError] raised by [_select_optimal_k] on that null entry: the
    resolution is not skipped. *)
Theorem judge_null_resolution_raises
        (adata : AnnData) (total : dict Q (option (dict Z ResultBundle)))
        (resolutions : list Q) (pc cc cac cpc : Q) (r : Q) :
  leiden_kmode_results adata = Some total ->
  leiden_kmode_resolutions adata = Some resolutions ->
  In r resolutions ->
  dict_get Qeq_bool total r = Some None ->
  raises (judge_leiden_kmode_results adata pc cc cac cpc)
  /\ forall pre post st,
      resolutions = pre ++ r :: post ->
      judge_scan total pre pc cc = Ok st ->
      judge_leiden_kmode_results adata pc cc cac cpc
      = Raise (AttributeError "'NoneType' object has no attribute 'items'").
Proof.
  intros Hres Hpar Hin Hnull. split.
  - unfold judge_leiden_kmode_results. rewrite Hres, Hpar.
    destruct (judge_loop_null_raises total pc cc r resolutions Hin Hnull
                {| best_resolution := None; max_opt_k := -1; judge_log := [] |})
      as [e He].
    unfold judge_scan. rewrite He. simpl. exists e. reflexivity.
  - intros pre post st -> Hpre.
    unfold judge_leiden_kmode_results. rewrite Hres, Hpar.
    unfold judge_scan in *. rewrite for_each_app, Hpre. simpl.
    rewrite (judge_resolution_null _ _ _ _ _ Hnull). reflexivity.
Qed.

(** The stored results [Examples.adata_null], whose second resolution is null. *)
Lemma judge_null_resolution_raises_witness :
  raises (judge_leiden_kmode_results Examples.adata_null
            Examples.pureness_cutoff Examples.completeness_cutoff
            Examples.cell_ambiguity_cutoff Examples.cluster_portion_cutoff)
  /\ forall pre post st,
      [1 # 1; 2 # 1] = pre ++ (2 # 1) :: post ->
      judge_scan (cons (1 # 1, Some Examples.sweep_ascending) (cons (2 # 1, None) nil))
                 pre Examples.pureness_cutoff Examples.completeness_cutoff = Ok st ->
      judge_leiden_kmode_results Examples.adata_null
        Examples.pureness_cutoff Examples.completeness_cutoff
        Examples.cell_ambiguity_cutoff Examples.cluster_portion_cutoff
      = Raise (AttributeError "'NoneType' object has no attribute 'items'").
Proof.
  apply (judge_null_resolution_raises
           Examples.adata_null
           [(1 # 1, Some Examples.sweep_ascending); (2 # 1, None)]
           [1 # 1; 2 # 1]
           Examples.pureness_cutoff Examples.completeness_cutoff
           Examples.cell_ambiguity_cutoff Examples.cluster_portion_cutoff (2 # 1)).
  - reflexivity.
  - reflexivity.
  - right. left. reflexivity.
  - reflexivity.
Defined.

(** ** Chunks of seeds *)

Lemma firstn_add_split {A : Type} (a b : nat) (l : list A) :
  firstn (a + b) l = firstn a l ++ firstn b (skipn a l).
Proof.
  revert l. induction a as [| a IH]; intros l; simpl.
  - reflexivity.
  - destruct l as [| x l]; simpl.
    + rewrite firstn_nil. reflexivity.
    + rewrite IH. reflexivity.
Qed.

Lemma concat_chunks_nat {A : Type} (s : nat) (l : list A) (m : nat) :
  concat (map (fun j => firstn s (skipn (j * s) l)) (seq 0 m)) = firstn (m * s) l.
Proof.
  induction m as [| m IH].
  - reflexivity.
  - rewrite seq_S, map_app, concat_app, IH. simpl.
    rewrite app_nil_r, (Nat.add_comm s (m * s)), firstn_add_split. reflexivity.
Qed.

Lemma chunk_count_covers (n step : Z) :
  0 <= n -> 0 < step -> n <= step * ((n - 0 + step - 1) / step).
Proof.
  intros Hn Hstep.
  pose proof (Z.mul_succ_div_gt (n - 0 + step - 1) step Hstep). lia.
Qed.

Lemma chunk_start_below (n step j : Z) :
  0 <= n -> 0 < step -> 0 <= j < (n - 0 + step - 1) / step -> step * j < n.
Proof.
  intros Hn Hstep Hj.
  pose proof (Z.mul_div_le (n - 0 + step - 1) step Hstep). nia.
Qed.

Lemma random_state_chunks_nat (random_states : list Z) (n : nat) (step : Z) :
  0 < step ->
  List.length random_states = n ->
  random_state_chunks random_states n step
  = map (fun j => firstn (Z.to_nat step) (skipn (j * Z.to_nat step) random_states))
        (seq 0 (Z.to_nat ((Z.of_nat n - 0 + step - 1) / step))).
Proof.
  intros Hstep Hlen. unfold random_state_chunks, range. rewrite map_map.
  apply map_ext_in. intros j Hj. apply in_seq in Hj.
  assert (0 <= (Z.of_nat n - 0 + step - 1) / step) as Hm.
  { apply Z.div_pos; lia. }
  assert (step * Z.of_nat j < Z.of_nat n) as Hstart.
  { apply chunk_start_below; lia. }
  unfold slice.
  replace (Z.to_nat (0 + step * Z.of_nat j)) with (j * Z.to_nat step)%nat by nia.
  set (rest := skipn (j * Z.to_nat step) random_states).
  assert (List.length rest = (n - j * Z.to_nat step)%nat) as Hrest.
  { unfold rest. rewrite length_skipn, Hlen. reflexivity. }
  destruct (Z.min_spec (0 + step * Z.of_nat j + step) (Z.of_nat n)) as [[_ ->] | [Hge ->]].
  - f_equal. nia.
  - rewrite Nat2Z.id, !firstn_all2; [reflexivity | | ]; rewrite Hrest; nia.
Qed.

(** The chunks are contiguous and cover every drawn seed once. *)
Lemma concat_random_state_chunks (random_states : list Z) (n : nat) (step : Z) :
  0 < step ->
  List.length random_states = n ->
  concat (random_state_chunks random_states n step) = random_states.
Proof.
  intros Hstep Hlen.
  rewrite (random_state_chunks_nat _ _ _ Hstep Hlen), concat_chunks_nat.
  apply firstn_all2. rewrite Hlen.
  pose proof (chunk_count_covers (Z.of_nat n) step ltac:(lia) Hstep) as Hcover.
  assert (0 <= (Z.of_nat n - 0 + step - 1) / step) as Hm by (apply Z.div_pos; lia).
  nia.
Qed.

Lemma random_state_chunks_nil_iff (random_states : list Z) (n : nat) (step : Z) :
  0 < step ->
  (random_state_chunks random_states n step = [] <-> n = 0%nat).
Proof.
  intros Hstep. unfold random_state_chunks, range. split.
  - intros Hnil. apply map_eq_nil in Hnil. apply map_eq_nil in Hnil.
    assert (Z.to_nat ((Z.of_nat n - 0 + step - 1) / step) = 0%nat) as Hz.
    { destruct (Z.to_nat ((Z.of_nat n - 0 + step - 1) / step)); [reflexivity | discriminate]. }
    pose proof (chunk_count_covers (Z.of_nat n) step ltac:(lia) Hstep) as Hcover.
    assert (0 <= (Z.of_nat n - 0 + step - 1) / step) as Hm by (apply Z.div_pos; lia).
    nia.
  - intros ->. simpl. rewrite Z.div_small by lia. reflexivity.
Qed.

Lemma chunk_step_pos (n : nat) (cpu : Z) : 0 < chunk_step n cpu.
Proof. unfold chunk_step. lia. Qed.

(** ** Collecting futures *)

Lemma map_m_length {A B : Type} (f : A -> result B) (xs : list A) (ys : list B) :
  map_m f xs = Ok ys -> List.length ys = List.length xs.
Proof.
  revert ys. induction xs as [| x xs IH]; simpl; intros ys Hm.
  - injection Hm as <-. reflexivity.
  - destruct (f x) as [y | e]; simpl in Hm; [| discriminate].
    destruct (map_m f xs) as [ys' | e]; simpl in Hm; [| discriminate].
    injection Hm as <-. simpl. rewrite (IH ys' eq_refl). reflexivity.
Qed.

Lemma map_m_app {A B : Type} (f : A -> result B) (xs ys : list A) :
  map_m f (xs ++ ys)
  = (a <- map_m f xs ;; b <- map_m f ys ;; Ok (a ++ b)).
Proof.
  induction xs as [| x xs IH]; simpl.
  - destruct (map_m f ys); reflexivity.
  - destruct (f x) as [y | e]; simpl; [| reflexivity].
    rewrite IH. destruct (map_m f xs) as [a | e]; simpl; [| reflexivity].
    destruct (map_m f ys); reflexivity.
Qed.

Lemma map_m_cons_Ok {A B : Type} (f : A -> result B) (x : A) (xs : list A) (zs : list B) :
  map_m f (x :: xs) = Ok zs ->
  exists y ys, f x = Ok y /\ map_m f xs = Ok ys /\ zs = y :: ys.
Proof.
  simpl. intros Hm.
  destruct (f x) as [y | e]; simpl in Hm; [| discriminate].
  destruct (map_m f xs) as [ys | e]; simpl in Hm; [| discriminate].
  injection Hm as <-. exists y, ys. repeat split.
Qed.

(** Futures that all succeed can be collected in any order; the collected
    values are the same up to that order. *)
Lemma collect_permuted {A : Type} (l l' : list (result A)) :
  Permutation l l' ->
  forall vs, map_m (fun future => future) l = Ok vs ->
  exists vs', map_m (fun future => future) l' = Ok vs' /\ Permutation vs vs'.
Proof.
  induction 1 as [| x l l' _ IH | x y l | l l' l'' _ IH1 _ IH2]; intros vs Hvs.
  - exists vs. split; [exact Hvs | apply Permutation_refl].
  - apply map_m_cons_Ok in Hvs. destruct Hvs as [v [vs0 [Hx [Hl ->]]]].
    destruct (IH vs0 Hl) as [vs1 [Hl' Hperm]].
    exists (v :: vs1). simpl. rewrite Hx, Hl'. simpl.
    split; [reflexivity | apply perm_skip; exact Hperm].
  - apply map_m_cons_Ok in Hvs. destruct Hvs as [vy [vs0 [Hy [Hl ->]]]].
    apply map_m_cons_Ok in Hl. destruct Hl as [vx [vs1 [Hx [Hl ->]]]].
    exists (vx :: vy :: vs1). simpl. rewrite Hx, Hy, Hl. simpl.
    split; [reflexivity | apply perm_swap].
  - destruct (IH1 vs Hvs) as [vs1 [H1 Hp1]].
    destruct (IH2 vs1 H1) as [vs2 [H2 Hp2]].
    exists vs2. split; [exact H2 | eapply Permutation_trans; eassumption].
Qed.

Lemma Permutation_concat {A : Type} (ls ls' : list (list A)) :
  Permutation ls ls' -> Permutation (concat ls) (concat ls').
Proof.
  induction 1 as [| x l l' _ IH | x y l | l l' l'' _ IH1 _ IH2]; simpl.
  - apply Permutation_refl.
  - apply Permutation_app_head. exact IH.
  - rewrite !app_assoc. apply Permutation_app_tail. apply Permutation_app_comm.
  - eapply Permutation_trans; eassumption.
Qed.

Lemma combine_app_same {A B : Type} (a a' : list A) (b b' : list B) :
  List.length a = List.length b ->
  combine (a ++ a') (b ++ b') = combine a b ++ combine a' b'.
Proof.
  revert b. induction a as [| x a IH]; intros [| y b] Hlen; simpl in *;
    try discriminate.
  - reflexivity.
  - rewrite IH by (injection Hlen as Hlen; exact Hlen). reflexivity.
Qed.

Lemma forallb_Permutation {A : Type} (f : A -> bool) (l l' : list A) :
  Permutation l l' -> forallb f l = forallb f l'.
Proof.
  induction 1 as [| x l l' _ IH | x y l | l l' l'' _ IH1 _ IH2]; simpl.
  - reflexivity.
  - rewrite IH. reflexivity.
  - destruct (f x), (f y); reflexivity.
  - congruence.
Qed.

(** ** The ensemble of one call *)

Section Ensemble.
Context {L : Leiden} {R : NumpyRandom}.

(** Submitted in order, the chunk workers return the columns of all seeds. *)
Lemma futures_of_columns (g : graph) (resolution : Q) (chunks : list (list Z))
      (vs : list (list Z)) :
  map_m (fun seed => find_partition g seed resolution) (concat chunks) = Ok vs ->
  exists rs,
    map_m (fun future => future)
          (map (fun chunk => _single_leiden g chunk resolution) chunks) = Ok rs
    /\ concat rs = combine (concat chunks) vs.
Proof.
  revert vs. induction chunks as [| chunk chunks IH]; simpl; intros vs Hvs.
  - exists []. split; reflexivity.
  - rewrite map_m_app in Hvs.
    apply bind_Ok_inv in Hvs. destruct Hvs as [a [Ha Hvs]].
    apply bind_Ok_inv in Hvs. destruct Hvs as [b [Hb Hvs]].
    injection Hvs as <-.
    destruct (IH b Hb) as [rs [Hrs Hcat]].
    exists (combine chunk a :: rs). unfold _single_leiden at 1.
    rewrite Ha. simpl. rewrite Hrs. simpl. split; [reflexivity |].
    rewrite Hcat, combine_app_same; [reflexivity |].
    symmetry. eapply map_m_length. exact Ha.
Qed.

Lemma columns_of_futures (g : graph) (resolution : Q) (chunks : list (list Z))
      (rs : list (list (Z * list Z))) :
  map_m (fun future => future)
        (map (fun chunk => _single_leiden g chunk resolution) chunks) = Ok rs ->
  exists vs,
    map_m (fun seed => find_partition g seed resolution) (concat chunks) = Ok vs.
Proof.
  revert rs. induction chunks as [| chunk chunks IH]; simpl; intros rs Hrs.
  - exists []. reflexivity.
  - apply bind_Ok_inv in Hrs. destruct Hrs as [r [Hr Hrs]].
    apply bind_Ok_inv in Hrs. destruct Hrs as [rs' [Hrs' _]].
    unfold _single_leiden in Hr.
    apply bind_Ok_inv in Hr. destruct Hr as [a [Ha _]].
    destruct (IH rs' Hrs') as [b Hb].
    exists (a ++ b). rewrite map_m_app, Ha, Hb. reflexivity.
Qed.

(** What a call needs to succeed, and what it then returns. *)
Lemma multi_leiden_outcome (E : Executor) (rng : rng_state) (adata : AnnData)
      (n : nat) (seed_of_seeds : Z) (resolution : Q) (cpu : Z)
      (g : graph) (random_states : list Z) (rng' : rng_state) (vs : list (list Z)) :
  0 < cpu ->
  neighbors adata = Some g ->
  np_random_choice (np_random_seed seed_of_seeds) 99999 n = Ok (random_states, rng') ->
  List.length random_states = n ->
  map_m (fun seed => find_partition g seed resolution) random_states = Ok vs ->
  n <> 0%nat ->
  forallb (fun col => Nat.eqb (List.length (snd col)) (n_obs adata))
          (combine random_states vs) = true ->
  exists fr,
    _multi_leiden_clustering rng adata n seed_of_seeds resolution cpu = Ok (fr, rng')
    /\ nrows fr = n_obs adata
    /\ Permutation (columns fr) (combine random_states vs)
    /\ ((forall A (l : list A), as_completed A l = l) ->
        columns fr = combine random_states vs).
Proof.
  intros Hcpu Hg Hdraw Hlen Hvs Hn Hall.
  pose proof (chunk_step_pos n cpu) as Hstep.
  pose proof (concat_random_state_chunks _ _ _ Hstep Hlen) as Hcat.
  set (chunks := random_state_chunks random_states n (chunk_step n cpu)) in *.
  assert (map_m (fun seed => find_partition g seed resolution) (concat chunks) = Ok vs)
    as Hvs' by (rewrite Hcat; exact Hvs).
  destruct (futures_of_columns g resolution chunks vs Hvs') as [rs [Hrs Hrs_cat]].
  rewrite Hcat in Hrs_cat.
  set (futures := map (fun chunk => _single_leiden g chunk resolution) chunks) in *.
  destruct (collect_permuted futures (as_completed _ futures)
              (Permutation_sym (as_completed_perm _ futures)) rs Hrs)
    as [rs' [Hrs' Hperm]].
  assert (Permutation (concat rs') (combine random_states vs)) as Hcols.
  { rewrite <- Hrs_cat. apply Permutation_sym, Permutation_concat. exact Hperm. }
  assert (rs' <> []) as Hne.
  { intros ->. apply Permutation_sym, Permutation_nil in Hperm. subst rs.
    apply map_m_length in Hrs. unfold futures in Hrs. rewrite length_map in Hrs.
    assert (chunks = []) as Hnil by (destruct chunks; [reflexivity | discriminate]).
    apply (random_state_chunks_nil_iff random_states n _ Hstep) in Hnil.
    contradiction. }
  assert ((forall A (l : list A), as_completed A l = l) ->
          concat rs' = combine random_states vs) as Hident.
  { intros Hid. rewrite Hid, Hrs in Hrs'. injection Hrs' as <-. exact Hrs_cat. }
  exists {| nrows := n_obs adata; columns := concat rs' |}.
  unfold _multi_leiden_clustering. rewrite Hg, Hdraw. simpl.
  destruct (Z.eqb_spec cpu 0) as [Hz | _]; [lia |].
  destruct (Z.ltb_spec cpu 0) as [Hneg | _]; [lia |].
  fold chunks. fold futures. rewrite Hrs'. simpl.
  rewrite (forallb_Permutation _ _ _ Hcols), Hall.
  destruct rs' as [| r rs'']; [contradiction |].
  repeat split; assumption.
Qed.

Lemma multi_leiden_inv (E : Executor) (rng : rng_state) (adata : AnnData)
      (n : nat) (seed_of_seeds : Z) (resolution : Q) (cpu : Z)
      (fr : frame) (rng' : rng_state) :
  (forall s population size l s',
      np_random_choice s population size = Ok (l, s') -> List.length l = size) ->
  0 < cpu ->
  _multi_leiden_clustering rng adata n seed_of_seeds resolution cpu = Ok (fr, rng') ->
  exists g random_states vs,
    neighbors adata = Some g
    /\ np_random_choice (np_random_seed seed_of_seeds) 99999 n = Ok (random_states, rng')
    /\ List.length random_states = n
    /\ map_m (fun seed => find_partition g seed resolution) random_states = Ok vs
    /\ n <> 0%nat
    /\ forallb (fun col => Nat.eqb (List.length (snd col)) (n_obs adata))
               (combine random_states vs) = true.
Proof.
  intros Hlaw Hcpu Hrun. unfold _multi_leiden_clustering in Hrun.
  destruct (neighbors adata) as [g |]; [| discriminate].
  apply bind_Ok_inv in Hrun. destruct Hrun as [[random_states s'] [Hdraw Hrun]].
  simpl in Hrun.
  destruct (Z.eqb_spec cpu 0) as [Hz | _]; [lia |].
  destruct (Z.ltb_spec cpu 0) as [Hneg | _]; [lia |].
  apply bind_Ok_inv in Hrun. destruct Hrun as [rs' [Hrs' Hrun]].
  pose proof (Hlaw _ _ _ _ _ Hdraw) as Hlen.
  pose proof (chunk_step_pos n cpu) as Hstep.
  pose proof (concat_random_state_chunks _ _ _ Hstep Hlen) as Hcat.
  set (chunks := random_state_chunks random_states n (chunk_step n cpu)) in *.
  set (futures := map (fun chunk => _single_leiden g chunk resolution) chunks) in *.
  destruct (collect_permuted _ futures (as_completed_perm _ futures) rs' Hrs')
    as [rs [Hrs Hperm]].
  destruct (columns_of_futures g resolution chunks rs Hrs) as [vs Hvs].
  destruct (futures_of_columns g resolution chunks vs Hvs) as [rs0 [Hrs0 Hrs_cat]].
  unfold futures in Hrs. rewrite Hrs in Hrs0. injection Hrs0 as <-.
  rewrite Hcat in Hvs, Hrs_cat.
  destruct rs' as [| r rs'']; [discriminate |].
  match type of Hrun with
  | context [forallb ?f ?l] => destruct (forallb f l) eqn:Hall; [| discriminate]
  end.
  injection Hrun as _ <-.
  exists g, random_states, vs. repeat split; try assumption.
  - intros ->. destruct random_states; [| discriminate].
    assert (chunks = []) as Hnil
        by (apply (random_state_chunks_nil_iff [] 0 _ Hstep); reflexivity).
    unfold futures in Hrs. rewrite Hnil in Hrs. simpl in Hrs. injection Hrs as <-.
    apply Permutation_sym, Permutation_nil in Hperm. discriminate.
  - rewrite <- Hrs_cat, <- Hall. apply forallb_Permutation.
    apply Permutation_concat, Permutation_sym. exact Hperm.
Qed.

End Ensemble.

Lemma map_fst_combine_same {A B : Type} (a : list A) (b : list B) :
  List.length a = List.length b -> map fst (combine a b) = a.
Proof.
  revert b. induction a as [| x a IH]; intros [| y b] Hlen; simpl in *;
    try discriminate; [reflexivity |].
  rewrite IH by (injection Hlen as Hlen; exact Hlen). reflexivity.
Qed.

(** C6, refuted as stated: ten runs on two workers form two chunks of five
    seeds; when the second chunk completes first its columns come first, so
    the two completion orders give different matrices. *)
Lemma multi_leiden_column_order_differs :
  exists fr1 fr2 rng',
    @_multi_leiden_clustering Toy.leiden Toy.numpy Toy.in_order
                              5 Toy.adata 10 0 1 2 = Ok (fr1, rng')
    /\ @_multi_leiden_clustering Toy.leiden Toy.numpy Toy.reversed
                                 5 Toy.adata 10 0 1 2 = Ok (fr2, rng')
    /\ fr1 <> fr2.
Proof.
  eexists. eexists. eexists.
  split; [vm_compute; reflexivity |].
  split; [vm_compute; reflexivity |].
  discriminate.
Qed.

(** C6, amended: the drawn seed list depends only on the seed-of-seeds and on
    n, not on the generator state before the call. With a deterministic
    community-detection function, if one call succeeds then so does any other
    call (any positive concurrency degrees, any completion orders) and both
    matrices have the same row index and the same seed-keyed columns up to
    the order of the columns, which follows the order in which the chunk
    workers complete; when the chunks complete in submission order in both
    calls the matrices are identical. *)
Theorem multi_leiden_same_columns
        {L : Leiden} {R : NumpyRandom} (E1 E2 : Executor) (rng1 rng2 : rng_state)
        (adata : AnnData) (n : nat) (seed_of_seeds : Z) (resolution : Q)
        (cpu1 cpu2 : Z) (fr1 : frame) (rng' : rng_state) :
  (forall s population size l s',
      np_random_choice s population size = Ok (l, s') -> List.length l = size) ->
  0 < cpu1 ->
  0 < cpu2 ->
  @_multi_leiden_clustering L R E1 rng1 adata n seed_of_seeds resolution cpu1
  = Ok (fr1, rng') ->
  exists random_states fr2,
    np_random_choice (np_random_seed seed_of_seeds) 99999 n = Ok (random_states, rng')
    /\ @_multi_leiden_clustering L R E2 rng2 adata n seed_of_seeds resolution cpu2
       = Ok (fr2, rng')
    /\ nrows fr2 = nrows fr1
    /\ Permutation (map fst (columns fr1)) random_states
    /\ Permutation (map fst (columns fr2)) random_states
    /\ Permutation (columns fr1) (columns fr2)
    /\ ((forall A (l : list A), @as_completed E1 A l = l) ->
        (forall A (l : list A), @as_completed E2 A l = l) ->
        fr2 = fr1).
Proof.
  intros Hlaw Hcpu1 Hcpu2 Hrun1.
  destruct (multi_leiden_inv E1 _ _ _ _ _ _ _ _ Hlaw Hcpu1 Hrun1)
    as [g [random_states [vs [Hg [Hdraw [Hlen [Hvs [Hn Hall]]]]]]]].
  destruct (multi_leiden_outcome E1 rng1 adata n seed_of_seeds resolution cpu1
              g random_states rng' vs Hcpu1 Hg Hdraw Hlen Hvs Hn Hall)
    as [fr1' [Hrun1' [Hrows1 [Hperm1 Hid1]]]].
  rewrite Hrun1 in Hrun1'. injection Hrun1' as <-.
  destruct (multi_leiden_outcome E2 rng2 adata n seed_of_seeds resolution cpu2
              g random_states rng' vs Hcpu2 Hg Hdraw Hlen Hvs Hn Hall)
    as [fr2 [Hrun2 [Hrows2 [Hperm2 Hid2]]]].
  assert (map fst (combine random_states vs) = random_states) as Hfst.
  { apply map_fst_combine_same. symmetry. eapply map_m_length. exact Hvs. }
  exists random_states, fr2. repeat split; try assumption.
  - congruence.
  - rewrite <- Hfst. apply Permutation_map. exact Hperm1.
  - rewrite <- Hfst. apply Permutation_map. exact Hperm2.
  - eapply Permutation_trans; [exact Hperm1 | apply Permutation_sym; exact Hperm2].
  - intros H1 H2. specialize (Hid1 H1). specialize (Hid2 H2).
    destruct fr1 as [r1 c1], fr2 as [r2 c2]. simpl in *. congruence.
Qed.

(** Ten runs: two workers finishing in order against one worker. *)
Lemma multi_leiden_same_columns_witness :
  exists random_states fr2,
    @np_random_choice Toy.numpy (@np_random_seed Toy.numpy 0) 99999 10
    = Ok (random_states, 10)
    /\ @_multi_leiden_clustering Toy.leiden Toy.numpy Toy.reversed 77 Toy.adata 10 0 1 1
       = Ok (fr2, 10)
    /\ nrows fr2 = nrows Toy.frame_in_order
    /\ Permutation (map fst (columns Toy.frame_in_order)) random_states
    /\ Permutation (map fst (columns fr2)) random_states
    /\ Permutation (columns Toy.frame_in_order) (columns fr2)
    /\ ((forall A (l : list A), @as_completed Toy.in_order A l = l) ->
        (forall A (l : list A), @as_completed Toy.reversed A l = l) ->
        fr2 = Toy.frame_in_order).
Proof.
  apply (@multi_leiden_same_columns Toy.leiden Toy.numpy Toy.in_order Toy.reversed
           5 77 Toy.adata 10 0 1 2 1 Toy.frame_in_order 10).
  - intros s population size l s' Hdraw. simpl in Hdraw.
    destruct (Z.of_nat size <=? population); [| discriminate].
    injection Hdraw as <- _. rewrite length_map, length_seq. reflexivity.
  - lia.
  - lia.
  - vm_compute. reflexivity.
Defined.

(** Whatever [leiden_repeats] is, a successful ensemble of
    [leiden_kmode_clustering] has 300 columns. *)
Lemma resolution_ensemble_columns {L : Leiden} {R : NumpyRandom} (E : Executor)
      (rng : rng_state) (adata : AnnData) (cpu : Z) (leiden_repeats : nat)
      (resolution : Q) (fr : frame) (rng' : rng_state) :
  (forall s population size l s',
      np_random_choice s population size = Ok (l, s') -> List.length l = size) ->
  0 < cpu ->
  resolution_ensemble rng adata cpu leiden_repeats resolution = Ok (fr, rng') ->
  ncols fr = 300%nat.
Proof.
  intros Hlaw Hcpu Hrun. unfold resolution_ensemble in Hrun.
  destruct (multi_leiden_inv E _ _ _ _ _ _ _ _ Hlaw Hcpu Hrun)
    as [g [random_states [vs [Hg [Hdraw [Hlen [Hvs [Hn Hall]]]]]]]].
  destruct (multi_leiden_outcome E rng adata 300 0 resolution cpu
              g random_states rng' vs Hcpu Hg Hdraw Hlen Hvs Hn Hall)
    as [fr' [Hrun' [_ [Hperm _]]]].
  rewrite Hrun in Hrun'. injection Hrun' as <-.
  apply Permutation_length in Hperm.
  unfold ncols. rewrite Hperm, length_combine.
  apply map_m_length in Hvs. lia.
Qed.

(** C5, evaluated with [leiden_repeats] = 50 on four cells: every worker run
    succeeds and the matrix has 300 columns, not 50. *)
Theorem ensemble_ignores_leiden_repeats :
  exists fr rng',
    @resolution_ensemble Toy.leiden Toy.numpy Toy.in_order 0 Toy.adata 4 50 1
    = Ok (fr, rng')
    /\ ncols fr = 300%nat
    /\ ncols fr <> 50%nat.
Proof.
  eexists. eexists. split; [vm_compute; reflexivity |].
  split; [vm_compute; reflexivity | vm_compute; discriminate].
Qed.

(** ** Candidate k values *)

Lemma range_In (start stop step k : Z) :
  0 < step ->
  (In k (range start stop step)
   <-> start <= k < stop /\ (k - start) mod step = 0).
Proof.
  intros Hstep. unfold range. rewrite in_map_iff. split.
  - intros [i [Hk Hi]]. apply in_seq in Hi. subst k.
    assert (0 < (stop - start + step - 1) / step) as Hm by lia.
    pose proof (Z.mul_div_le (stop - start + step - 1) step Hstep) as Hle.
    split; [nia |].
    replace (start + step * Z.of_nat i - start) with (Z.of_nat i * step) by lia.
    apply Z.mod_mul. lia.
  - intros [[Hlo Hhi] Hmod].
    apply Z.div_exact in Hmod; [| lia].
    set (q := (k - start) / step) in *.
    assert (0 <= q) as Hq by (apply Z.div_pos; lia).
    pose proof (Z.mul_succ_div_gt (stop - start + step - 1) step Hstep) as Hgt.
    exists (Z.to_nat q). split; [lia |].
    apply in_seq. split; [lia |]. simpl.
    apply Z2Nat.inj_lt; [lia | apply Z.div_pos; lia | nia].
Qed.

Lemma range_nil_iff (start stop step : Z) :
  0 < step -> (range start stop step = [] <-> stop <= start).
Proof.
  intros Hstep. split.
  - intros Hnil. destruct (Z_lt_le_dec start stop) as [Hlt | Hle]; [| exact Hle].
    assert (In start (range start stop step)) as Hin.
    { apply range_In; [exact Hstep |]. split; [lia |].
      rewrite Z.sub_diag. apply Z.mod_0_l. lia. }
    rewrite Hnil in Hin. contradiction.
  - intros Hle. destruct (range start stop step) as [| k l] eqn:Hr; [reflexivity |].
    assert (In k (range start stop step)) as Hin by (rewrite Hr; left; reflexivity).
    apply range_In in Hin; [lia | exact Hstep].
Qed.

(** ** The mode of a column of counts *)

Lemma insert_uniq_In (x y : Z) (l : list Z) :
  In y (insert_uniq x l) <-> y = x \/ In y l.
Proof.
  induction l as [| z l IH]; simpl.
  - intuition.
  - destruct (Z.ltb_spec x z) as [_ | _]; simpl; [intuition |].
    destruct (Z.eqb_spec x z) as [-> | _]; simpl; [intuition |].
    rewrite IH. intuition.
Qed.

Lemma sorted_unique_In (y : Z) (l : list Z) : In y (sorted_unique l) <-> In y l.
Proof.
  unfold sorted_unique. induction l as [| x l IH]; simpl.
  - reflexivity.
  - rewrite insert_uniq_In, IH. intuition.
Qed.

Lemma max_count_upper_gen (l l0 : list Z) (y : Z) :
  In y l -> (count y l0 <= fold_right Nat.max 0%nat (map (fun x => count x l0) l))%nat.
Proof.
  induction l as [| x l IH]; simpl; intros Hin.
  - contradiction.
  - destruct Hin as [-> | Hin]; [lia | specialize (IH Hin); lia].
Qed.

Lemma count_notin (y : Z) (l : list Z) : ~ In y l -> count y l = 0%nat.
Proof.
  unfold count. intros Hnot. apply count_occ_not_In. exact Hnot.
Qed.

Lemma count_in_pos (y : Z) (l : list Z) : In y l -> (0 < count y l)%nat.
Proof.
  unfold count. intros Hin. apply count_occ_In. exact Hin.
Qed.

Lemma max_count_upper (l : list Z) (y : Z) : (count y l <= max_count l)%nat.
Proof.
  destruct (in_dec Z.eq_dec y l) as [Hin | Hnot].
  - apply max_count_upper_gen. exact Hin.
  - rewrite (count_notin _ _ Hnot). lia.
Qed.

Lemma modes_In (l : list Z) (m : Z) :
  In m (modes l) <-> In m l /\ count m l = max_count l.
Proof.
  unfold modes. rewrite filter_In, sorted_unique_In, Nat.eqb_eq. reflexivity.
Qed.

(** A series that converts with [int] holds one value, which is then the
    only most frequent one. *)
Lemma int_of_modes (l : list Z) (m : Z) :
  int_of_series (modes l) = Ok m ->
  In m l
  /\ (forall x, (count x l <= count m l)%nat)
  /\ (forall x, In x l -> count x l = count m l -> x = m).
Proof.
  unfold int_of_series. intros Hint.
  destruct (modes l) as [| m0 [| m1 rest]] eqn:Hmodes; try discriminate.
  injection Hint as ->.
  assert (In m (modes l)) as Hin by (rewrite Hmodes; left; reflexivity).
  apply modes_In in Hin. destruct Hin as [Hin Hmax].
  split; [exact Hin |]. split.
  - intros x. rewrite Hmax. apply max_count_upper.
  - intros x Hx Hcount.
    assert (In x (modes l)) as Hxm by (apply modes_In; split; [exact Hx | congruence]).
    rewrite Hmodes in Hxm. destruct Hxm as [-> | []]. reflexivity.
Qed.

(** ** Counting inside groups *)

Lemma insert_uniq_sorted (x : Z) (l : list Z) :
  StronglySorted Z.lt l -> StronglySorted Z.lt (insert_uniq x l).
Proof.
  induction 1 as [| y l Hl IH Hy]; simpl.
  - constructor; constructor.
  - destruct (Z.ltb_spec x y) as [Hlt | Hge].
    + constructor; [constructor; assumption |].
      constructor; [exact Hlt |].
      rewrite Forall_forall in Hy |- *. intros z Hz. specialize (Hy z Hz). lia.
    + destruct (Z.eqb_spec x y) as [_ | Hne]; [constructor; assumption |].
      constructor; [exact IH |].
      rewrite Forall_forall in Hy |- *. intros z Hz.
      apply insert_uniq_In in Hz. destruct Hz as [-> | Hz]; [lia | apply Hy; exact Hz].
Qed.

Lemma sorted_unique_sorted (l : list Z) : StronglySorted Z.lt (sorted_unique l).
Proof.
  unfold sorted_unique. induction l as [| x l IH]; simpl.
  - constructor.
  - apply insert_uniq_sorted. exact IH.
Qed.

Lemma sorted_NoDup (l : list Z) : StronglySorted Z.lt l -> NoDup l.
Proof.
  induction 1 as [| y l Hl IH Hy].
  - constructor.
  - constructor; [| exact IH].
    intros Hin. rewrite Forall_forall in Hy. specialize (Hy y Hin). lia.
Qed.

Lemma sorted_unique_NoDup (l : list Z) : NoDup (sorted_unique l).
Proof. apply sorted_NoDup, sorted_unique_sorted. Qed.






Lemma sub_column_length {A : Type} (clusters : list Z) (c : Z) (col : list A) :
  List.length col = List.length clusters ->
  List.length (sub_column clusters c col) = count c clusters.
Proof.
  unfold sub_column, select_mask, count.
  revert col. induction clusters as [| x clusters IH]; intros [| a col] Hlen;
    simpl in *; try discriminate; [reflexivity |].
  injection Hlen as Hlen.
  destruct (Z.eqb_spec c x) as [-> | Hne]; simpl.
  - destruct (Z.eq_dec x x) as [_ | Hbad]; [| contradiction].
    rewrite (IH col Hlen). reflexivity.
  - destruct (Z.eq_dec x c) as [Heq | _]; [congruence |]. apply IH. exact Hlen.
Qed.

Lemma sub_column_count_le (clusters : list Z) (c x : Z) (col : list Z) :
  (count x (sub_column clusters c col) <= count x col)%nat.
Proof.
  unfold sub_column, select_mask, count.
  revert col. induction clusters as [| y clusters IH]; intros [| a col]; simpl;
    try lia.
  specialize (IH col).
  destruct (c =? y); simpl; destruct (Z.eq_dec a x); simpl; lia.
Qed.


(** ** Ratios of counts *)



Lemma Qnat_pos (n : nat) : (0 < n)%nat -> (0 < Qnat n)%Q.
Proof. intros Hpos. unfold Qnat, Qlt. simpl. lia. Qed.

Lemma Qnat_S (n : nat) : (Qnat (S n) == 1 + Qnat n)%Q.
Proof.
  unfold Qnat. rewrite Nat2Z.inj_succ, <- Z.add_1_l, inject_Z_plus. reflexivity.
Qed.

Lemma Qnat_add (a b : nat) : (Qnat (a + b) == Qnat a + Qnat b)%Q.
Proof. unfold Qnat. rewrite Nat2Z.inj_add, inject_Z_plus. reflexivity. Qed.







Lemma final_portion_sum (clusters keys : list Z) :
  (Qsum (map (final_portion clusters) keys)
   == Qnat (nat_sum (map (fun c => count c clusters) keys))
      / Qnat (List.length clusters))%Q.
Proof.
  induction keys as [| c keys IH].
  - simpl. rewrite (Qmult_0_l (/ Qnat (List.length clusters))). reflexivity.
  - change (Qsum (map (final_portion clusters) (c :: keys)))
      with (final_portion clusters c + Qsum (map (final_portion clusters) keys))%Q.
    change (nat_sum (map (fun c0 => count c0 clusters) (c :: keys)))
      with (count c clusters + nat_sum (map (fun c0 => count c0 clusters) keys))%nat.
    rewrite IH, Qnat_add. unfold final_portion, Qdiv. ring.
Qed.






(** ** Metrics of a result bundle *)

Lemma kmode_bundle_of {KM : KModes} (results : frame) (k : Z) (b : ResultBundle) :
  _kmode_on_multi_leiden results k = Ok b ->
  exists clusters,
    fit_predict results k = Ok clusters
    /\ List.length clusters = nrows results
    /\ b = kmode_bundle results clusters k.
Proof.
  unfold _kmode_on_multi_leiden. intros Hb.
  apply bind_Ok_inv in Hb. destruct Hb as [clusters [Hfit Hb]].
  destruct (Nat.eqb_spec (List.length clusters) (nrows results)) as [Hlen | _];
    [| discriminate].
  destruct (Nat.eqb (ncols results) 0 && negb (Nat.eqb (nrows results) 0));
    [discriminate |].
  injection Hb as <-. exists clusters. repeat split; assumption.
Qed.


Lemma max_attained_gen (l0 l : list Z) :
  l <> [] ->
  exists x, In x l
            /\ count x l0 = fold_right Nat.max 0%nat (map (fun y => count y l0) l).
Proof.
  induction l as [| y l IH]; intros Hne; [contradiction |].
  destruct l as [| z l].
  - exists y. split; [left; reflexivity | simpl; lia].
  - destruct (IH ltac:(discriminate)) as [x [Hx Hcount]].
    change (fold_right Nat.max 0%nat (map (fun y0 => count y0 l0) (y :: z :: l)))
      with (Nat.max (count y l0)
                    (fold_right Nat.max 0%nat (map (fun y0 => count y0 l0) (z :: l)))).
    destruct (Nat.max_spec (count y l0)
                (fold_right Nat.max 0%nat (map (fun y0 => count y0 l0) (z :: l))))
      as [[_ Hm] | [_ Hm]]; rewrite Hm.
    + exists x. split; [right; exact Hx | exact Hcount].
    + exists y. split; [left; reflexivity | reflexivity].
Qed.

Lemma max_count_attained (l : list Z) :
  l <> [] -> exists x, In x l /\ count x l = max_count l.
Proof.
  intros Hne. apply max_attained_gen. exact Hne.
Qed.

(** A non-empty column has a mode, and the mode occurs in it. *)
Lemma mode_of_nonempty (l : list Z) :
  l <> [] -> exists m, mode l = Some m /\ In m l.
Proof.
  intros Hne. destruct (max_count_attained l Hne) as [x [Hx Hcount]].
  assert (In x (modes l)) as Hin by (apply modes_In; split; assumption).
  unfold mode. destruct (modes l) as [| m rest] eqn:Hmodes; [contradiction |].
  exists m. split; [reflexivity |].
  assert (In m (modes l)) as Hm by (rewrite Hmodes; left; reflexivity).
  apply modes_In in Hm. tauto.
Qed.

(** The divisions behind pureness and completeness never divide by zero. *)
Lemma metric_denominators_positive (results : frame) (clusters : list Z) (c : Z)
      (col : Z * list Z) :
  frame_wf results ->
  List.length clusters = nrows results ->
  In c (sorted_unique clusters) ->
  In col (columns results) ->
  (0 < count c clusters)%nat
  /\ (0 < count_eq (mode (sub_column clusters c (snd col))) (snd col))%nat.
Proof.
  intros Hwf Hlen Hc Hcol.
  apply (proj1 (sorted_unique_In _ _)) in Hc.
  pose proof (count_in_pos c clusters Hc) as Hpos.
  split; [exact Hpos |].
  unfold frame_wf in Hwf. rewrite Forall_forall in Hwf.
  assert (List.length (snd col) = List.length clusters) as Hcl
      by (rewrite (Hwf col Hcol); symmetry; exact Hlen).
  pose proof (sub_column_length clusters c (snd col) Hcl) as Hsub.
  assert (sub_column clusters c (snd col) <> []) as Hne.
  { intros Hnil. rewrite Hnil in Hsub. simpl in Hsub. lia. }
  destruct (mode_of_nonempty _ Hne) as [m [Hmode Hin]].
  rewrite Hmode. simpl.
  pose proof (count_in_pos m _ Hin) as Hm.
  pose proof (sub_column_count_le clusters c m (snd col)) as Hle. lia.
Qed.

Lemma map_fst_pair {B : Type} (f : Z -> B) (l : list Z) :
  map fst (map (fun c => (c, f c)) l) = l.
Proof.
  induction l as [| c l IH]; simpl; [reflexivity | rewrite IH; reflexivity].
Qed.

(** ** Ambiguity of a cell *)

Lemma dict_get_group_in {V : Type} (h : nat -> V) (l : list nat) (rest : dict nat V)
      (cell : nat) :
  In cell l ->
  dict_get Nat.eqb (map (fun x => (x, h x)) l ++ rest) cell = Some (h cell).
Proof.
  induction l as [| x l IH]; simpl; intros Hin.
  - contradiction.
  - destruct (Nat.eqb_spec cell x) as [-> | Hne]; [reflexivity |].
    destruct Hin as [Heq | Hin]; [congruence | apply IH; exact Hin].
Qed.

Lemma dict_get_group_out {V : Type} (h : nat -> V) (l : list nat) (rest : dict nat V)
      (cell : nat) :
  ~ In cell l ->
  dict_get Nat.eqb (map (fun x => (x, h x)) l ++ rest) cell
  = dict_get Nat.eqb rest cell.
Proof.
  induction l as [| x l IH]; simpl; intros Hout.
  - reflexivity.
  - destruct (Nat.eqb_spec cell x) as [-> | Hne].
    + exfalso. apply Hout. left. reflexivity.
    + apply IH. intros Hin. apply Hout. right. exact Hin.
Qed.

Lemma group_rows_In (clusters : list Z) (c : Z) (start i : nat) :
  In i (select_mask (map (Z.eqb c) clusters) (seq start (List.length clusters)))
  <-> (start <= i)%nat /\ nth_error clusters (i - start) = Some c.
Proof.
  unfold select_mask. revert start.
  induction clusters as [| x clusters IH]; intros start.
  - simpl. split; [contradiction |]. intros [_ Hnth].
    destruct (i - start)%nat; discriminate.
  - change (List.length (x :: clusters)) with (S (List.length clusters)).
    cbn [seq map combine filter fst].
    destruct (Nat.eq_dec i start) as [-> | Hne].
    + rewrite Nat.sub_diag. cbn [nth_error].
      destruct (Z.eqb_spec c x) as [-> | Hcx].
      * split; [intros _; split; [lia | reflexivity] | intros _; left; reflexivity].
      * split.
        -- intros Hin. apply IH in Hin. lia.
        -- intros [_ Heq]. congruence.
    + assert (forall l, In i (map snd (if c =? x then (true, start) :: l else l))
                        <-> In i (map snd l)) as Hskip.
      { intros l. destruct (c =? x); simpl; [| reflexivity].
        split; [intros [Heq | Hin]; [congruence | exact Hin] | intros Hin; right; exact Hin]. }
      destruct (c =? x) eqn:Hcx.
      * cbn [map snd In]. rewrite IH. split.
        -- intros [Heq | [Hle Hnth]]; [congruence |].
           split; [lia |].
           replace (i - start)%nat with (S (i - S start)) by lia. exact Hnth.
        -- intros [Hle Hnth]. right. split; [lia |].
           replace (i - start)%nat with (S (i - S start)) in Hnth by lia. exact Hnth.
      * rewrite IH. split.
        -- intros [Hle Hnth]. split; [lia |].
           replace (i - start)%nat with (S (i - S start)) by lia. exact Hnth.
        -- intros [Hle Hnth]. split; [lia |].
           replace (i - start)%nat with (S (i - S start)) in Hnth by lia. exact Hnth.
Qed.

(** A cell belongs to the group of its own cluster, and to no other. *)
Lemma cells_of_In (clusters : list Z) (c : Z) (cell : nat) :
  In cell (cells_of clusters c) <-> nth_error clusters cell = Some c.
Proof.
  unfold cells_of, sub_column. rewrite group_rows_In, Nat.sub_0_r.
  split; [tauto | intros Hnth; split; [lia | exact Hnth]].
Qed.

Lemma dict_get_groups {V : Type} (f : Z -> nat -> V) (clusters groups : list Z)
      (c : Z) (cell : nat) :
  nth_error clusters cell = Some c ->
  In c groups ->
  dict_get Nat.eqb
           (flat_map (fun c' => map (fun cell' => (cell', f c' cell'))
                                    (cells_of clusters c'))
                     groups)
           cell
  = Some (f c cell).
Proof.
  intros Hnth. induction groups as [| g groups IH]; simpl; intros Hin.
  - contradiction.
  - destruct (Z.eq_dec g c) as [-> | Hne].
    + apply dict_get_group_in. apply cells_of_In. exact Hnth.
    + rewrite dict_get_group_out.
      * apply IH. destruct Hin as [Heq | Hin]; [congruence | exact Hin].
      * intros Hcell. apply cells_of_In in Hcell. congruence.
Qed.

Lemma combine_map_both {A B C : Type} (f : A -> B) (g : A -> C) (l : list A) :
  combine (map f l) (map g l) = map (fun x => (f x, g x)) l.
Proof.
  induction l as [| x l IH]; simpl; [reflexivity | rewrite IH; reflexivity].
Qed.

Lemma count_true_map {A : Type} (h : A -> bool) (l : list A) :
  count_true (map h l) = List.length (filter h l).
Proof.
  unfold count_true. induction l as [| x l IH]; simpl; [reflexivity |].
  destruct (h x); simpl; rewrite IH; reflexivity.
Qed.


(** The agreement counted on the row of the group, column by column. *)
Lemma agreement_agreeing_runs (results : frame) (clusters : list Z) (c : Z) (cell : nat) :
  nth_error clusters cell = Some c ->
  agreement (row_at results cell) (all_modes results clusters c)
  = agreeing_runs results clusters cell.
Proof.
  intros Hnth. unfold agreement, row_at, all_modes, agreeing_runs.
  rewrite combine_map_both, map_map, count_true_map.
  f_equal. apply filter_ext. intros col.
  unfold agrees_with_mode, own_cluster_mode. rewrite Hnth. reflexivity.
Qed.


(** * Further properties of the clustering engine *)

(** ** Seed chunks and the shape of the ensemble *)

(** X1: the chunks of [_multi_leiden_clustering] split the drawn seeds into
    consecutive non-empty pieces of at most [step] = max(n // cpu, 5) seeds:
    joined in order they give back the seed list, and there are
    ceil(n / step) of them. *)
Theorem random_state_chunks_partition (random_states : list Z) (n : nat) (cpu : Z) :
  cpu <> 0 ->
  List.length random_states = n ->
  concat (random_state_chunks random_states n (chunk_step n cpu)) = random_states
  /\ Forall (fun chunk => (0 < List.length chunk <= Z.to_nat (chunk_step n cpu))%nat)
            (random_state_chunks random_states n (chunk_step n cpu))
  /\ Z.of_nat (List.length (random_state_chunks random_states n (chunk_step n cpu)))
     = (Z.of_nat n + chunk_step n cpu - 1) / chunk_step n cpu
  /\ 5 <= chunk_step n cpu.
Proof.
  intros _ Hlen. pose proof (chunk_step_pos n cpu) as Hstep.
  split; [apply concat_random_state_chunks; assumption |].
  assert (0 <= (Z.of_nat n - 0 + chunk_step n cpu - 1) / chunk_step n cpu) as Hm
      by (apply Z.div_pos; lia).
  rewrite (random_state_chunks_nat _ _ _ Hstep Hlen).
  split; [| split].
  - rewrite Forall_map, Forall_forall. intros j Hj. apply in_seq in Hj.
    assert (chunk_step n cpu * Z.of_nat j < Z.of_nat n) as Hstart
        by (apply chunk_start_below; lia).
    rewrite length_firstn, length_skipn, Hlen. nia.
  - rewrite length_map, length_seq, Z2Nat.id by exact Hm.
    f_equal. lia.
  - unfold chunk_step. lia.
Qed.

Lemma random_state_chunks_partition_witness :
  concat (random_state_chunks (range 0 12 1) 12 (chunk_step 12 2)) = range 0 12 1
  /\ Forall (fun chunk => (0 < List.length chunk <= Z.to_nat (chunk_step 12 2))%nat)
            (random_state_chunks (range 0 12 1) 12 (chunk_step 12 2))
  /\ Z.of_nat (List.length (random_state_chunks (range 0 12 1) 12 (chunk_step 12 2)))
     = (Z.of_nat 12 + chunk_step 12 2 - 1) / chunk_step 12 2
  /\ 5 <= chunk_step 12 2.
Proof.
  apply (random_state_chunks_partition (range 0 12 1) 12 2).
  - lia.
  - reflexivity.
Defined.

Lemma map_m_In_Ok {A B : Type} (f : A -> result B) (xs : list A) (ys : list B) (x : A) :
  map_m f xs = Ok ys -> In x xs -> exists y, f x = Ok y.
Proof.
  revert ys. induction xs as [| a xs IH]; intros ys Hm Hin; [contradiction |].
  apply map_m_cons_Ok in Hm. destruct Hm as [y [ys' [Ha [Hxs _]]]].
  destruct Hin as [<- | Hin]; [exists y; exact Ha | eapply IH; eassumption].
Qed.

Lemma map_m_combine_Forall {A B : Type} (f : A -> result B) (xs : list A) (ys : list B) :
  map_m f xs = Ok ys ->
  Forall (fun p => f (fst p) = Ok (snd p)) (combine xs ys).
Proof.
  revert ys. induction xs as [| a xs IH]; intros ys Hm; simpl.
  - constructor.
  - apply map_m_cons_Ok in Hm. destruct Hm as [y [ys' [Ha [Hxs ->]]]].
    constructor; [exact Ha | apply IH; exact Hxs].
Qed.

Lemma map_m_of_combine {A B : Type} (f : A -> result B) (ps : list (A * B)) :
  Forall (fun p => f (fst p) = Ok (snd p)) ps ->
  map_m f (map fst ps) = Ok (map snd ps).
Proof.
  induction 1 as [| p ps Hp _ IH]; simpl.
  - reflexivity.
  - rewrite Hp, IH. reflexivity.
Qed.

Lemma combine_fst_snd {A B : Type} (ps : list (A * B)) :
  combine (map fst ps) (map snd ps) = ps.
Proof.
  induction ps as [| [a b] ps IH]; simpl; [reflexivity | rewrite IH; reflexivity].
Qed.

(** X2: [_single_leiden] succeeds exactly when the partitioner succeeds on
    every seed of the chunk, and then it returns one column per seed, in the
    order of the seeds, each holding the membership found for its seed. *)
Theorem single_leiden_columns {L : Leiden} (g : graph) (random_states : list Z)
        (resolution : Q) (cols : list (Z * list Z)) :
  _single_leiden g random_states resolution = Ok cols
  <-> map fst cols = random_states
      /\ Forall (fun col => find_partition g (fst col) resolution = Ok (snd col)) cols.
Proof.
  unfold _single_leiden. split.
  - intros Hrun. apply bind_Ok_inv in Hrun. destruct Hrun as [vs [Hvs Hcols]].
    injection Hcols as <-. split.
    + apply map_fst_combine_same. symmetry. eapply map_m_length. exact Hvs.
    + apply (map_m_combine_Forall (fun seed => find_partition g seed resolution)).
      exact Hvs.
  - intros [<- Hall].
    rewrite (map_m_of_combine (fun seed => find_partition g seed resolution) cols Hall).
    simpl. rewrite combine_fst_snd. reflexivity.
Qed.

(** X3: a successful call of [_multi_leiden_clustering] returns a well-formed
    matrix: its row index has [n_obs] entries, it has exactly [n] columns of
    [n_obs] labels each, the column names are the drawn seeds (in some order)
    and each column is the membership the partitioner returns for its seed. *)
Theorem multi_leiden_result_shape
        {L : Leiden} {R : NumpyRandom} (E : Executor) (rng : rng_state)
        (adata : AnnData) (n : nat) (seed_of_seeds : Z) (resolution : Q) (cpu : Z)
        (fr : frame) (rng' : rng_state) :
  (forall s population size l s',
      np_random_choice s population size = Ok (l, s') -> List.length l = size) ->
  0 < cpu ->
  _multi_leiden_clustering rng adata n seed_of_seeds resolution cpu = Ok (fr, rng') ->
  frame_wf fr
  /\ nrows fr = n_obs adata
  /\ ncols fr = n
  /\ exists g random_states,
      neighbors adata = Some g
      /\ np_random_choice (np_random_seed seed_of_seeds) 99999 n = Ok (random_states, rng')
      /\ Permutation (map fst (columns fr)) random_states
      /\ Forall (fun col => find_partition g (fst col) resolution = Ok (snd col))
                (columns fr).
Proof.
  intros Hlaw Hcpu Hrun.
  destruct (multi_leiden_inv E _ _ _ _ _ _ _ _ Hlaw Hcpu Hrun)
    as [g [random_states [vs [Hg [Hdraw [Hlen [Hvs [Hn Hall]]]]]]]].
  destruct (multi_leiden_outcome E rng adata n seed_of_seeds resolution cpu
              g random_states rng' vs Hcpu Hg Hdraw Hlen Hvs Hn Hall)
    as [fr' [Hrun' [Hrows [Hperm _]]]].
  rewrite Hrun in Hrun'. injection Hrun' as <-.
  pose proof (map_m_length _ _ _ Hvs) as Hvlen.
  split; [| split; [exact Hrows | split]].
  - unfold frame_wf. rewrite Hrows.
    apply (Permutation_Forall (Permutation_sym Hperm)).
    rewrite forallb_forall in Hall. rewrite Forall_forall. intros col Hcol.
    apply Nat.eqb_eq. apply Hall. exact Hcol.
  - unfold ncols. rewrite (Permutation_length Hperm), length_combine. lia.
  - exists g, random_states. repeat split; try assumption.
    + rewrite <- (map_fst_combine_same random_states vs) by lia.
      apply Permutation_map. exact Hperm.
    + apply (Permutation_Forall (Permutation_sym Hperm)).
      apply (map_m_combine_Forall (fun seed => find_partition g seed resolution)).
      exact Hvs.
Qed.

(** Ten runs of the toy partitioner on two workers finishing in reverse. *)
Lemma multi_leiden_result_shape_witness :
  exists fr,
    @_multi_leiden_clustering Toy.leiden Toy.numpy Toy.reversed 5 Toy.adata 10 0 1 2
    = Ok (fr, 10)
    /\ frame_wf fr /\ nrows fr = 4%nat /\ ncols fr = 10%nat.
Proof.
  eexists. split; [vm_compute; reflexivity |].
  assert (@_multi_leiden_clustering Toy.leiden Toy.numpy Toy.reversed 5 Toy.adata 10 0 1 2
          = Ok ({| nrows := 4;
                   columns := map (fun seed => (seed, [0; 0; 1; seed mod 2]))
                                  [5; 6; 7; 8; 9; 0; 1; 2; 3; 4] |}, 10)) as Hrun
      by (vm_compute; reflexivity).
  assert (forall s population size l s',
             @np_random_choice Toy.numpy s population size = Ok (l, s') ->
             List.length l = size) as Hlaw.
  { intros s population size l s' Hdraw. simpl in Hdraw.
    destruct (Z.of_nat size <=? population); [| discriminate].
    injection Hdraw as <- _. rewrite length_map, length_seq. reflexivity. }
  destruct (@multi_leiden_result_shape Toy.leiden Toy.numpy Toy.reversed 5 Toy.adata
              10 0 1 2 _ 10 Hlaw ltac:(lia) Hrun) as [Hwf [Hrows [Hcols _]]].
  repeat split; assumption.
Defined.

Lemma multi_leiden_cpu_nonpositive
      {L : Leiden} {R : NumpyRandom} (E : Executor) (rng : rng_state)
      (adata : AnnData) (n : nat) (seed_of_seeds : Z) (resolution : Q) (cpu : Z) :
  cpu <= 0 ->
  raises (_multi_leiden_clustering rng adata n seed_of_seeds resolution cpu).
Proof.
  intros Hcpu. unfold _multi_leiden_clustering.
  destruct (neighbors adata) as [g |]; [| eexists; reflexivity].
  destruct (np_random_choice (np_random_seed seed_of_seeds) 99999 n) as [drawn | e];
    simpl; [| eexists; reflexivity].
  destruct (Z.eqb_spec cpu 0) as [_ | Hne]; [eexists; reflexivity |].
  destruct (Z.ltb_spec cpu 0) as [_ | Hge]; [eexists; reflexivity | lia].
Qed.

(** X4: a failing worker run fails the whole ensemble: if the partitioner
    raises on one of the drawn seeds, [_multi_leiden_clustering] raises,
    whatever the concurrency degree and the completion order; no partial
    matrix is returned. *)
Theorem multi_leiden_worker_failure
        {L : Leiden} {R : NumpyRandom} (E : Executor) (rng : rng_state)
        (adata : AnnData) (n : nat) (seed_of_seeds : Z) (resolution : Q) (cpu : Z)
        (g : graph) (random_states : list Z) (rng' : rng_state) (seed : Z) (e : exn) :
  (forall s population size l s',
      np_random_choice s population size = Ok (l, s') -> List.length l = size) ->
  neighbors adata = Some g ->
  np_random_choice (np_random_seed seed_of_seeds) 99999 n = Ok (random_states, rng') ->
  In seed random_states ->
  find_partition g seed resolution = Raise e ->
  raises (_multi_leiden_clustering rng adata n seed_of_seeds resolution cpu).
Proof.
  intros Hlaw Hg Hdraw Hin Hfail.
  destruct (Z_lt_le_dec 0 cpu) as [Hcpu | Hcpu];
    [| apply multi_leiden_cpu_nonpositive; exact Hcpu].
  destruct (_multi_leiden_clustering rng adata n seed_of_seeds resolution cpu)
    as [[fr s'] | e'] eqn:Hrun; [| exists e'; reflexivity].
  exfalso.
  destruct (multi_leiden_inv E _ _ _ _ _ _ _ _ Hlaw Hcpu Hrun)
    as [g0 [rs0 [vs [Hg0 [Hdraw0 [_ [Hvs _]]]]]]].
  rewrite Hg in Hg0. injection Hg0 as <-.
  rewrite Hdraw in Hdraw0. injection Hdraw0 as <- _.
  destruct (map_m_In_Ok _ _ _ seed Hvs Hin) as [v Hv].
  rewrite Hfail in Hv. discriminate.
Qed.

(** A partitioner failing on seed 3 of the ten drawn seeds. *)
Lemma multi_leiden_worker_failure_witness :
  raises (@_multi_leiden_clustering ToyMore.leiden_fails_on_3 Toy.numpy Toy.reversed
            5 Toy.adata 10 0 1 2).
Proof.
  apply (@multi_leiden_worker_failure ToyMore.leiden_fails_on_3 Toy.numpy Toy.reversed
           5 Toy.adata 10 0 1 2
           [(0%nat, 1%nat, 1%Q); (2%nat, 3%nat, 1%Q)] (range 0 10 1) 10 3
           (ValueError "partition failed")).
  - intros s population size l s' Hdraw. simpl in Hdraw.
    destruct (Z.of_nat size <=? population); [| discriminate].
    injection Hdraw as <- _. rewrite length_map, length_seq. reflexivity.
  - reflexivity.
  - vm_compute. reflexivity.
  - vm_compute. tauto.
  - reflexivity.
Defined.

Lemma as_completed_short (E : Executor) {A : Type} (l : list A) :
  (List.length l <= 1)%nat -> as_completed A l = l.
Proof.
  intros Hlen. pose proof (as_completed_perm A l) as Hperm.
  destruct l as [| x [| y l]]; simpl in Hlen; try lia.
  - apply Permutation_sym, Permutation_nil in Hperm. exact Hperm.
  - apply Permutation_sym, Permutation_length_1_inv in Hperm. exact Hperm.
Qed.

(** X5: with a repeat count of zero nothing is submitted and the column-wise
    join of no frames raises [ValueError]. *)
Theorem multi_leiden_no_repeats
        {L : Leiden} {R : NumpyRandom} (E : Executor) (rng : rng_state)
        (adata : AnnData) (seed_of_seeds : Z) (resolution : Q) (cpu : Z)
        (g : graph) (drawn : list Z * rng_state) :
  0 < cpu ->
  neighbors adata = Some g ->
  np_random_choice (np_random_seed seed_of_seeds) 99999 0 = Ok drawn ->
  _multi_leiden_clustering rng adata 0 seed_of_seeds resolution cpu
  = Raise (ValueError "No objects to concatenate").
Proof.
  intros Hcpu Hg Hdraw. unfold _multi_leiden_clustering. rewrite Hg, Hdraw.
  cbn [Py.bind].
  destruct (Z.eqb_spec cpu 0) as [Hz | _]; [lia |].
  destruct (Z.ltb_spec cpu 0) as [Hneg | _]; [lia |].
  assert (random_state_chunks (fst drawn) 0 (chunk_step 0 cpu) = []) as Hnil.
  { apply random_state_chunks_nil_iff; [apply chunk_step_pos | reflexivity]. }
  rewrite Hnil. cbn [map]. rewrite (as_completed_short E []) by (simpl; lia).
  reflexivity.
Qed.

Lemma multi_leiden_no_repeats_witness :
  @_multi_leiden_clustering Toy.leiden Toy.numpy Toy.reversed 5 Toy.adata 0 0 1 2
  = Raise (ValueError "No objects to concatenate").
Proof.
  apply (@multi_leiden_no_repeats Toy.leiden Toy.numpy Toy.reversed 5 Toy.adata 0 1 2
           [(0%nat, 1%nat, 1%Q); (2%nat, 3%nat, 1%Q)] ([], 0)).
  - lia.
  - reflexivity.
  - reflexivity.
Defined.

Lemma chunks_single_worker (random_states : list Z) (n : nat) :
  List.length random_states = n ->
  (List.length (random_state_chunks random_states n (chunk_step n 1)) <= 1)%nat.
Proof.
  intros Hlen. pose proof (chunk_step_pos n 1) as Hpos.
  rewrite (random_state_chunks_nat _ _ _ Hpos Hlen), length_map, length_seq.
  assert (chunk_step n 1 = Z.max (Z.of_nat n) 5) as Hstep
      by (unfold chunk_step; rewrite Z.quot_1_r; reflexivity).
  rewrite Hstep.
  assert ((Z.of_nat n - 0 + Z.max (Z.of_nat n) 5 - 1) / Z.max (Z.of_nat n) 5 < 2) as Hlt
      by (apply Z.div_lt_upper_bound; lia).
  lia.
Qed.

Lemma multi_leiden_single_worker_eq
      {L : Leiden} {R : NumpyRandom} (E1 E2 : Executor) (rng1 rng2 : rng_state)
      (adata : AnnData) (n : nat) (seed_of_seeds : Z) (resolution : Q) :
  (forall s population size l s',
      np_random_choice s population size = Ok (l, s') -> List.length l = size) ->
  @_multi_leiden_clustering L R E1 rng1 adata n seed_of_seeds resolution 1
  = @_multi_leiden_clustering L R E2 rng2 adata n seed_of_seeds resolution 1.
Proof.
  intros Hlaw. unfold _multi_leiden_clustering.
  destruct (neighbors adata) as [g |]; [| reflexivity].
  destruct (np_random_choice (np_random_seed seed_of_seeds) 99999 n)
    as [[random_states s'] | e] eqn:Hdraw; [| reflexivity].
  cbn [Py.bind fst snd].
  change (1 =? 0) with false. change (1 <? 0) with false. cbv iota.
  pose proof (chunks_single_worker random_states n (Hlaw _ _ _ _ _ Hdraw)) as Hshort.
  rewrite (as_completed_short E1), (as_completed_short E2);
    [reflexivity | |]; rewrite length_map; exact Hshort.
Qed.

(** X6: with a single worker ([cpu] = 1, the default) all seeds form one
    chunk, so the outcome of [_multi_leiden_clustering] does not depend on
    the completion order, and the columns of a returned matrix are in the
    order of the drawn seeds. *)
Theorem multi_leiden_single_worker
        {L : Leiden} {R : NumpyRandom} (E1 E2 : Executor) (rng1 rng2 : rng_state)
        (adata : AnnData) (n : nat) (seed_of_seeds : Z) (resolution : Q) :
  (forall s population size l s',
      np_random_choice s population size = Ok (l, s') -> List.length l = size) ->
  @_multi_leiden_clustering L R E1 rng1 adata n seed_of_seeds resolution 1
  = @_multi_leiden_clustering L R E2 rng2 adata n seed_of_seeds resolution 1
  /\ forall fr rng',
      @_multi_leiden_clustering L R E1 rng1 adata n seed_of_seeds resolution 1
      = Ok (fr, rng') ->
      exists random_states,
        np_random_choice (np_random_seed seed_of_seeds) 99999 n = Ok (random_states, rng')
        /\ map fst (columns fr) = random_states.
Proof.
  intros Hlaw. split; [apply multi_leiden_single_worker_eq; exact Hlaw |].
  intros fr rng' Hrun.
  rewrite (multi_leiden_single_worker_eq E1 Toy.in_order rng1 rng1 _ _ _ _ Hlaw) in Hrun.
  destruct (multi_leiden_inv Toy.in_order _ _ _ _ _ _ _ _ Hlaw Z.lt_0_1 Hrun)
    as [g [random_states [vs [Hg [Hdraw [Hlen [Hvs [Hn Hall]]]]]]]].
  destruct (multi_leiden_outcome Toy.in_order rng1 adata n seed_of_seeds resolution 1
              g random_states rng' vs Z.lt_0_1 Hg Hdraw Hlen Hvs Hn Hall)
    as [fr' [Hrun' [_ [_ Hid]]]].
  rewrite Hrun in Hrun'. injection Hrun' as <-.
  exists random_states. split; [exact Hdraw |].
  rewrite (Hid (fun A l => eq_refl)).
  apply map_fst_combine_same. apply map_m_length in Hvs. lia.
Qed.

(** Seven runs on one worker, finishing "in reverse". *)
Lemma multi_leiden_single_worker_witness :
  @_multi_leiden_clustering Toy.leiden Toy.numpy Toy.reversed 5 Toy.adata 7 0 1 1
  = @_multi_leiden_clustering Toy.leiden Toy.numpy Toy.in_order 9 Toy.adata 7 0 1 1.
Proof.
  apply (@multi_leiden_single_worker Toy.leiden Toy.numpy Toy.reversed Toy.in_order
           5 9 Toy.adata 7 0 1).
  intros s population size l s' Hdraw. simpl in Hdraw.
  destruct (Z.of_nat size <=? population); [| discriminate].
  injection Hdraw as <- _. rewrite length_map, length_seq. reflexivity.
Defined.

(** ** Structure of a result bundle *)

Lemma select_mask_incl {A : Type} (mask : list bool) (l : list A) (x : A) :
  In x (select_mask mask l) -> In x l.
Proof.
  unfold select_mask. revert l. induction mask as [| b mask IH]; intros [| a l];
    simpl; try contradiction.
  destruct b; simpl.
  - intros [<- | Hin]; [left; reflexivity | right; apply IH; exact Hin].
  - intros Hin. right. apply IH. exact Hin.
Qed.

Lemma select_mask_NoDup {A : Type} (mask : list bool) (l : list A) :
  NoDup l -> NoDup (select_mask mask l).
Proof.
  revert l. induction mask as [| b mask IH]; intros [| a l] Hnd;
    try (unfold select_mask; simpl; constructor).
  inversion Hnd as [| a' l' Ha Hl]; subst.
  unfold select_mask. simpl. destruct b; simpl.
  - constructor; [| apply IH; exact Hl].
    intros Hin. apply Ha. apply (select_mask_incl mask l a). exact Hin.
  - apply IH. exact Hl.
Qed.

Lemma cells_of_NoDup (clusters : list Z) (c : Z) : NoDup (cells_of clusters c).
Proof.
  unfold cells_of, sub_column. apply select_mask_NoDup. apply seq_NoDup.
Qed.

Lemma flat_map_groups_NoDup (clusters groups : list Z) :
  NoDup groups -> NoDup (flat_map (cells_of clusters) groups).
Proof.
  induction 1 as [| c groups Hc _ IH]; simpl.
  - constructor.
  - apply NoDup_app; [apply cells_of_NoDup | exact IH |].
    intros cell Hcell Hrest. apply in_flat_map in Hrest.
    destruct Hrest as [c' [Hc' Hcell']].
    apply cells_of_In in Hcell. apply cells_of_In in Hcell'.
    assert (c = c') by congruence. subst c'. contradiction.
Qed.

Lemma cell_ambiguity_keys {V : Type} (f : Z -> nat -> V) (clusters groups : list Z) :
  map fst (flat_map (fun c => map (fun cell => (cell, f c cell)) (cells_of clusters c))
                    groups)
  = flat_map (cells_of clusters) groups.
Proof.
  induction groups as [| c groups IH]; simpl; [reflexivity |].
  rewrite map_app, IH, map_map. simpl. rewrite map_id. reflexivity.
Qed.

(** X7: the per-cluster series of a bundle are keyed by the distinct cluster
    labels in ascending order, all four series have the same keys, [n_cluster]
    is their number, and each weighted entry is the cluster's metric times
    (cluster size / N); the bundle keeps the [k] it was asked for and assigns
    one cluster to each row of the matrix. *)
Theorem kmode_bundle_series
        {KM : KModes} (results : frame) (k : Z) (b : ResultBundle) :
  _kmode_on_multi_leiden results k = Ok b ->
  StronglySorted Z.lt (map fst (cluster_pureness b))
  /\ (forall c, In c (map fst (cluster_pureness b)) <-> In c (cluster b))
  /\ map fst (cluster_completeness b) = map fst (cluster_pureness b)
  /\ weighted_cluster_pureness b
     = map (fun cp => (fst cp, (snd cp * final_portion (cluster b) (fst cp))%Q))
           (cluster_pureness b)
  /\ weighted_cluster_completeness b
     = map (fun cp => (fst cp, (snd cp * final_portion (cluster b) (fst cp))%Q))
           (cluster_completeness b)
  /\ n_cluster b = List.length (cluster_pureness b)
  /\ bundle_k b = k
  /\ List.length (cluster b) = nrows results.
Proof.
  intros Hb. destruct (kmode_bundle_of results k b Hb) as [clusters [_ [Hlen ->]]].
  unfold kmode_bundle.
  cbn [cluster cluster_pureness cluster_completeness weighted_cluster_pureness
       weighted_cluster_completeness n_cluster bundle_k].
  rewrite !map_fst_pair.
  repeat split; try reflexivity; try assumption.
  - apply sorted_unique_sorted.
  - apply sorted_unique_In.
  - apply sorted_unique_In.
  - unfold unique_size. rewrite length_map. reflexivity.
Qed.

Lemma kmode_bundle_series_witness :
  StronglySorted Z.lt (map fst (cluster_pureness Examples.bundle_three))
  /\ n_cluster Examples.bundle_three
     = List.length (cluster_pureness Examples.bundle_three)
  /\ bundle_k Examples.bundle_three = 2.
Proof.
  destruct (@kmode_bundle_series Toy.kmodes Examples.three_runs 2 Examples.bundle_three
              eq_refl) as [Hsorted [_ [_ [_ [_ [Hn [Hk _]]]]]]].
  repeat split; assumption.
Defined.

Lemma sub_column_In (clusters : list Z) (c : Z) (col : list Z) (y : Z) :
  In y (sub_column clusters c col)
  <-> exists cell, nth_error clusters cell = Some c /\ nth_error col cell = Some y.
Proof.
  unfold sub_column, select_mask. revert col.
  induction clusters as [| x clusters IH]; intros col.
  - simpl. split; [contradiction |]. intros [cell [Hnth _]].
    destruct cell; discriminate.
  - destruct col as [| a col].
    + simpl. split; [contradiction |]. intros [cell [_ Hnth]].
      destruct cell; discriminate.
    + cbn [map combine filter fst].
      assert (In y (map snd (filter fst (combine (map (Z.eqb c) clusters) col)))
              <-> exists cell, nth_error (x :: clusters) (S cell) = Some c
                               /\ nth_error (a :: col) (S cell) = Some y) as Htail
          by (simpl; apply IH).
      destruct (Z.eqb_spec c x) as [-> | Hne]; cbn [map snd In].
      * split.
        -- intros [<- | Hin]; [exists 0%nat; split; reflexivity |].
           apply Htail in Hin. destruct Hin as [cell Hcell]. exists (S cell). exact Hcell.
        -- intros [[| cell] [Hc Hy]].
           ++ left. simpl in Hy. congruence.
           ++ right. apply Htail. exists cell. split; assumption.
      * split.
        -- intros Hin. apply Htail in Hin. destruct Hin as [cell Hcell].
           exists (S cell). exact Hcell.
        -- intros [[| cell] [Hc Hy]].
           ++ simpl in Hc. congruence.
           ++ apply Htail. exists cell. split; assumption.
Qed.

Lemma count_all_equal (x : Z) (l : list Z) :
  Forall (eq x) l -> count x l = List.length l.
Proof.
  unfold count. induction 1 as [| y l Hy _ IH]; simpl; [reflexivity |].
  subst y. destruct (Z.eq_dec x x) as [_ | Hne]; [| contradiction].
  rewrite IH. reflexivity.
Qed.

Lemma mode_all_equal (x : Z) (l : list Z) :
  Forall (eq x) l -> l <> [] -> mode l = Some x.
Proof.
  intros Hall Hne. destruct (mode_of_nonempty l Hne) as [m [Hmode Hin]].
  rewrite Forall_forall in Hall. rewrite (Hall m Hin). exact Hmode.
Qed.

Lemma Qsum_all_one (l : list Q) :
  Forall (fun q => q == 1)%Q l -> (Qsum l == Qnat (List.length l))%Q.
Proof.
  induction 1 as [| q l Hq _ IH].
  - reflexivity.
  - change (Qsum (q :: l)) with (q + Qsum l)%Q.
    change (List.length (q :: l)) with (S (List.length l)).
    rewrite Qnat_S, Hq, IH. reflexivity.
Qed.

Lemma Qmean_all_one (l : list Q) :
  Forall (fun q => q == 1)%Q l -> l <> [] -> (Qmean l == 1)%Q.
Proof.
  intros Hall Hne. unfold Qmean. rewrite (Qsum_all_one l Hall).
  assert (0 < Qnat (List.length l))%Q as Hpos.
  { apply Qnat_pos. destruct l; [contradiction | simpl; lia]. }
  field. lra.
Qed.

Lemma dict_get_keyed {V : Type} (f : Z -> V) (keys : list Z) (c : Z) :
  In c keys -> dict_get Z.eqb (map (fun x => (x, f x)) keys) c = Some (f c).
Proof.
  induction keys as [| x keys IH]; simpl; intros Hin; [contradiction |].
  destruct (Z.eqb_spec c x) as [-> | Hne]; [reflexivity |].
  destruct Hin as [Heq | Hin]; [congruence | apply IH; exact Hin].
Qed.

Lemma filter_all_true {A : Type} (h : A -> bool) (l : list A) :
  (forall x, In x l -> h x = true) -> filter h l = l.
Proof.
  induction l as [| a l IH]; simpl; intros Hall; [reflexivity |].
  rewrite (Hall a (or_introl eq_refl)), IH; [reflexivity |].
  intros x Hx. apply Hall. right. exact Hx.
Qed.

(** X9: if every run gives one and the same label to all cells of a cluster,
    then that cluster's pureness is 1 and each of its cells has ambiguity 0. *)
Theorem uniform_cluster_is_pure
        {KM : KModes} (results : frame) (k : Z) (b : ResultBundle) (c : Z) :
  frame_wf results ->
  (0 < ncols results)%nat ->
  _kmode_on_multi_leiden results k = Ok b ->
  In c (cluster b) ->
  (forall col, In col (columns results) ->
     exists x, forall cell, nth_error (cluster b) cell = Some c ->
                            nth_error (snd col) cell = Some x) ->
  (exists p, dict_get Z.eqb (cluster_pureness b) c = Some p /\ (p == 1)%Q)
  /\ forall cell, nth_error (cluster b) cell = Some c ->
       exists a, dict_get Nat.eqb (cell_ambiguity b) cell = Some a /\ (a == 0)%Q.
Proof.
  intros Hwf Hcols Hb Hc Huniform.
  destruct (kmode_bundle_of results k b Hb) as [clusters [_ [Hlen ->]]].
  unfold kmode_bundle in *. cbn [cluster cluster_pureness cell_ambiguity] in *.
  assert (In c (sorted_unique clusters)) as Hgroup by (apply sorted_unique_In; exact Hc).
  pose proof (count_in_pos c clusters Hc) as Hsize.
  assert (forall col, In col (columns results) ->
            exists x, Forall (eq x) (sub_column clusters c (snd col))
                      /\ mode (sub_column clusters c (snd col)) = Some x
                      /\ List.length (sub_column clusters c (snd col)) = count c clusters)
    as Hsub.
  { intros col Hcol. destruct (Huniform col Hcol) as [x Hx]. exists x.
    assert (Forall (eq x) (sub_column clusters c (snd col))) as Hall.
    { rewrite Forall_forall. intros y Hy. apply sub_column_In in Hy.
      destruct Hy as [cell [Hcl Hy]]. rewrite (Hx cell Hcl) in Hy. congruence. }
    assert (List.length (sub_column clusters c (snd col)) = count c clusters) as Hl.
    { apply sub_column_length. unfold frame_wf in Hwf. rewrite Forall_forall in Hwf.
      rewrite (Hwf col Hcol). symmetry. exact Hlen. }
    split; [exact Hall |]. split; [| exact Hl].
    apply mode_all_equal; [exact Hall |].
    intros Hnil. rewrite Hnil in Hl. simpl in Hl. lia. }
  split.
  - exists (pureness_of results clusters c).
    split; [apply (dict_get_keyed (pureness_of results clusters)); exact Hgroup |].
    unfold pureness_of. apply Qmean_all_one.
    + rewrite Forall_map, Forall_forall. intros col Hcol.
      destruct (Hsub col Hcol) as [x [Hall [Hmode Hl]]].
      unfold col_pureness. rewrite Hmode. cbn [count_eq].
      rewrite (count_all_equal x _ Hall), Hl.
      pose proof (Qnat_pos _ Hsize) as Hq. field. lra.
    + unfold ncols in Hcols. destruct (columns results); [simpl in Hcols; lia |].
      discriminate.
  - intros cell Hcell. exists (ambiguity_of results clusters c cell).
    split; [apply (dict_get_groups (ambiguity_of results clusters)); assumption |].
    unfold ambiguity_of. rewrite (agreement_agreeing_runs _ _ _ _ Hcell).
    assert (agreeing_runs results clusters cell = ncols results) as Hagree.
    { unfold agreeing_runs, ncols. rewrite filter_all_true; [reflexivity |].
      intros col Hcol. destruct (Huniform col Hcol) as [x Hx].
      destruct (Hsub col Hcol) as [x' [Hall [Hmode _]]].
      unfold agrees_with_mode, own_cluster_mode. rewrite Hcell, (Hx cell Hcell), Hmode.
      assert (In x (sub_column clusters c (snd col))) as Hin.
      { apply sub_column_In. exists cell. split; [exact Hcell | apply Hx; exact Hcell]. }
      rewrite Forall_forall in Hall. rewrite <- (Hall x Hin).
      simpl. apply Z.eqb_refl. }
    rewrite Hagree. pose proof (Qnat_pos _ Hcols) as Hq. field. lra.
Qed.

(** Cluster 0 of [Examples.three_runs]: cells 0, 1, 2 agree in all runs. *)
Lemma uniform_cluster_is_pure_witness :
  (exists p, dict_get Z.eqb (cluster_pureness Examples.bundle_three) 0 = Some p
             /\ (p == 1)%Q)
  /\ forall cell, nth_error (cluster Examples.bundle_three) cell = Some 0 ->
       exists a, dict_get Nat.eqb (cell_ambiguity Examples.bundle_three) cell = Some a
                 /\ (a == 0)%Q.
Proof.
  apply (@uniform_cluster_is_pure Toy.kmodes Examples.three_runs 2
           Examples.bundle_three 0).
  - repeat constructor.
  - vm_compute. lia.
  - reflexivity.
  - left. reflexivity.
  - intros col [<- | [<- | [<- | []]]].
    + exists 0. intros [| [| [| [| [| [| cell]]]]]] Hcell; simpl in Hcell;
        try discriminate; try reflexivity; destruct cell; discriminate.
    + exists 1. intros [| [| [| [| [| [| cell]]]]]] Hcell; simpl in Hcell;
        try discriminate; try reflexivity; destruct cell; discriminate.
    + exists 0. intros [| [| [| [| [| [| cell]]]]]] Hcell; simpl in Hcell;
        try discriminate; try reflexivity; destruct cell; discriminate.
Defined.

(** ** The sweep over k *)

Lemma dict_set_keys {V : Type} (d : dict Z V) (k : Z) (v : V) (k' : Z) :
  In k' (map fst (dict_set Z.eqb d k v)) <-> k' = k \/ In k' (map fst d).
Proof.
  induction d as [| [k0 v0] d IH]; simpl.
  - intuition.
  - destruct (Z.eqb_spec k k0) as [-> | Hne]; simpl.
    + intuition.
    + rewrite IH. intuition.
Qed.

Lemma dict_set_NoDup {V : Type} (d : dict Z V) (k : Z) (v : V) :
  NoDup (map fst d) -> NoDup (map fst (dict_set Z.eqb d k v)).
Proof.
  induction d as [| [k0 v0] d IH]; simpl; intros Hnd.
  - constructor; [intros [] | constructor].
  - inversion Hnd as [| x l Hx Hl]; subst.
    destruct (Z.eqb_spec k k0) as [-> | Hne]; simpl.
    + constructor; assumption.
    + constructor; [| apply IH; exact Hl].
      intros Hin. apply dict_set_keys in Hin. destruct Hin as [Heq | Hin];
        [congruence | contradiction].
Qed.

Lemma dict_set_entries {V : Type} (d : dict Z V) (k : Z) (v : V) (k' : Z) (v' : V) :
  In (k', v') (dict_set Z.eqb d k v) -> (k' = k /\ v' = v) \/ In (k', v') d.
Proof.
  induction d as [| [k0 v0] d IH]; simpl.
  - intros [Heq | []]. injection Heq as <- <-. left. split; reflexivity.
  - destruct (Z.eqb_spec k k0) as [-> | Hne]; simpl.
    + intros [Heq | Hin]; [injection Heq as <- <-; left; split; reflexivity |].
      right. right. exact Hin.
    + intros [Heq | Hin]; [right; left; exact Heq |].
      destruct (IH Hin) as [Hnew | Hold]; [left; exact Hnew | right; right; exact Hold].
Qed.

(** Collecting futures that all succeed fills the dictionary with their
    results. *)
Lemma kmode_collect (fs : list (Z * result ResultBundle)) :
  Forall (fun f => exists b, snd f = Ok b) fs ->
  forall d0, exists d,
    for_each (fun result_dict future =>
                data <- snd future ;;
                Ok (dict_set Z.eqb result_dict (fst future) data)) fs d0 = Ok d
    /\ (forall k, In k (map fst d) <-> In k (map fst d0) \/ In k (map fst fs))
    /\ (NoDup (map fst d0) -> NoDup (map fst d))
    /\ (forall k b, In (k, b) d -> In (k, b) d0 \/ In (k, Ok b) fs).
Proof.
  induction 1 as [| [k0 r0] fs [b0 Hb0] _ IH]; intros d0.
  - exists d0. simpl. split; [reflexivity |]. split; [intros k; tauto |].
    split; [tauto |]. intros k b Hin. left. exact Hin.
  - simpl in Hb0. subst r0.
    destruct (IH (dict_set Z.eqb d0 k0 b0)) as [d [Hrun [Hkeys [Hnd Hent]]]].
    exists d. cbn [for_each fst snd Py.bind]. split; [exact Hrun |].
    split; [| split].
    + intros k. rewrite Hkeys, dict_set_keys. simpl. intuition.
    + intros Hnd0. apply Hnd. apply dict_set_NoDup. exact Hnd0.
    + intros k b Hin. destruct (Hent k b Hin) as [Hset | Hfs].
      * apply dict_set_entries in Hset. destruct Hset as [[-> ->] | Hold].
        -- right. left. reflexivity.
        -- left. exact Hold.
      * right. right. exact Hfs.
Qed.

(** X10: when the clustering succeeds for every requested k,
    [_multi_kmode_clustering] returns a dictionary whose keys are exactly the
    requested k values, each once, and the bundle stored under k is the one
    computed for k (its [k] field is k), whatever the completion order. *)
Theorem multi_kmode_result_keys
        {KM : KModes} (E : Executor) (results : frame) (ks : list Z) (cpu : Z) :
  0 < cpu ->
  (forall k, In k ks -> exists b, _kmode_on_multi_leiden results k = Ok b) ->
  exists d,
    _multi_kmode_clustering results (Ks ks) cpu = Ok d
    /\ NoDup (map fst d)
    /\ (forall k, In k (map fst d) <-> In k ks)
    /\ (forall k b, In (k, b) d ->
          _kmode_on_multi_leiden results k = Ok b /\ bundle_k b = k).
Proof.
  intros Hcpu Hall.
  set (futures := map (fun k => (k, _kmode_on_multi_leiden results k)) ks).
  pose proof (as_completed_perm _ futures) as Hperm.
  assert (Forall (fun f => In (fst f) ks /\ snd f = _kmode_on_multi_leiden results (fst f))
                 (as_completed _ futures)) as Hshape.
  { apply (Permutation_Forall (Permutation_sym Hperm)).
    unfold futures. rewrite Forall_map, Forall_forall. intros k Hk. split; [exact Hk | reflexivity]. }
  assert (Forall (fun f => exists b, snd f = Ok b) (as_completed _ futures)) as Hok.
  { rewrite Forall_forall in Hshape |- *. intros f Hf.
    destruct (Hshape f Hf) as [Hin ->]. apply Hall. exact Hin. }
  destruct (kmode_collect _ Hok []) as [d [Hrun [Hkeys [Hnd Hent]]]].
  exists d. unfold _multi_kmode_clustering. cbn [Py.bind].
  destruct (Z.leb_spec cpu 0) as [Hle | _]; [lia |].
  fold futures. split; [exact Hrun |].
  split; [apply Hnd; constructor |]. split.
  - intros k. rewrite Hkeys. simpl. split.
    + intros [[] | Hin]. apply in_map_iff in Hin. destruct Hin as [f [<- Hf]].
      rewrite Forall_forall in Hshape. apply (Hshape f Hf).
    + intros Hk. right.
      apply (Permutation_in _ (Permutation_sym (Permutation_map fst Hperm))).
      unfold futures. rewrite map_map. simpl. rewrite map_id. exact Hk.
  - intros k b Hin. destruct (Hent k b Hin) as [[] | Hf].
    rewrite Forall_forall in Hshape. destruct (Hshape _ Hf) as [_ Hb]. simpl in Hb.
    split; [symmetry; exact Hb |].
    destruct (kmode_bundle_of results k b (eq_sym Hb)) as [clusters [_ [_ ->]]].
    reflexivity.
Qed.

(** Three requested ks on [Examples.three_runs], finishing in reverse. *)
Lemma multi_kmode_result_keys_witness :
  exists d,
    @_multi_kmode_clustering Toy.kmodes Toy.reversed Examples.three_runs
                             (Ks [2; 3; 4]) 2 = Ok d
    /\ NoDup (map fst d)
    /\ (forall k, In k (map fst d) <-> In k [2; 3; 4])
    /\ (forall k b, In (k, b) d ->
          @_kmode_on_multi_leiden Toy.kmodes Examples.three_runs k = Ok b
          /\ bundle_k b = k).
Proof.
  apply (@multi_kmode_result_keys Toy.kmodes Toy.reversed Examples.three_runs
           [2; 3; 4] 2).
  - lia.
  - intros k _. eexists. reflexivity.
Defined.

(** X11: a failure of the clustering for one requested k aborts the whole
    sweep: [_multi_kmode_clustering] raises and returns no partial result. *)
Theorem multi_kmode_failure
        {KM : KModes} (E : Executor) (results : frame) (ks : list Z) (cpu : Z)
        (k : Z) (e : exn) :
  In k ks ->
  _kmode_on_multi_leiden results k = Raise e ->
  raises (_multi_kmode_clustering results (Ks ks) cpu).
Proof.
  intros Hin Hfail. unfold _multi_kmode_clustering. cbn [Py.bind].
  destruct (cpu <=? 0); [eexists; reflexivity |].
  set (futures := map (fun k0 => (k0, _kmode_on_multi_leiden results k0)) ks).
  assert (In (k, Raise e) (as_completed _ futures)) as Hfut.
  { apply (Permutation_in _ (Permutation_sym (as_completed_perm _ futures))).
    unfold futures. apply in_map_iff. exists k. split; [rewrite Hfail; reflexivity | exact Hin]. }
  generalize (@nil (Z * ResultBundle)) as d0.
  induction (as_completed _ futures) as [| f fs IH]; intros d0; [contradiction |].
  cbn [for_each]. destruct Hfut as [-> | Hfut].
  - cbn [snd Py.bind]. exists e. reflexivity.
  - destruct (snd f) as [data | e']; cbn [Py.bind]; [| exists e'; reflexivity].
    apply IH. exact Hfut.
Qed.

Lemma multi_kmode_failure_witness :
  raises (@_multi_kmode_clustering ToyKModes.kmodes_small Toy.reversed
            Examples.three_runs (Ks [2; 3; 4]) 2).
Proof.
  apply (@multi_kmode_failure ToyKModes.kmodes_small Toy.reversed Examples.three_runs
           [2; 3; 4] 2 4 (ValueError "Clustering algorithm could not initialize")).
  - right. right. left. reflexivity.
  - reflexivity.
Defined.

(** ** The mode of the category counts *)

Lemma int_of_series_two (l : list Z) (x y : Z) :
  x <> y -> In x l -> In y l ->
  int_of_series l = Raise (TypeError "cannot convert the series to <class 'int'>").
Proof.
  intros Hne Hx Hy. destruct l as [| a [| b l]]; [contradiction | | reflexivity].
  destruct Hx as [<- | []]. destruct Hy as [Heq | []]. congruence.
Qed.

Lemma most_frequent_is_max (l : list Z) (x : Z) :
  In x l -> (forall z, (count z l <= count x l)%nat) -> count x l = max_count l.
Proof.
  intros Hin Hmost.
  assert (l <> []) as Hne by (intros ->; contradiction).
  destruct (max_count_attained l Hne) as [w [_ Hw]].
  pose proof (max_count_upper l x). specialize (Hmost w). lia.
Qed.

(** X12: [mode_k] is taken with [int(....mode())], which only converts a
    one-element series. When two different category counts are both the most
    frequent among the run columns, [_multi_kmode_clustering] under ["auto"]
    raises [TypeError], and so does the body of [leiden_kmode_clustering] for
    that resolution, also when an explicit list of k values was given. *)
Theorem tied_mode_raises
        {L : Leiden} {R : NumpyRandom} {KM : KModes} (E : Executor)
        (adata : AnnData) (kmode_ks : k_policy) (cpu : Z) (leiden_repeats : nat)
        (st : sweep_state) (_resolution : Q)
        (results : frame) (rng' : rng_state) (x y : Z) :
  resolution_ensemble (sweep_rng st) adata cpu leiden_repeats _resolution
  = Ok (results, rng') ->
  x <> y ->
  In x (map (fun col => categories_size (snd col)) (columns results)) ->
  In y (map (fun col => categories_size (snd col)) (columns results)) ->
  count x (map (fun col => categories_size (snd col)) (columns results))
  = count y (map (fun col => categories_size (snd col)) (columns results)) ->
  (forall z, (count z (map (fun col => categories_size (snd col)) (columns results))
              <= count x (map (fun col => categories_size (snd col)) (columns results)))%nat) ->
  _multi_kmode_clustering results Auto cpu
  = Raise (TypeError "cannot convert the series to <class 'int'>")
  /\ sweep_resolution adata kmode_ks cpu leiden_repeats st _resolution
     = Raise (TypeError "cannot convert the series to <class 'int'>").
Proof.
  intros Hrun Hne Hx Hy Htie Hmost.
  set (counts := map (fun col => categories_size (snd col)) (columns results)) in *.
  pose proof (most_frequent_is_max counts x Hx Hmost) as Hmax.
  assert (mode_k_of results
          = Raise (TypeError "cannot convert the series to <class 'int'>")) as Hmode.
  { unfold mode_k_of. fold counts.
    apply (int_of_series_two (modes counts) x y Hne); apply modes_In; split;
      try assumption; congruence. }
  split.
  - unfold _multi_kmode_clustering. rewrite Hmode. reflexivity.
  - unfold sweep_resolution. rewrite Hrun. cbn [Py.bind fst]. rewrite Hmode. reflexivity.
Qed.

(** Of 300 runs, 150 find one community and 150 find two. *)
Lemma tied_mode_raises_witness :
  @_multi_kmode_clustering Toy.kmodes Toy.in_order ToyFrames.ensemble_alternating Auto 4
  = Raise (TypeError "cannot convert the series to <class 'int'>")
  /\ @sweep_resolution ToyMore.leiden_alternating Toy.numpy Toy.kmodes Toy.in_order
                       Toy.adata (Ks [2; 3]) 4 300 Toy.sweep_start 1
     = Raise (TypeError "cannot convert the series to <class 'int'>").
Proof.
  assert (@resolution_ensemble ToyMore.leiden_alternating Toy.numpy Toy.in_order
            (sweep_rng Toy.sweep_start) Toy.adata 4 300 1
          = Ok (ToyFrames.ensemble_alternating, 300)) as Hrun
      by (vm_compute; reflexivity).
  assert (count 1 (map (fun col => categories_size (snd col))
                       (columns ToyFrames.ensemble_alternating))
          = max_count (map (fun col => categories_size (snd col))
                           (columns ToyFrames.ensemble_alternating))) as Hmax
      by (vm_compute; reflexivity).
  apply (@tied_mode_raises ToyMore.leiden_alternating Toy.numpy Toy.kmodes Toy.in_order
           Toy.adata (Ks [2; 3]) 4 300 Toy.sweep_start 1
           ToyFrames.ensemble_alternating 300 1 2 Hrun).
  - discriminate.
  - vm_compute. tauto.
  - vm_compute. tauto.
  - vm_compute. reflexivity.
  - intros z. rewrite Hmax. apply max_count_upper.
Defined.

(** ** What the selector can return *)

Lemma Qgt_bool_iff (x y : Q) : Qgt_bool x y = true <-> (y < x)%Q.
Proof.
  unfold Qgt_bool. rewrite negb_true_iff. split.
  - intros Hle. apply Qnot_le_lt. intros Hxy.
    apply Qle_bool_iff in Hxy. congruence.
  - intros Hlt. destruct (Qle_bool x y) eqn:Hle; [| reflexivity].
    apply Qle_bool_iff in Hle. exfalso. apply (Qlt_not_le _ _ Hlt). exact Hle.
Qed.

Lemma passes_iff (pc cc : Q) (row : overall_row) :
  passes pc cc row = true
  <-> (pc < row_pureness row)%Q /\ (cc < row_completeness row)%Q.
Proof.
  unfold passes. rewrite andb_true_iff, !Qgt_bool_iff. reflexivity.
Qed.

Lemma overall_df_In (kr : dict Z ResultBundle) (row : overall_row) :
  In row (overall_df kr) ->
  exists rd, In (row_k row, rd) kr
             /\ row_pureness row = overall_pureness rd
             /\ row_completeness row = overall_completeness rd.
Proof.
  unfold overall_df. rewrite in_map_iff. intros [[k rd] [<- Hin]].
  exists rd. repeat split. exact Hin.
Qed.

(** X13: [_select_optimal_k] either finds no k passing both cutoffs and
    raises [KeyError: 'k'], or returns a key of the sweep whose bundle has
    overall pureness and overall completeness strictly above the cutoffs; it
    never returns a k that fails a cutoff. *)
Theorem select_optimal_k_outcome (kr : dict Z ResultBundle) (pc cc : Q) :
  ((forall k rd, In (k, rd) kr ->
      ~ ((pc < overall_pureness rd)%Q /\ (cc < overall_completeness rd)%Q))
   /\ _select_optimal_k (Some kr) pc cc = Raise (KeyError (KStr "k")))
  \/ (exists k rd,
        _select_optimal_k (Some kr) pc cc = Ok k
        /\ In (k, rd) kr
        /\ (pc < overall_pureness rd)%Q
        /\ (cc < overall_completeness rd)%Q).
Proof.
  destruct (filter (passes pc cc) (overall_df kr)) as [| row0 rows0] eqn:Hpass.
  - left. split; [| apply select_optimal_k_none_pass; exact Hpass].
    intros k rd Hin Hboth.
    set (row := {| row_k := k; row_pureness := overall_pureness rd;
                   row_completeness := overall_completeness rd;
                   row_n_cluster := unique_size (cluster rd) |}).
    assert (In row (filter (passes pc cc) (overall_df kr))) as Hrow.
    { apply filter_In. split.
      - unfold overall_df. apply in_map_iff. exists (k, rd). split; [reflexivity | exact Hin].
      - apply passes_iff. exact Hboth. }
    rewrite Hpass in Hrow. contradiction.
  - right. unfold _select_optimal_k. rewrite Hpass.
    destruct (scan_rows (n_cluster_max (overall_df kr)) (row0 :: rows0))
      as [| row rows] eqn:Hscan.
    { apply scan_rows_nil_iff in Hscan. discriminate. }
    pose proof (Zmax_list_In (map row_k rows) (row_k row)) as Hk.
    change (row_k row :: map row_k rows) with (map row_k (row :: rows)) in Hk.
    apply in_map_iff in Hk. destruct Hk as [r [Hrk Hr]].
    rewrite <- Hscan in Hr. apply scan_rows_incl in Hr.
    rewrite <- Hpass in Hr. apply filter_In in Hr. destruct Hr as [Hdf Hp].
    apply passes_iff in Hp. destruct (overall_df_In kr r Hdf) as [rd [Hin [Hpur Hcom]]].
    exists (Zmax_list (row_k row) (map row_k rows)), rd.
    rewrite <- Hrk. rewrite <- Hpur, <- Hcom. repeat split; tauto.
Qed.

Lemma select_raise_is_keyerror (kr : dict Z ResultBundle) (pc cc : Q) (e : exn) :
  _select_optimal_k (Some kr) pc cc = Raise e -> e = KeyError (KStr "k").
Proof.
  unfold _select_optimal_k.
  destruct (scan_rows (n_cluster_max (overall_df kr))
                      (filter (passes pc cc) (overall_df kr))); intros Hsel.
  - injection Hsel as <-. reflexivity.
  - discriminate.
Qed.

Lemma judge_resolution_cases (total : dict Q (option (dict Z ResultBundle)))
      (pc cc : Q) (st : judge_state) (r : Q) (v : option (dict Z ResultBundle)) :
  dict_get Qeq_bool total r = Some v ->
  (exists k, opt_k_of total pc cc r = Ok k)
  \/ judge_resolution total pc cc st r = Raise (KeyError (KStr "k"))
  \/ judge_resolution total pc cc st r
     = Raise (AttributeError "'NoneType' object has no attribute 'items'").
Proof.
  intros Hentry. destruct v as [kr |].
  - unfold opt_k_of, judge_resolution, results_getitem. rewrite Hentry.
    cbn [Py.bind].
    destruct (_select_optimal_k (Some kr) pc cc) as [k | e] eqn:Hsel.
    + left. exists k. reflexivity.
    + right. left. apply select_raise_is_keyerror in Hsel. subst e. reflexivity.
  - right. right. apply judge_resolution_null. exact Hentry.
Qed.

Lemma judge_scan_cases (total : dict Q (option (dict Z ResultBundle)))
      (pc cc : Q) (rs : list Q) :
  (forall r, In r rs -> exists v, dict_get Qeq_bool total r = Some v) ->
  forall st,
    (exists st',
        for_each (judge_resolution total pc cc) rs st = Ok st'
        /\ Forall (fun r => exists k, opt_k_of total pc cc r = Ok k /\ k <= max_opt_k st') rs
        /\ max_opt_k st <= max_opt_k st'
        /\ ((best_resolution st' = best_resolution st /\ max_opt_k st' = max_opt_k st)
            \/ exists b, best_resolution st' = Some b
                         /\ opt_k_of total pc cc b = Ok (max_opt_k st')))
    \/ for_each (judge_resolution total pc cc) rs st = Raise (KeyError (KStr "k"))
    \/ for_each (judge_resolution total pc cc) rs st
       = Raise (AttributeError "'NoneType' object has no attribute 'items'").
Proof.
  induction rs as [| r rs IH]; intros Hentries st.
  - left. exists st. simpl. split; [reflexivity |]. split; [constructor |].
    split; [lia |]. left. split; reflexivity.
  - destruct (Hentries r (or_introl eq_refl)) as [v Hv].
    assert (forall r0, In r0 rs -> exists v0, dict_get Qeq_bool total r0 = Some v0)
      as Hrest by (intros r0 Hr0; apply Hentries; right; exact Hr0).
    cbn [for_each].
    destruct (judge_resolution_cases total pc cc st r v Hv) as [[k Hk] | [He | He]].
    + rewrite (judge_resolution_opt _ _ _ _ _ _ Hk). cbn [Py.bind].
      set (st1 := if max_opt_k st <? k
                  then {| best_resolution := Some r; max_opt_k := k;
                          judge_log := judge_log st ++ [MsgOptK r k] |}
                  else {| best_resolution := best_resolution st;
                          max_opt_k := max_opt_k st;
                          judge_log := judge_log st ++ [MsgOptK r k] |}).
      assert (k <= max_opt_k st1 /\ max_opt_k st <= max_opt_k st1
              /\ ((best_resolution st1 = best_resolution st
                   /\ max_opt_k st1 = max_opt_k st)
                  \/ (best_resolution st1 = Some r /\ max_opt_k st1 = k))) as Hst1.
      { unfold st1. destruct (Z.ltb_spec (max_opt_k st) k); simpl;
          repeat split; try lia; [right | left]; split; reflexivity. }
      destruct Hst1 as [Hk1 [Hmono1 Hbest1]].
      destruct (IH Hrest st1) as [[st' [Hrun [Hall [Hmono Hbest]]]] | Hraise].
      * left. exists st'. split; [exact Hrun |]. split; [| split; [lia |]].
        -- constructor; [exists k; split; [exact Hk | lia] | exact Hall].
        -- destruct Hbest as [[Hb Hm] | Hnew]; [| right; exact Hnew].
           destruct Hbest1 as [[Hb1 Hm1] | [Hb1 Hm1]].
           ++ left. split; congruence.
           ++ right. exists r. split; [congruence |]. rewrite Hm, Hm1. exact Hk.
      * right. exact Hraise.
    + right. left. rewrite He. reflexivity.
    + right. right. rewrite He. reflexivity.
Qed.

(** X15: when every stored resolution has an entry, a call of
    [judge_leiden_kmode_results] has one of four outcomes: it returns
    normally with [adata] unchanged and the "none fulfil" message, which
    happens only if no resolution selects a k above -1 (for instance for an
    empty resolution list); or it raises [KeyError: 'k'] (a resolution without
    passing k), [AttributeError] (a null resolution) or [KeyError: 'cluster']
    (from [_filter_cell_and_cluster]). It never attaches annotation columns. *)
Theorem judge_outcomes
        (adata : AnnData) (total : dict Q (option (dict Z ResultBundle)))
        (resolutions : list Q) (pc cc cac cpc : Q) :
  leiden_kmode_results adata = Some total ->
  leiden_kmode_resolutions adata = Some resolutions ->
  (forall r, In r resolutions -> exists v, dict_get Qeq_bool total r = Some v) ->
  (exists st,
      judge_scan total resolutions pc cc = Ok st
      /\ judge_leiden_kmode_results adata pc cc cac cpc
         = Ok (adata, judge_log st ++ [MsgNoneFulfill])
      /\ Forall (fun r => exists k, opt_k_of total pc cc r = Ok k /\ k <= -1) resolutions)
  \/ judge_leiden_kmode_results adata pc cc cac cpc = Raise (KeyError (KStr "k"))
  \/ judge_leiden_kmode_results adata pc cc cac cpc
     = Raise (AttributeError "'NoneType' object has no attribute 'items'")
  \/ judge_leiden_kmode_results adata pc cc cac cpc = Raise (KeyError (KStr "cluster")).
Proof.
  intros Hres Hpar Hentries.
  unfold judge_leiden_kmode_results. rewrite Hres, Hpar. unfold judge_scan.
  destruct (judge_scan_cases total pc cc resolutions Hentries
              {| best_resolution := None; max_opt_k := -1; judge_log := [] |})
    as [[st [Hrun [Hall [_ Hbest]]]] | [Hraise | Hraise]].
  - rewrite Hrun. cbn [Py.bind].
    destruct Hbest as [[Hb Hm] | [b [Hb Hopt]]].
    + left. exists st. simpl in Hb, Hm. rewrite Hb. rewrite Hm in Hall.
      split; [reflexivity |]. split; [reflexivity | exact Hall].
    + right. right. right. rewrite Hb.
      destruct (opt_k_best_k_result _ _ _ _ _ Hopt) as [rd Hrd].
      rewrite Hrd. reflexivity.
  - right. left. rewrite Hraise. reflexivity.
  - right. right. left. rewrite Hraise. reflexivity.
Qed.

(** Stored results with a passing k: the judge ends in [KeyError: 'cluster']. *)
Lemma judge_outcomes_witness :
  judge_leiden_kmode_results (Examples.adata_of Examples.total_two [1 # 1; 2 # 1])
    Examples.pureness_cutoff Examples.completeness_cutoff
    Examples.cell_ambiguity_cutoff Examples.cluster_portion_cutoff
  = Raise (KeyError (KStr "cluster")).
Proof.
  destruct (judge_outcomes (Examples.adata_of Examples.total_two [1 # 1; 2 # 1])
              Examples.total_two [1 # 1; 2 # 1]
              Examples.pureness_cutoff Examples.completeness_cutoff
              Examples.cell_ambiguity_cutoff Examples.cluster_portion_cutoff
              eq_refl eq_refl) as [[st [_ [Hok _]]] | [Hk | [Ha | Hc]]].
  - intros r [<- | [<- | []]]; eexists; reflexivity.
  - exfalso. revert Hok. vm_compute. discriminate.
  - exfalso. revert Hk. vm_compute. discriminate.
  - exfalso. revert Ha. vm_compute. discriminate.
  - exact Hc.
Defined.

(** ** What the sweep driver stores *)

Lemma results_set_same {V : Type} (d : dict Q V) (r : Q) (v : V) :
  dict_get Qeq_bool (dict_set Qeq_bool d r v) r = Some v.
Proof.
  induction d as [| [r0 v0] d IH]; simpl.
  - rewrite Qeq_bool_refl. reflexivity.
  - destruct (Qeq_bool r r0) eqn:Heq; simpl; rewrite Heq; [reflexivity | exact IH].
Qed.

Lemma results_set_keeps {V : Type} (d : dict Q V) (r : Q) (v : V) (r' : Q) (w : V) :
  dict_get Qeq_bool d r' = Some w ->
  exists w', dict_get Qeq_bool (dict_set Qeq_bool d r v) r' = Some w'.
Proof.
  induction d as [| [r0 v0] d IH]; simpl; [discriminate |].
  destruct (Qeq_bool r r0) eqn:Heq; simpl.
  - destruct (Qeq_bool r' r0); intros Hget; [eexists; reflexivity | eexists; exact Hget].
  - destruct (Qeq_bool r' r0); intros Hget; [eexists; reflexivity | apply IH; exact Hget].
Qed.

Lemma results_set_entries {V : Type} (d : dict Q V) (r : Q) (v : V) (r' : Q) (v' : V) :
  In (r', v') (dict_set Qeq_bool d r v) ->
  (v' = v /\ (r' = r \/ In r' (map fst d))) \/ In (r', v') d.
Proof.
  induction d as [| [r0 v0] d IH]; simpl.
  - intros [Heq | []]. injection Heq as <- <-. left. split; [reflexivity | left; reflexivity].
  - destruct (Qeq_bool r r0); simpl.
    + intros [Heq | Hin]; [| right; right; exact Hin].
      injection Heq as <- <-. left. split; [reflexivity | right; left; reflexivity].
    + intros [Heq | Hin]; [right; left; exact Heq |].
      destruct (IH Hin) as [[Hv [Hr | Hr]] | Hold].
      * left. split; [exact Hv | left; exact Hr].
      * left. split; [exact Hv | right; right; exact Hr].
      * right. right. exact Hold.
Qed.

Lemma results_get_In {V : Type} (d : dict Q V) (r : Q) (v : V) :
  dict_get Qeq_bool d r = Some v -> exists r', In (r', v) d.
Proof.
  induction d as [| [r0 v0] d IH]; simpl; [discriminate |].
  destruct (Qeq_bool r r0); intros Hget.
  - injection Hget as <-. exists r0. left. reflexivity.
  - destruct (IH Hget) as [r' Hin]. exists r'. right. exact Hin.
Qed.

Lemma auto_k_top_level_small (mode_k : Z) (n_cells : nat) :
  (n_cells < 300)%nat -> auto_k_top_level mode_k n_cells = [].
Proof.
  intros Hsmall. unfold auto_k_top_level, hard_k_min, hard_k_max.
  apply range_nil_iff; [lia |].
  assert (Z.of_nat n_cells / 50 <= 5) as Hdiv.
  { apply Z.lt_succ_r. apply Z.div_lt_upper_bound; lia. }
  lia.
Qed.

(** One pass of the loop body stores one entry, under the resolution it was
    given; under ["auto"] with fewer than 300 cells that entry is null. *)
Lemma sweep_resolution_stores
      {L : Leiden} {R : NumpyRandom} {KM : KModes} (E : Executor)
      (adata : AnnData) (kmode_ks : k_policy) (cpu : Z) (leiden_repeats : nat)
      (st st' : sweep_state) (r : Q) :
  sweep_resolution adata kmode_ks cpu leiden_repeats st r = Ok st' ->
  exists v,
    total_results st' = dict_set Qeq_bool (total_results st) r v
    /\ (kmode_ks = Auto -> (n_obs adata < 300)%nat -> v = None).
Proof.
  unfold sweep_resolution. intros Hrun.
  apply bind_Ok_inv in Hrun. destruct Hrun as [run [_ Hrun]].
  apply bind_Ok_inv in Hrun. destruct Hrun as [mode_k [_ Hrun]].
  destruct kmode_ks as [| ks].
  - pose proof (auto_k_top_level_small mode_k (n_obs adata)) as Hsmall.
    destruct (auto_k_top_level mode_k (n_obs adata)) as [| k0 ks0] eqn:Hks.
    + injection Hrun as <-. exists None. split; [reflexivity | reflexivity].
    + apply bind_Ok_inv in Hrun. destruct Hrun as [kmin [_ Hrun]].
      apply bind_Ok_inv in Hrun. destruct Hrun as [kmax [_ Hrun]].
      apply bind_Ok_inv in Hrun. destruct Hrun as [kmode_results [_ Hrun]].
      injection Hrun as <-. eexists. split; [reflexivity |].
      intros _ Hn. specialize (Hsmall Hn). discriminate.
  - apply bind_Ok_inv in Hrun. destruct Hrun as [kmin [_ Hrun]].
    apply bind_Ok_inv in Hrun. destruct Hrun as [kmax [_ Hrun]].
    apply bind_Ok_inv in Hrun. destruct Hrun as [kmode_results [_ Hrun]].
    injection Hrun as <-. eexists. split; [reflexivity |]. discriminate.
Qed.

Lemma sweep_loop_stores
      {L : Leiden} {R : NumpyRandom} {KM : KModes} (E : Executor)
      (adata : AnnData) (kmode_ks : k_policy) (cpu : Z) (leiden_repeats : nat)
      (resolutions : list Q) :
  forall st st',
    for_each (sweep_resolution adata kmode_ks cpu leiden_repeats) resolutions st = Ok st' ->
    (forall r, In r resolutions \/ (exists w, dict_get Qeq_bool (total_results st) r = Some w) ->
               exists v, dict_get Qeq_bool (total_results st') r = Some v)
    /\ (forall r v, In (r, v) (total_results st') ->
                    In r resolutions \/ In r (map fst (total_results st)))
    /\ (kmode_ks = Auto -> (n_obs adata < 300)%nat ->
        Forall (fun e => snd e = None) (total_results st) ->
        Forall (fun e => snd e = None) (total_results st')).
Proof.
  induction resolutions as [| r0 rs IH]; intros st st' Hrun.
  - simpl in Hrun. injection Hrun as <-. split; [| split].
    + intros r [[] | Hw]. exact Hw.
    + intros r v Hin. right. apply in_map_iff. exists (r, v). split; [reflexivity | exact Hin].
    + intros _ _ Hnone. exact Hnone.
  - cbn [for_each] in Hrun. apply bind_Ok_inv in Hrun.
    destruct Hrun as [st1 [Hstep Hrun]].
    destruct (sweep_resolution_stores E _ _ _ _ _ _ _ Hstep) as [v0 [Hset Hnull]].
    destruct (IH st1 st' Hrun) as [Hget [Hkeys Hnone]].
    split; [| split].
    + intros r [[<- | Hin] | [w Hw]].
      * apply Hget. right. rewrite Hset. exists v0. apply results_set_same.
      * apply Hget. left. exact Hin.
      * apply Hget. right. rewrite Hset. eapply results_set_keeps. exact Hw.
    + intros r v Hin. destruct (Hkeys r v Hin) as [Hrs | Hold].
      * left. right. exact Hrs.
      * rewrite Hset in Hold. apply in_map_iff in Hold.
        destruct Hold as [[r' v'] [Hr' Hin']]. simpl in Hr'. subst r'.
        apply results_set_entries in Hin'.
        destruct Hin' as [[_ [-> | Hk]] | Hk].
        -- left. left. reflexivity.
        -- right. exact Hk.
        -- right. apply in_map_iff. exists (r, v'). split; [reflexivity | exact Hk].
    + intros Hauto Hn Hall. apply (Hnone Hauto Hn). rewrite Hset.
      rewrite Forall_forall in Hall |- *. intros [r' v'] Hin'.
      apply results_set_entries in Hin'. destruct Hin' as [[-> _] | Hold].
      * simpl. apply Hnull; assumption.
      * apply (Hall _ Hold).
Qed.

(** X16: when [leiden_kmode_clustering] returns, the dataset carries the
    resolution list as stored parameter and a result entry (a sweep or the
    null marker) for every requested resolution and for no other key; the
    cells, the graph and the annotation table are untouched. So the judge
    never misses a stored resolution afterwards. *)
Theorem leiden_kmode_clustering_stores_all
        {L : Leiden} {R : NumpyRandom} {KM : KModes} (E : Executor)
        (rng : rng_state) (adata : AnnData) (resolutions : list Q)
        (kmode_ks : k_policy) (cpu : Z) (leiden_repeats : nat)
        (adata' : AnnData) (log : list message) (rng' : rng_state) :
  leiden_kmode_clustering rng adata resolutions kmode_ks cpu leiden_repeats
  = Ok (adata', log, rng') ->
  leiden_kmode_resolutions adata' = Some resolutions
  /\ n_obs adata' = n_obs adata
  /\ neighbors adata' = neighbors adata
  /\ obs adata' = obs adata
  /\ exists total,
      leiden_kmode_results adata' = Some total
      /\ (forall r, In r resolutions -> exists v, dict_get Qeq_bool total r = Some v)
      /\ (forall r v, In (r, v) total -> In r resolutions).
Proof.
  unfold leiden_kmode_clustering. intros Hrun.
  apply bind_Ok_inv in Hrun. destruct Hrun as [st [Hloop Hrun]].
  injection Hrun as <- _ _.
  destruct (sweep_loop_stores E _ _ _ _ _ _ _ Hloop) as [Hget [Hkeys _]].
  cbn [leiden_kmode_resolutions n_obs neighbors obs leiden_kmode_results].
  repeat split. exists (total_results st). split; [reflexivity |]. split.
  - intros r Hr. apply Hget. left. exact Hr.
  - intros r v Hin. destruct (Hkeys r v Hin) as [Hr | []]. exact Hr.
Qed.

Lemma leiden_kmode_clustering_stores_all_witness :
  leiden_kmode_resolutions ToySweep.adata_swept = Some [1%Q; 2%Q]
  /\ n_obs ToySweep.adata_swept = n_obs Toy.adata
  /\ neighbors ToySweep.adata_swept = neighbors Toy.adata
  /\ obs ToySweep.adata_swept = obs Toy.adata
  /\ exists total,
      leiden_kmode_results ToySweep.adata_swept = Some total
      /\ (forall r, In r [1%Q; 2%Q] -> exists v, dict_get Qeq_bool total r = Some v)
      /\ (forall r v, In (r, v) total -> In r [1%Q; 2%Q]).
Proof.
  apply (@leiden_kmode_clustering_stores_all Toy.leiden Toy.numpy Toy.kmodes Toy.reversed
           7 Toy.adata [1%Q; 2%Q] Auto 4 50 ToySweep.adata_swept ToySweep.log_swept 300).
  vm_compute. reflexivity.
Defined.

(** X17: the top-level ["auto"] range is bounded by max(mode_k - 10, 5) below
    and by floor(N / 50) above, so it is empty for every mode_k when the
    dataset has fewer than 300 cells: a returning ["auto"] sweep then stores
    the null marker for every resolution, and a following call of
    [judge_leiden_kmode_results] raises [AttributeError] unless the resolution
    list is empty. *)
Theorem small_dataset_auto_sweep
        {L : Leiden} {R : NumpyRandom} {KM : KModes} (E : Executor)
        (rng : rng_state) (adata : AnnData) (resolutions : list Q)
        (cpu : Z) (leiden_repeats : nat)
        (adata' : AnnData) (log : list message) (rng' : rng_state)
        (pc cc cac cpc : Q) :
  (n_obs adata < 300)%nat ->
  leiden_kmode_clustering rng adata resolutions Auto cpu leiden_repeats
  = Ok (adata', log, rng') ->
  (forall mode_k, auto_k_top_level mode_k (n_obs adata) = [])
  /\ (exists total,
         leiden_kmode_results adata' = Some total
         /\ Forall (fun entry => snd entry = None) total)
  /\ (resolutions <> [] ->
      judge_leiden_kmode_results adata' pc cc cac cpc
      = Raise (AttributeError "'NoneType' object has no attribute 'items'")).
Proof.
  intros Hsmall Hrun.
  split; [intros mode_k; apply auto_k_top_level_small; exact Hsmall |].
  unfold leiden_kmode_clustering in Hrun.
  apply bind_Ok_inv in Hrun. destruct Hrun as [st [Hloop Hrun]].
  injection Hrun as <- _ _.
  destruct (sweep_loop_stores E _ _ _ _ _ _ _ Hloop) as [Hget [_ Hnone]].
  specialize (Hnone eq_refl Hsmall (Forall_nil _)).
  split.
  - exists (total_results st). split; [reflexivity | exact Hnone].
  - intros Hne. destruct resolutions as [| r0 rs]; [contradiction |].
    destruct (Hget r0 (or_introl (or_introl eq_refl))) as [v Hv].
    assert (v = None) as ->.
    { destruct (results_get_In _ _ _ Hv) as [r' Hin].
      rewrite Forall_forall in Hnone. apply (Hnone _ Hin). }
    unfold judge_leiden_kmode_results.
    cbn [leiden_kmode_results leiden_kmode_resolutions].
    unfold judge_scan. cbn [for_each].
    rewrite (judge_resolution_null _ _ _ _ _ Hv). reflexivity.
Qed.

(** Four cells swept over two resolutions, then judged. *)
Lemma small_dataset_auto_sweep_witness :
  (forall mode_k, auto_k_top_level mode_k (n_obs Toy.adata) = [])
  /\ (exists total,
         leiden_kmode_results ToySweep.adata_swept = Some total
         /\ Forall (fun entry => snd entry = None) total)
  /\ ([1%Q; 2%Q] <> [] ->
      judge_leiden_kmode_results ToySweep.adata_swept
        Examples.pureness_cutoff Examples.completeness_cutoff
        Examples.cell_ambiguity_cutoff Examples.cluster_portion_cutoff
      = Raise (AttributeError "'NoneType' object has no attribute 'items'")).
Proof.
  apply (@small_dataset_auto_sweep Toy.leiden Toy.numpy Toy.kmodes Toy.reversed
           7 Toy.adata [1%Q; 2%Q] 4 50 ToySweep.adata_swept ToySweep.log_swept 300).
  - vm_compute. lia.
  - vm_compute. reflexivity.
Defined.

(** ** Candidate lists and the order of the sweep's keys *)

Lemma range_sorted (start stop step : Z) :
  0 < step -> StronglySorted Z.lt (range start stop step).
Proof.
  intros Hstep. unfold range.
  generalize (Z.to_nat ((stop - start + step - 1) / step)) as m.
  generalize 0%nat as i.
  intros i m. revert i. induction m as [| m IH]; intros i; simpl.
  - constructor.
  - constructor; [apply IH |].
    rewrite Forall_map, Forall_forall. intros j Hj. apply in_seq in Hj. nia.
Qed.

(** X18: the candidate lists of the ["auto"] policy are strictly ascending.
    Every candidate k of the top-level driver satisfies 5 <= k,
    mode_k - 10 <= k < 2 mode_k and 50 (k + 1) <= N, so candidates exist only
    for mode_k >= 3 and N >= 300; every candidate of the low-level sweep is at
    least 2. *)
Theorem auto_candidates_bounds (mode_k : Z) (n_cells : nat) (k : Z) :
  StronglySorted Z.lt (auto_k_top_level mode_k n_cells)
  /\ StronglySorted Z.lt (auto_k_low_level mode_k)
  /\ (In k (auto_k_top_level mode_k n_cells) ->
      5 <= k /\ mode_k - 10 <= k < 2 * mode_k /\ 50 * (k + 1) <= Z.of_nat n_cells
      /\ 3 <= mode_k /\ (300 <= n_cells)%nat)
  /\ (In k (auto_k_low_level mode_k) -> 2 <= k /\ mode_k - 5 <= k < mode_k + 15).
Proof.
  split; [apply range_sorted; lia |].
  split; [apply range_sorted; lia |].
  split.
  - unfold auto_k_top_level, hard_k_min, hard_k_max. intros Hin.
    apply range_In in Hin; [| lia]. destruct Hin as [[Hlo Hhi] _].
    assert (k + 1 <= Z.of_nat n_cells / 50) as Hdiv by lia.
    pose proof (Z.mul_div_le (Z.of_nat n_cells) 50 ltac:(lia)) as Hmul.
    lia.
  - unfold auto_k_low_level. intros Hin.
    apply range_In in Hin; [| lia]. lia.
Qed.

Lemma dict_set_new {V : Type} (d : dict Z V) (k : Z) (v : V) :
  ~ In k (map fst d) -> dict_set Z.eqb d k v = d ++ [(k, v)].
Proof.
  induction d as [| [k0 v0] d IH]; simpl; intros Hnew; [reflexivity |].
  destruct (Z.eqb_spec k k0) as [-> | Hne].
  - exfalso. apply Hnew. left. reflexivity.
  - rewrite IH; [reflexivity |]. intros Hin. apply Hnew. right. exact Hin.
Qed.

Lemma kmode_collect_order (fs : list (Z * result ResultBundle)) :
  forall d0 d,
    NoDup (map fst d0 ++ map fst fs) ->
    for_each (fun result_dict future =>
                data <- snd future ;;
                Ok (dict_set Z.eqb result_dict (fst future) data)) fs d0 = Ok d ->
    map fst d = map fst d0 ++ map fst fs.
Proof.
  induction fs as [| [k0 r0] fs IH]; intros d0 d Hnd Hrun.
  - simpl in Hrun. injection Hrun as <-. simpl. rewrite app_nil_r. reflexivity.
  - cbn [for_each fst snd] in Hrun. destruct r0 as [b0 | e]; [| discriminate].
    cbn [Py.bind] in Hrun. simpl in Hnd.
    assert (~ In k0 (map fst d0)) as Hnew.
    { intros Hin. apply NoDup_remove_2 in Hnd. apply Hnd.
      apply in_or_app. left. exact Hin. }
    rewrite (dict_set_new d0 k0 b0 Hnew) in Hrun.
    assert (NoDup (map fst (d0 ++ [(k0, b0)]) ++ map fst fs)) as Hnd'.
    { rewrite map_app. simpl. rewrite <- app_assoc. exact Hnd. }
    rewrite (IH _ _ Hnd' Hrun).
    rewrite map_app. simpl. rewrite <- app_assoc. reflexivity.
Qed.

(** X19: for distinct requested k values the dictionary returned by
    [_multi_kmode_clustering] lists its keys in the order in which the
    clusterings complete, not in ascending k order; the rows that
    [_select_optimal_k] scans follow that order. *)
Theorem multi_kmode_key_order
        {KM : KModes} (E : Executor) (results : frame) (ks : list Z) (cpu : Z)
        (d : dict Z ResultBundle) :
  NoDup ks ->
  _multi_kmode_clustering results (Ks ks) cpu = Ok d ->
  map fst d
  = map fst (as_completed _ (map (fun k => (k, _kmode_on_multi_leiden results k)) ks))
  /\ map row_k (overall_df d) = map fst d.
Proof.
  intros Hnd Hrun. split; [| apply overall_df_keys].
  unfold _multi_kmode_clustering in Hrun. cbn [Py.bind] in Hrun.
  destruct (cpu <=? 0); [discriminate |].
  apply (kmode_collect_order _ [] d); [| exact Hrun].
  simpl.
  apply (Permutation_NoDup
           (Permutation_map fst (Permutation_sym (as_completed_perm _ _)))).
  rewrite map_map. simpl. rewrite map_id. exact Hnd.
Qed.

(** Three ks finishing in reverse: the keys come out as 4, 3, 2. *)
Lemma multi_kmode_key_order_witness :
  map fst [(4, kmode_bundle Examples.three_runs [0; 0; 0; 1; 1; 1] 4);
           (3, kmode_bundle Examples.three_runs [0; 0; 0; 1; 1; 1] 3);
           (2, kmode_bundle Examples.three_runs [0; 0; 0; 1; 1; 1] 2)]
  = map fst (@as_completed Toy.reversed _
               (map (fun k => (k, @_kmode_on_multi_leiden Toy.kmodes Examples.three_runs k))
                    [2; 3; 4]))
  /\ map row_k (overall_df
                  [(4, kmode_bundle Examples.three_runs [0; 0; 0; 1; 1; 1] 4);
                   (3, kmode_bundle Examples.three_runs [0; 0; 0; 1; 1; 1] 3);
                   (2, kmode_bundle Examples.three_runs [0; 0; 0; 1; 1; 1] 2)])
     = map fst [(4, kmode_bundle Examples.three_runs [0; 0; 0; 1; 1; 1] 4);
                (3, kmode_bundle Examples.three_runs [0; 0; 0; 1; 1; 1] 3);
                (2, kmode_bundle Examples.three_runs [0; 0; 0; 1; 1; 1] 2)].
Proof.
  apply (@multi_kmode_key_order Toy.kmodes Toy.reversed Examples.three_runs [2; 3; 4] 2).
  - repeat constructor; simpl; intuition discriminate.
  - reflexivity.
Defined.

(** * Palettes *)

Lemma py_slice_length {A : Type} (l : list A) (start : Z) (stop : option Z) :
  Z.of_nat (List.length (py_slice l start stop))
  = Z.max 0 (match stop with
             | Some i => slice_index (Z.of_nat (List.length l)) i
             | None => Z.of_nat (List.length l)
             end - slice_index (Z.of_nat (List.length l)) start).
Proof.
  unfold py_slice, slice_index. rewrite length_firstn, length_skipn.
  destruct stop as [i |]; destruct (start <? 0) eqn:Hs;
    try destruct (i <? 0) eqn:Hi; lia.
Qed.

(** X20: [continuous_color_palette] returns [[color]] for n = 1 and raises
    [ValueError] for n < 1; for n >= 2 and a border of at least one colour it
    returns exactly n colours, as its comment intends, provided the two
    seaborn palettes have the requested numbers of colours. *)
Theorem continuous_color_palette_length {S : Seaborn} (color : rgb) (n skip_border : Z) :
  (forall c m, 0 <= m -> Z.of_nat (List.length (light_palette c m)) = m) ->
  (forall c m, 0 <= m -> Z.of_nat (List.length (dark_palette_reversed c m)) = m) ->
  1 <= skip_border ->
  (n = 1 -> continuous_color_palette color n skip_border = Ok [color])
  /\ (n < 1 -> continuous_color_palette color n skip_border
               = Raise (ValueError "parameter n colors must >= 1."))
  /\ (2 <= n -> exists colors,
        continuous_color_palette color n skip_border = Ok colors
        /\ Z.of_nat (List.length colors) = n).
Proof.
  intros Hlight Hdark Hskip. unfold continuous_color_palette.
  split; [intros ->; reflexivity |]. split.
  - intros Hn. destruct (Z.eqb_spec n 1) as [-> | _]; [lia |].
    destruct (Z.ltb_spec n 1) as [_ | Hge]; [reflexivity | lia].
  - intros Hn. destruct (Z.eqb_spec n 1) as [-> | _]; [lia |].
    destruct (Z.ltb_spec n 1) as [Hlt | _]; [lia |].
    eexists. split; [reflexivity |].
    pose proof (Z.mul_div_le (n + 2 * skip_border) 2 ltac:(lia)) as Hle.
    pose proof (Z.mul_succ_div_gt (n + 2 * skip_border) 2 ltac:(lia)) as Hgt.
    set (light_n := (n + 2 * skip_border) / 2) in *.
    rewrite length_app, Nat2Z.inj_add, !py_slice_length.
    rewrite Hlight, Hdark by lia. unfold slice_index.
    destruct (skip_border <? 0) eqn:H1; destruct (1 <? 0) eqn:H2;
      destruct (- skip_border <? 0) eqn:H3; lia.
Qed.

(** Five greys with a border of one. *)
Lemma continuous_color_palette_length_witness :
  exists colors,
    @continuous_color_palette ToyPalette.greys 100 5 1 = Ok colors
    /\ Z.of_nat (List.length colors) = 5.
Proof.
  assert (forall c m, 0 <= m ->
            Z.of_nat (List.length (@light_palette ToyPalette.greys c m)) = m) as Hlight.
  { intros c m Hm. simpl. rewrite length_map, length_seq. lia. }
  assert (forall c m, 0 <= m ->
            Z.of_nat (List.length (@dark_palette_reversed ToyPalette.greys c m)) = m)
    as Hdark.
  { intros c m Hm. simpl. rewrite length_map, length_seq. lia. }
  destruct (@continuous_color_palette_length ToyPalette.greys 100 5 1 Hlight Hdark
              ltac:(lia)) as [_ [_ Hmany]].
  apply Hmany. lia.
Defined.

(** X21: with [skip_border] = 0 the slice [[1:-0]] of the dark palette is
    empty, so for n >= 2 the result holds only the light half: n // 2 colours,
    fewer than the n asked for. *)
Theorem continuous_color_palette_no_border {S : Seaborn} (color : rgb) (n : Z) :
  (forall c m, 0 <= m -> Z.of_nat (List.length (light_palette c m)) = m) ->
  2 <= n ->
  exists colors,
    continuous_color_palette color n 0 = Ok colors
    /\ Z.of_nat (List.length colors) = n / 2
    /\ Z.of_nat (List.length colors) < n.
Proof.
  intros Hlight Hn. unfold continuous_color_palette.
  destruct (Z.eqb_spec n 1) as [-> | _]; [lia |].
  destruct (Z.ltb_spec n 1) as [Hlt | _]; [lia |].
  eexists. split; [reflexivity |].
  pose proof (Z.mul_div_le n 2 ltac:(lia)) as Hle.
  assert (0 <= n / 2) as Hhalf by (apply Z.div_pos; lia).
  replace (n + 2 * 0) with n by lia.
  rewrite length_app, Nat2Z.inj_add, !py_slice_length.
  rewrite Hlight by lia. unfold slice_index. simpl (- 0).
  destruct (0 <? 0) eqn:H0; [lia |]. destruct (1 <? 0) eqn:H1; lia.
Qed.

Lemma continuous_color_palette_no_border_witness :
  exists colors,
    @continuous_color_palette ToyPalette.greys 100 5 0 = Ok colors
    /\ Z.of_nat (List.length colors) = 5 / 2
    /\ Z.of_nat (List.length colors) < 5.
Proof.
  apply (@continuous_color_palette_no_border ToyPalette.greys 100 5).
  - intros c m Hm. simpl. rewrite length_map, length_seq. lia.
  - lia.
Defined.

(** * Ambiguity records, metrics and candidate ranges *)

(** ** Dictionaries with a decidable key equality *)

Section DictFacts.
Context {K V : Type} (eqb : K -> K -> bool).
Hypothesis eqb_spec : forall a b : K, reflect (a = b) (eqb a b).



Lemma dict_set_keys_gen (d : dict K V) (k : K) (v : V) (k' : K) :
  In k' (map fst (dict_set eqb d k v)) <-> k' = k \/ In k' (map fst d).
Proof.
  induction d as [| [k0 v0] d IH]; simpl.
  - intuition.
  - destruct (eqb_spec k k0) as [-> | Hne]; simpl.
    + intuition.
    + rewrite IH. intuition.
Qed.

Lemma dict_set_NoDup_gen (d : dict K V) (k : K) (v : V) :
  NoDup (map fst d) -> NoDup (map fst (dict_set eqb d k v)).
Proof.
  induction d as [| [k0 v0] d IH]; simpl; intros Hnd.
  - constructor; [intros [] | constructor].
  - inversion Hnd as [| x l Hx Hl]; subst.
    destruct (eqb_spec k k0) as [-> | Hne]; simpl.
    + constructor; assumption.
    + constructor; [| apply IH; exact Hl].
      intros Hin. apply dict_set_keys_gen in Hin. destruct Hin as [Heq | Hin];
        [congruence | contradiction].
Qed.


End DictFacts.

(** ** Records filed under the name of the row *)

Section Named.
Context {V : Type} (name : nat -> string).

Lemma filed_keys (records : dict nat V) (d0 : dict string V) (key : string) :
  In key (map fst (filed name records d0))
  <-> In key (map fst d0) \/ exists cell, In cell (map fst records) /\ name cell = key.
Proof.
  unfold filed. revert d0. induction records as [| [cell v] records IH]; intros d0; simpl.
  - split; [intros Hin; left; exact Hin | intros [Hin | [cell [[] _]]]; exact Hin].
  - rewrite IH, (dict_set_keys_gen String.eqb String.eqb_spec). simpl. split.
    + intros [[-> | Hin] | [cell' [Hin Hname]]].
      * right. exists cell. split; [left; reflexivity | reflexivity].
      * left. exact Hin.
      * right. exists cell'. split; [right; exact Hin | exact Hname].
    + intros [Hin | [cell' [[<- | Hin] Hname]]].
      * left. right. exact Hin.
      * left. left. symmetry. exact Hname.
      * right. exists cell'. split; assumption.
Qed.

Lemma filed_NoDup (records : dict nat V) (d0 : dict string V) :
  NoDup (map fst d0) -> NoDup (map fst (filed name records d0)).
Proof.
  unfold filed. revert d0. induction records as [| [cell v] records IH]; intros d0 Hnd; simpl.
  - exact Hnd.
  - apply IH. apply (dict_set_NoDup_gen String.eqb String.eqb_spec). exact Hnd.
Qed.


End Named.

(** ** One ambiguity record per cell name *)

(** The loop of line 116 visits every row of the table once. *)
Lemma cell_ambiguity_positions {KM : KModes} (results : frame) (k : Z) (b : ResultBundle) :
  _kmode_on_multi_leiden results k = Ok b ->
  NoDup (map fst (cell_ambiguity b))
  /\ (forall cell, In cell (map fst (cell_ambiguity b)) <-> (cell < nrows results)%nat).
Proof.
  intros Hb. destruct (kmode_bundle_of results k b Hb) as [clusters [_ [Hlen ->]]].
  unfold kmode_bundle. cbn [cell_ambiguity].
  rewrite cell_ambiguity_keys. split.
  - apply flat_map_groups_NoDup. apply sorted_unique_NoDup.
  - intros cell. rewrite in_flat_map. split.
    + intros [c [_ Hcell]]. apply cells_of_In in Hcell.
      assert (cell < List.length clusters)%nat
        by (apply nth_error_Some; congruence).
      lia.
    + intros Hcell. rewrite <- Hlen in Hcell.
      destruct (nth_error clusters cell) as [c |] eqn:Hnth.
      * exists c. split; [| apply cells_of_In; exact Hnth].
        apply sorted_unique_In. eapply nth_error_In. exact Hnth.
      * apply nth_error_None in Hnth. lia.
Qed.

Lemma names_of_positions (obs_names : list string) (n : nat) (name : string) :
  List.length obs_names = n ->
  (exists cell, (cell < n)%nat /\ nth cell obs_names EmptyString = name)
  <-> In name obs_names.
Proof.
  intros Hlen. split.
  - intros [cell [Hcell <-]]. apply nth_In. lia.
  - intros Hin. destruct (In_nth _ _ EmptyString Hin) as [cell [Hcell Hnth]].
    exists cell. split; [lia | exact Hnth].
Qed.

(** X8: the series [cell_ambiguity] holds one record per cell name: no name
    occurs twice among its keys, its keys are exactly the names of the rows,
    and the number of records is the number of distinct names. When the names
    of the rows are pairwise distinct there is one record for every row;
    rows that share a name share one record. *)
Theorem cell_ambiguity_one_record_per_name
        {KM : KModes} (results : frame) (k : Z) (b : ResultBundle)
        (obs_names : list string) :
  List.length obs_names = nrows results ->
  _kmode_on_multi_leiden results k = Ok b ->
  NoDup (map fst (cell_ambiguity_records obs_names b))
  /\ (forall name, In name (map fst (cell_ambiguity_records obs_names b))
                   <-> In name obs_names)
  /\ List.length (cell_ambiguity_records obs_names b)
     = List.length (nodup string_dec obs_names)
  /\ (NoDup obs_names ->
      Permutation (map fst (cell_ambiguity_records obs_names b)) obs_names
      /\ List.length (cell_ambiguity_records obs_names b) = nrows results).
Proof.
  intros Hlen Hb. destruct (cell_ambiguity_positions results k b Hb) as [_ Hpos].
  assert (NoDup (map fst (cell_ambiguity_records obs_names b))) as Hnd
      by (apply filed_NoDup; constructor).
  assert (forall name, In name (map fst (cell_ambiguity_records obs_names b))
                       <-> In name obs_names) as Hkeys.
  { intros name. unfold cell_ambiguity_records. rewrite filed_keys.
    rewrite <- (names_of_positions obs_names (nrows results) name Hlen). split.
    - intros [[] | [cell [Hcell Hname]]]. exists cell. split; [apply Hpos; exact Hcell | exact Hname].
    - intros [cell [Hcell Hname]]. right. exists cell. split; [apply Hpos; exact Hcell | exact Hname]. }
  split; [exact Hnd |]. split; [exact Hkeys |]. split.
  - rewrite <- (length_map fst).
    apply Permutation_length. apply NoDup_Permutation; [exact Hnd | apply NoDup_nodup |].
    intros name. rewrite Hkeys. symmetry. apply nodup_In.
  - intros Hnames.
    assert (Permutation (map fst (cell_ambiguity_records obs_names b)) obs_names) as Hperm
        by (apply NoDup_Permutation; assumption).
    split; [exact Hperm |].
    rewrite <- Hlen, <- (length_map fst). apply Permutation_length. exact Hperm.
Qed.

(** Six rows whose last two share a name: five records. *)
Lemma cell_ambiguity_one_record_per_name_witness :
  NoDup (map fst (cell_ambiguity_records MoreExamples.names_repeated
                                         MoreExamples.bundle_skewed))
  /\ List.length (cell_ambiguity_records MoreExamples.names_repeated
                                         MoreExamples.bundle_skewed) = 5%nat
  /\ nrows MoreExamples.skewed_runs = 6%nat.
Proof.
  destruct (@cell_ambiguity_one_record_per_name Toy.kmodes MoreExamples.skewed_runs 2
              MoreExamples.bundle_skewed MoreExamples.names_repeated
              eq_refl eq_refl) as [Hnd [_ [Hcount _]]].
  split; [exact Hnd |]. split; [| reflexivity].
  rewrite Hcount. reflexivity.
Defined.

(** ** The modal label of a cluster in a run column *)










(** ** Bounds of the metrics *)





(** ** The candidate k values of the ["auto"] policy *)













